(** * Star catalog generator: shallow embedding of [src/app.ts]

    The generator reads six fixed-format text sources, reconciles them in a
    shared registry ([fk5Index]) and serializes the registry with
    [writeStarCatalog].  The development below embeds the five parsing
    stages and the writer, and proves properties of the registry layout,
    of the inclusion rules and of the byte stream.

    Conventions of the embedding.
    - A source line is represented by the values the code extracts from it:
      each field of a line record names the [substring]/[split] expression it
      stands for, already passed through [toNumber] where the code does so.
      Text fields the code inspects (names, codes, notes) stay strings.
    - JavaScript numbers holding identifiers are integers ([Z]); numbers
      holding coordinates, proper motions and magnitudes are rationals
      ([Q]) that stand for the values of the doubles.  The arithmetic of
      the magnitude byte is carried out in binary64 ([toDouble], round to
      nearest, ties to even); in the conversions of coordinates and proper
      motions the rounding is not modelled.
    - [cos] and [toMixedCase] come from libraries outside the repository and
      are section variables.
    - Star records are JavaScript objects shared between [fk5Index] and
      [bscIndex]; they live in an explicit [heap] and the two indexes hold
      references into it.
    - An uncaught [TypeError] or [RangeError] aborts the run; fallible
      stages return [option]. *)

From Stdlib Require Import ZArith QArith Qround Qminmax Lqa Strings.String Strings.Ascii List Lia Bool.
From stdpp Require Import base option list gmap.

Local Open Scope Z_scope.

(** ** JavaScript string primitives *)

Module JsString.

Definition code (c : ascii) : nat := nat_of_ascii c.

(** White space stripped by [String.prototype.trim], restricted to the
    seven-bit range the catalogs use. *)
Definition isSpace (c : ascii) : bool :=
  Nat.eqb (code c) 32 || (Nat.leb 9 (code c) && Nat.leb (code c) 13).

Definition isDigit (c : ascii) : bool :=
  Nat.leb 48 (code c) && Nat.leb (code c) 57.

Definition isLower (c : ascii) : bool :=
  Nat.leb 97 (code c) && Nat.leb (code c) 122.

Definition isUpper (c : ascii) : bool :=
  Nat.leb 65 (code c) && Nat.leb (code c) 90.

Definition isEmpty (s : string) : bool :=
  match s with EmptyString => true | String _ _ => false end.

Fixpoint trimStart (s : string) : string :=
  match s with
  | EmptyString => EmptyString
  | String c r => if isSpace c then trimStart r else s
  end.

Fixpoint trimEnd (s : string) : string :=
  match s with
  | EmptyString => EmptyString
  | String c r =>
      let r' := trimEnd r in
      if isSpace c && isEmpty r' then EmptyString else String c r'
  end.

Definition trim (s : string) : string := trimEnd (trimStart s).

Definition lowerChar (c : ascii) : ascii :=
  if isUpper c then ascii_of_nat (code c + 32) else c.

Fixpoint toLowerCase (s : string) : string :=
  match s with
  | EmptyString => EmptyString
  | String c r => String (lowerChar c) (toLowerCase r)
  end.

(** [s.substring(a, b)] for [a <= b]; both ends are clamped to the length. *)
Definition substring (a b : nat) (s : string) : string :=
  String.substring a (b - a) s.

(** [s.indexOf(c)] for a one-character needle; [None] stands for [-1]. *)
Fixpoint indexOfChar (c : ascii) (s : string) : option nat :=
  match s with
  | EmptyString => None
  | String d r =>
      if Ascii.eqb c d then Some O else S <$> indexOfChar c r
  end.

(** [s.startsWith(p)]. *)
Definition startsWith (p s : string) : bool := String.prefix p s.

(** [s.replace(pat, rep)] with a string pattern: first occurrence only. *)
Fixpoint replaceFirst (pat rep s : string) : string :=
  if String.prefix pat s
  then String.append rep (String.substring (String.length pat)
                            (String.length s - String.length pat) s)
  else match s with
       | EmptyString => EmptyString
       | String c r => String c (replaceFirst pat rep r)
       end.

(** [arr.indexOf(x)] on an array of strings, [-1] when absent. *)
Fixpoint indexOf (x : string) (l : list string) : Z :=
  match l with
  | [] => -1
  | y :: r =>
      if String.eqb x y then 0
      else let i := indexOf x r in if i <? 0 then -1 else i + 1
  end.

Fixpoint any (p : ascii -> bool) (s : string) : bool :=
  match s with
  | EmptyString => false
  | String c r => p c || any p r
  end.

End JsString.

Arguments JsString.indexOf : simpl never.
Arguments JsString.trim : simpl never.
Arguments JsString.toLowerCase : simpl never.
Arguments JsString.substring : simpl never.
Arguments JsString.replaceFirst : simpl never.

(** ** Constant tables and limits *)

Local Open Scope string_scope.

Definition bayerRanks : list string :=
  ["alp"; "bet"; "gam"; "del"; "eps"; "zet"; "eta"; "the"; "iot"; "kap";
   "lam"; "mu"; "nu"; "xi"; "omi"; "pi"; "rho"; "sig"; "tau"; "ups";
   "phi"; "chi"; "psi"; "ome"].

Definition constellationCodes : list string :=
  ["and"; "ant"; "aps"; "aql"; "aqr"; "ara"; "ari"; "aur"; "boo"; "cae";
   "cam"; "cap"; "car"; "cas"; "cen"; "cep"; "cet"; "cha"; "cir"; "cma";
   "cmi"; "cnc"; "col"; "com"; "cra"; "crb"; "crt"; "cru"; "crv"; "cvn";
   "cyg"; "del"; "dor"; "dra"; "equ"; "eri"; "for"; "gem"; "gru"; "her";
   "hor"; "hya"; "hyi"; "ind"; "lac"; "leo"; "lep"; "lib"; "lmi"; "lup";
   "lyn"; "lyr"; "men"; "mic"; "mon"; "mus"; "nor"; "oct"; "oph"; "ori";
   "pav"; "peg"; "per"; "phe"; "pic"; "psa"; "psc"; "pup"; "pyx"; "ret";
   "scl"; "sco"; "sct"; "ser"; "sex"; "sge"; "sgr"; "tau"; "tel"; "tra";
   "tri"; "tuc"; "uma"; "umi"; "vel"; "vir"; "vol"; "vul"].

Local Close Scope string_scope.

(** Legacy inclusion list of bright-star numbers. *)
Definition bscExtras : list Z :=
  [8; 87; 340; 1643; 1751; 3732; 4030; 4067; 4531; 5223; 5473; 5714; 5888;
   6970; 8076].

Definition magLimitBSC : Q := 6.
Definition magLimitHipparcos : Q := 6.25.

(** [bscExtras.includes(n)]. *)
Definition includes (n : Z) (l : list Z) : bool := existsb (Z.eqb n) l.

(** Comparisons of JavaScript numbers held as rationals. *)
Definition Qleb (x y : Q) : bool := Qle_bool x y.
Definition Qgtb (x y : Q) : bool := negb (Qle_bool x y).
Definition Qgeb (x y : Q) : bool := Qle_bool y x.

(** ** Data model ([src/types.ts]) *)

(** A field that was never assigned is [undefined]: [None].  The unused
    field [ngcIcClass] is left out. *)
Record StarInfo := mkStar {
  fk5Num : option Z;
  bscNum : option Z;
  hipNum : option Z;
  ngcIcNum : option Z;
  flamsteed : option Z;
  bayerRank : option Z;
  subIndex : option Z;
  constellation : option Z;
  messierNum : option Z;
  name : option string;
  RA : option Q;
  DE : option Q;
  pmRA : option Q;
  pmDE : option Q;
  vmag : option Q
}.

Record NGCMatchInfo := mkNgc {
  ngc_ngcIcNum : Z;
  ngc_messierNum : Z;
  ngc_name : string
}.

(** References to star objects. *)
Abbreviation loc := nat (only parsing).

(** The module-level variables of [app.ts].  Counters that only feed the
    console summary ([totalFK5], [fk5UpdatesFromHIP], [bscUpdatesFromHIP],
    [dupes], [nameCount], [namedNSOs]) are left out. *)
Record State := mkState {
  heap : list StarInfo;
  fk5Index : gmap Z loc;
  hd2fk5 : gmap Z Z;
  bscIndex : gmap Z loc;
  hd2bsc : gmap Z Z;
  bsc2fk5 : gmap Z Z;
  ngcs : gmap Z NGCMatchInfo;
  totalBSC : Z;
  totalHIP : Z;
  totalDSO : Z;
  highestFK5 : Z;
  highestBSC : Z;
  highestHIP : Z;
  highestStar : Z;
  addedStars : Z;
  pleiades : option loc
}.

Definition initialState : State :=
  mkState [] ∅ ∅ ∅ ∅ ∅ ∅ 0 0 0 0 0 0 0 0 None.

(** The record a registry key designates, through the heap. *)
Definition starAt (s : State) (k : Z) : option StarInfo :=
  l ← fk5Index s !! k; heap s !! l.

(** Assignments to one module-level variable. *)
Definition withHeap (v : list StarInfo) (s : State) : State :=
  mkState v (fk5Index s) (hd2fk5 s) (bscIndex s) (hd2bsc s) (bsc2fk5 s) (ngcs s) (totalBSC s) (totalHIP s) (totalDSO s) (highestFK5 s) (highestBSC s) (highestHIP s) (highestStar s) (addedStars s) (pleiades s).
Definition withFk5Index (v : gmap Z loc) (s : State) : State :=
  mkState (heap s) v (hd2fk5 s) (bscIndex s) (hd2bsc s) (bsc2fk5 s) (ngcs s) (totalBSC s) (totalHIP s) (totalDSO s) (highestFK5 s) (highestBSC s) (highestHIP s) (highestStar s) (addedStars s) (pleiades s).
Definition withHd2fk5 (v : gmap Z Z) (s : State) : State :=
  mkState (heap s) (fk5Index s) v (bscIndex s) (hd2bsc s) (bsc2fk5 s) (ngcs s) (totalBSC s) (totalHIP s) (totalDSO s) (highestFK5 s) (highestBSC s) (highestHIP s) (highestStar s) (addedStars s) (pleiades s).
Definition withBscIndex (v : gmap Z loc) (s : State) : State :=
  mkState (heap s) (fk5Index s) (hd2fk5 s) v (hd2bsc s) (bsc2fk5 s) (ngcs s) (totalBSC s) (totalHIP s) (totalDSO s) (highestFK5 s) (highestBSC s) (highestHIP s) (highestStar s) (addedStars s) (pleiades s).
Definition withHd2bsc (v : gmap Z Z) (s : State) : State :=
  mkState (heap s) (fk5Index s) (hd2fk5 s) (bscIndex s) v (bsc2fk5 s) (ngcs s) (totalBSC s) (totalHIP s) (totalDSO s) (highestFK5 s) (highestBSC s) (highestHIP s) (highestStar s) (addedStars s) (pleiades s).
Definition withBsc2fk5 (v : gmap Z Z) (s : State) : State :=
  mkState (heap s) (fk5Index s) (hd2fk5 s) (bscIndex s) (hd2bsc s) v (ngcs s) (totalBSC s) (totalHIP s) (totalDSO s) (highestFK5 s) (highestBSC s) (highestHIP s) (highestStar s) (addedStars s) (pleiades s).
Definition withNgcs (v : gmap Z NGCMatchInfo) (s : State) : State :=
  mkState (heap s) (fk5Index s) (hd2fk5 s) (bscIndex s) (hd2bsc s) (bsc2fk5 s) v (totalBSC s) (totalHIP s) (totalDSO s) (highestFK5 s) (highestBSC s) (highestHIP s) (highestStar s) (addedStars s) (pleiades s).
Definition withTotalBSC (v : Z) (s : State) : State :=
  mkState (heap s) (fk5Index s) (hd2fk5 s) (bscIndex s) (hd2bsc s) (bsc2fk5 s) (ngcs s) v (totalHIP s) (totalDSO s) (highestFK5 s) (highestBSC s) (highestHIP s) (highestStar s) (addedStars s) (pleiades s).
Definition withTotalHIP (v : Z) (s : State) : State :=
  mkState (heap s) (fk5Index s) (hd2fk5 s) (bscIndex s) (hd2bsc s) (bsc2fk5 s) (ngcs s) (totalBSC s) v (totalDSO s) (highestFK5 s) (highestBSC s) (highestHIP s) (highestStar s) (addedStars s) (pleiades s).
Definition withTotalDSO (v : Z) (s : State) : State :=
  mkState (heap s) (fk5Index s) (hd2fk5 s) (bscIndex s) (hd2bsc s) (bsc2fk5 s) (ngcs s) (totalBSC s) (totalHIP s) v (highestFK5 s) (highestBSC s) (highestHIP s) (highestStar s) (addedStars s) (pleiades s).
Definition withHighestFK5 (v : Z) (s : State) : State :=
  mkState (heap s) (fk5Index s) (hd2fk5 s) (bscIndex s) (hd2bsc s) (bsc2fk5 s) (ngcs s) (totalBSC s) (totalHIP s) (totalDSO s) v (highestBSC s) (highestHIP s) (highestStar s) (addedStars s) (pleiades s).
Definition withHighestBSC (v : Z) (s : State) : State :=
  mkState (heap s) (fk5Index s) (hd2fk5 s) (bscIndex s) (hd2bsc s) (bsc2fk5 s) (ngcs s) (totalBSC s) (totalHIP s) (totalDSO s) (highestFK5 s) v (highestHIP s) (highestStar s) (addedStars s) (pleiades s).
Definition withHighestHIP (v : Z) (s : State) : State :=
  mkState (heap s) (fk5Index s) (hd2fk5 s) (bscIndex s) (hd2bsc s) (bsc2fk5 s) (ngcs s) (totalBSC s) (totalHIP s) (totalDSO s) (highestFK5 s) (highestBSC s) v (highestStar s) (addedStars s) (pleiades s).
Definition withHighestStar (v : Z) (s : State) : State :=
  mkState (heap s) (fk5Index s) (hd2fk5 s) (bscIndex s) (hd2bsc s) (bsc2fk5 s) (ngcs s) (totalBSC s) (totalHIP s) (totalDSO s) (highestFK5 s) (highestBSC s) (highestHIP s) v (addedStars s) (pleiades s).
Definition withAddedStars (v : Z) (s : State) : State :=
  mkState (heap s) (fk5Index s) (hd2fk5 s) (bscIndex s) (hd2bsc s) (bsc2fk5 s) (ngcs s) (totalBSC s) (totalHIP s) (totalDSO s) (highestFK5 s) (highestBSC s) (highestHIP s) (highestStar s) v (pleiades s).
Definition withPleiades (v : option loc) (s : State) : State :=
  mkState (heap s) (fk5Index s) (hd2fk5 s) (bscIndex s) (hd2bsc s) (bsc2fk5 s) (ngcs s) (totalBSC s) (totalHIP s) (totalDSO s) (highestFK5 s) (highestBSC s) (highestHIP s) (highestStar s) (addedStars s) v.

(** Assignments to one property of a star object. *)
Definition setBscNum (v : option Z) (o : StarInfo) : StarInfo :=
  mkStar (fk5Num o) v (hipNum o) (ngcIcNum o) (flamsteed o) (bayerRank o) (subIndex o) (constellation o) (messierNum o) (name o) (RA o) (DE o) (pmRA o) (pmDE o) (vmag o).
Definition setDesignation (f b i c : option Z) (o : StarInfo) : StarInfo :=
  mkStar (fk5Num o) (bscNum o) (hipNum o) (ngcIcNum o) f b i c (messierNum o) (name o) (RA o) (DE o) (pmRA o) (pmDE o) (vmag o).
Definition setName (v : option string) (o : StarInfo) : StarInfo :=
  mkStar (fk5Num o) (bscNum o) (hipNum o) (ngcIcNum o) (flamsteed o) (bayerRank o) (subIndex o) (constellation o) (messierNum o) v (RA o) (DE o) (pmRA o) (pmDE o) (vmag o).
Definition setAstrometry (ra de pra pde mag : option Q) (o : StarInfo) : StarInfo :=
  mkStar (fk5Num o) (bscNum o) (hipNum o) (ngcIcNum o) (flamsteed o) (bayerRank o) (subIndex o) (constellation o) (messierNum o) (name o) ra de pra pde mag.

(** [new] object: the reference returned is the next free heap cell. *)
Definition alloc (o : StarInfo) (s : State) : loc * State :=
  (length (heap s), withHeap (heap s ++ [o]) s).

(** In-place update of the object behind a reference. *)
Definition update (l : loc) (f : StarInfo -> StarInfo) (s : State) : State :=
  withHeap (alter f l (heap s)) s.

(** ** Stand-ins for the two library functions

    They instantiate the section variables below when a property is run on
    concrete data. *)

(** Modelled from the spec: [toMixedCase] of [@tubular/util] is outside the
    repository; the specification says accepted names are converted to
    title case.  Every maximal run of letters gets an upper-case initial
    and lower-case remainder. *)
Fixpoint titleCaseFrom (inWord : bool) (s : string) : string :=
  match s with
  | EmptyString => EmptyString
  | String c r =>
      let letter := JsString.isLower c || JsString.isUpper c in
      let c' :=
        if inWord then JsString.lowerChar c
        else if JsString.isLower c
             then ascii_of_nat (JsString.code c - 32) else c in
      String c' (titleCaseFrom letter r)
  end.

Definition titleCase (s : string) : string := titleCaseFrom false s.

(** A rational stand-in for [cos(d * PI / 180)]: the Taylor polynomial of
    degree four, with [PI] taken as [355/113]. *)
Definition cosDegPoly (d : Q) : Q :=
  let x := (d * (355 # 113) / 180)%Q in
  (1 - x * x / 2 + x * x * x * x / 24)%Q.

(** ** The name filter of the primary loader *)

(** [FK5_NAMES_TO_SKIP = /\d|(^[a-z][a-km-z]? )/], as [RegExp.test]: a digit
    anywhere, or at offset 0 a lower-case letter, then optionally a
    lower-case letter other than [l], then a space. *)
Definition FK5_NAMES_TO_SKIP (s : string) : bool :=
  JsString.any JsString.isDigit s ||
  match s with
  | String c0 (String c1 r) =>
      JsString.isLower c0 &&
      (Ascii.eqb c1 " " ||
       (JsString.isLower c1 && negb (Ascii.eqb c1 "l") &&
        match r with
        | String c2 _ => Ascii.eqb c2 " "
        | EmptyString => false
        end))
  | _ => false
  end.

(** ** Stage 1: [processCrossIndex] *)

(** One line of the FK5/SAO/HD cross index. *)
Record FK5Line := mkFK5Line {
  fk5_blank : bool;              (* !line.trim() *)
  fk5_fk5Num : Z;                (* toNumber(line.substring(0, 4)) *)
  fk5_ra_hours : Q;              (* toNumber(line.substring(6, 8)) *)
  fk5_ra_mins : Q;               (* toNumber(line.substring(9, 11)) *)
  fk5_ra_secs : Q;               (* toNumber(line.substring(12, 18)) *)
  fk5_pmRA : Q;                  (* toNumber(line.substring(19, 26)) *)
  fk5_de_minus : bool;           (* line.charAt(27) === '-' *)
  fk5_de_degs : Q;               (* toNumber(line.substring(28, 30)) *)
  fk5_de_mins : Q;               (* toNumber(line.substring(31, 33)) *)
  fk5_de_secs : Q;               (* toNumber(line.substring(34, 39)) *)
  fk5_pmDE : Q;                  (* toNumber(line.substring(40, 47)) *)
  fk5_vmag : Q;                  (* toNumber(line.substring(59, 64)) *)
  fk5_hd : option Z;             (* toNumber(line.substring(86, 92)), when line.length >= 92 *)
  fk5_bayerFlamsteed : string;   (* line.substring(93, 96) *)
  fk5_flamsteedNum : Z;          (* toNumber of that field, trimmed and lower-cased *)
  fk5_subIndex : Z;              (* toNumber(line.substring(96, 97)) *)
  fk5_constellation : string;    (* line.substring(98, 102) *)
  fk5_name : string              (* line.substring(103) *)
}.

(** [h + m / 60.0 + s / 3600.0], and the sign factor of a declination. *)
Definition sexagesimal (d m sec : Q) : Q := (d + m / 60 + sec / 3600)%Q.
Definition signOf (minus : bool) : Q := if minus then (-1)%Q else 1%Q.

(** Lines 184-204: Flamsteed number, Bayer rank, sub-index, constellation. *)
Definition fk5Designation (l : FK5Line)
  : option Z * option Z * option Z * option Z :=
  let bf := JsString.toLowerCase (JsString.trim (fk5_bayerFlamsteed l)) in
  let '(fl, br, si) :=
    if JsString.isEmpty bf then (0, None, None)
    else
      let fl := fk5_flamsteedNum l in
      if fl =? 0 then
        let br := JsString.indexOf bf bayerRanks + 1 in
        (fl, Some br, if 0 <? br then Some (fk5_subIndex l) else None)
      else (fl, None, None) in
  if negb (fl =? 0) || negb (bool_decide (br = Some 0)) then
    let c := JsString.indexOf
               (JsString.replaceFirst "pet" "peg"
                  (JsString.toLowerCase (JsString.trim (fk5_constellation l))))
               constellationCodes + 1 in
    if c =? 0 then (Some 0, Some 0, Some 0, Some c)
    else (Some fl, br, si, Some c)
  else (Some fl, br, si, None).

Section Generator.

(** [toMixedCase] of [@tubular/util]. *)
Variable toMixedCase : string -> string.
(** [d => cos(d * Math.PI / 180.0)] of [@tubular/math]. *)
Variable cosDeg : Q -> Q.

(** Lines 206-216: the name kept for a line, from [line.substring(103)]. *)
Definition candidateName (tail : string) : string :=
  let name := JsString.trim tail in
  if JsString.isEmpty name then name
  else match JsString.indexOfChar ";" name with
       | Some pos => JsString.trim (JsString.substring 0 pos name)
       | None => name
       end.

Definition acceptName (name : string) : option string :=
  if negb (JsString.isEmpty name) && negb (FK5_NAMES_TO_SKIP name)
  then Some (toMixedCase name) else None.

Definition fk5Name (tail : string) : option string :=
  acceptName (candidateName tail).

Definition fk5Star (l : FK5Line) : StarInfo :=
  let '(fl, br, si, c) := fk5Designation l in
  mkStar (Some (fk5_fk5Num l)) None None None fl br si c None
         (fk5Name (fk5_name l))
         (Some (sexagesimal (fk5_ra_hours l) (fk5_ra_mins l) (fk5_ra_secs l)))
         (Some (sexagesimal (fk5_de_degs l) (fk5_de_mins l) (fk5_de_secs l)
                * signOf (fk5_de_minus l))%Q)
         (Some (fk5_pmRA l)) (Some (fk5_pmDE l)) (Some (fk5_vmag l)).

(** The object literal assigned to [pleiades] (lines 222-230). *)
Definition pleiadesOf (o : StarInfo) : StarInfo :=
  mkStar None None None None None None None None (Some 45)
         (Some "Pleiades"%string) (RA o) (DE o) (pmRA o) (pmDE o)
         (Some 1.6%Q).

(** Body of the loop of [processCrossIndex]. *)
Definition crossIndexLine (s : State) (l : FK5Line) : State :=
  if fk5_blank l then s
  else
    let star := fk5Star l in
    let hi := Z.max (highestFK5 s) (fk5_fk5Num l) in
    let s := withHighestStar hi (withHighestFK5 hi s) in
    let s :=
      match fk5_hd l with
      | Some hd =>
          if 0 <? hd then withHd2fk5 (<[hd := fk5_fk5Num l]> (hd2fk5 s)) s
          else s
      | None => s
      end in
    let '(r, s) := alloc star s in
    let s := withFk5Index (<[fk5_fk5Num l := r]> (fk5Index s)) s in
    if fk5_fk5Num l =? 139 then
      let '(p, s) := alloc (pleiadesOf star) s in
      withPleiades (Some p) s
    else s.

Definition processCrossIndex (s : State) (lines : list FK5Line) : State :=
  fold_left crossIndexLine lines s.

(** ** Stage 2: [processYaleBrightStarCatalog] *)

(** One line of the Yale Bright Star Catalog. *)
Record BSCLine := mkBSCLine {
  bsc_blank : bool;            (* !line.trim() *)
  bsc_bscNum : Z;              (* toNumber(line.substring(0, 4)) *)
  bsc_name : string;           (* line.substring(4, 14) *)
  bsc_hd : Z;                  (* toNumber(line.substring(25, 31)) *)
  bsc_fk5 : option Z;          (* line.substring(37, 41): None when blank, else its toNumber *)
  bsc_ra_hours : Q;            (* toNumber(line.substring(75, 77)) *)
  bsc_ra_mins : Q;             (* toNumber(line.substring(77, 79)) *)
  bsc_ra_secs : Q;             (* toNumber(line.substring(79, 83)) *)
  bsc_de_minus : bool;         (* line.charAt(83) === '-' *)
  bsc_de_degs : Q;             (* toNumber(line.substring(84, 86)) *)
  bsc_de_mins : Q;             (* toNumber(line.substring(86, 88)) *)
  bsc_de_secs : Q;             (* toNumber(line.substring(88, 90)) *)
  bsc_vmag : option Q;         (* line.substring(102, 107).trim(): None when empty, else its toNumber *)
  bsc_pmRA : Q;                (* toNumber(line.substring(148, 154)) *)
  bsc_pmDE : Q;                (* toNumber(line.substring(154, 160)) *)
  bsc_flamsteedNum : Z;        (* toNumber(name.substring(0, 3).trim()) *)
  bsc_subIndex : Z             (* toNumber(name.substring(6, 7)) *)
}.

(** The variables of the first scan that survive an iteration. *)
Record Scan := mkScan {
  lastBSC : Z;
  lastFK5 : Z;
  lastName : string;
  lastMag : Q
}.

Definition initialScan : Scan := mkScan (-1) (-1) EmptyString 999.9%Q.

(** [toNumber(line.substring(37, 41))], reset to 0 above [highestFK5]. *)
Definition scanFK5 (s : State) (l : BSCLine) : Z :=
  let n := default 0 (bsc_fk5 l) in
  if highestFK5 s <? n then 0 else n.

(** Body of the first loop (lines 247-285). *)
Definition scanLine (st : Scan * State) (l : BSCLine) : Scan * State :=
  let '(p, s) := st in
  if bsc_blank l then st
  else
    let currBSC := bsc_bscNum l in
    let s := withBsc2fk5 (<[currBSC := 0]> (bsc2fk5 s)) s in
    let currName := bsc_name l in
    let currFK5 := scanFK5 s l in
    match bsc_vmag l with
    | None => (p, s)
    | Some currMag =>
        if String.eqb currName (lastName p)
           && negb (JsString.isEmpty (JsString.trim currName))
        then
          let currFK5 := Z.max (lastFK5 p) currFK5 in
          let s := withBsc2fk5 (<[lastBSC p := currFK5]> (bsc2fk5 s)) s in
          let s := withBsc2fk5 (<[currBSC := currFK5]> (bsc2fk5 s)) s in
          if Qgeb currMag (lastMag p) then
            (mkScan (lastBSC p) currFK5 (lastName p) (lastMag p),
             withBsc2fk5 (delete currBSC (bsc2fk5 s)) s)
          else
            (mkScan currBSC currFK5 currName currMag,
             withBsc2fk5 (delete (lastBSC p) (bsc2fk5 s)) s)
        else (mkScan currBSC currFK5 currName currMag, s)
    end.

Definition scanLines (s : State) (lines : list BSCLine) : Scan * State :=
  fold_left scanLine lines (initialScan, s).

(** [bayerRanks.indexOf(name.substring(3, 6).trim().toLowerCase()) + 1]. *)
Definition bscBayerRank (nm : string) : Z :=
  JsString.indexOf
    (JsString.toLowerCase (JsString.trim (JsString.substring 3 6 nm)))
    bayerRanks + 1.

(** First conjunct of the test on lines 320-321: the magnitude, legacy
    list and Bayer rank criteria. *)
Definition brightEnough (vmag : Q) (bscNum bayerRank : Z) : bool :=
  Qleb vmag magLimitBSC || includes bscNum bscExtras ||
  ((0 <? bayerRank) &&
   (((bayerRank <? 14) && Qleb vmag 6) || ((bayerRank <? 8) && Qleb vmag 6.5))).

(** Truthiness of [fk5Index[k]]. *)
Definition hasStar (s : State) (k : Z) : bool :=
  bool_decide (is_Some (fk5Index s !! k)).

(** Second conjunct (line 322): no usable FK5 record to attach to. *)
Definition unmatched (s : State) (fk5 : Z) : bool :=
  (fk5 =? 0) || (highestFK5 s <? fk5) || negb (hasStar s fk5).

Definition bscStar (l : BSCLine) (vmag : Q) : StarInfo :=
  let de := (sexagesimal (bsc_de_degs l) (bsc_de_mins l) (bsc_de_secs l)
             * signOf (bsc_de_minus l))%Q in
  mkStar None None None None None None None None None None
         (Some (sexagesimal (bsc_ra_hours l) (bsc_ra_mins l) (bsc_ra_secs l)))
         (Some de)
         (Some (bsc_pmRA l * 6.6667 / cosDeg de)%Q)
         (Some (bsc_pmDE l * 100)%Q)
         (Some vmag).

(** Lines 323-348: a new registry entry after the last one. *)
Definition addBscStar (s : State) (l : BSCLine) (vmag : Q) : Z * State :=
  let s := withAddedStars (addedStars s + 1) s in
  let k := highestFK5 s + addedStars s in
  let '(r, s) := alloc (bscStar l vmag) s in
  let s := withFk5Index (<[k := r]> (fk5Index s)) s in
  let s := withTotalBSC (totalBSC s + 1) s in
  (k, withHighestStar k (withHighestBSC k s)).

(** Lines 351-369: bright-star fields on the resolved record. *)
Definition annotateBsc (s : State) (l : BSCLine) (k : Z) : State :=
  if 0 <? k then
    match fk5Index s !! k with
    | Some r =>
        let bscNum := bsc_bscNum l in
        let s := update r (setBscNum (Some bscNum)) s in
        let s := withBsc2fk5 (<[bscNum := k]> (bsc2fk5 s)) s in
        let s := withBscIndex (<[bscNum := r]> (bscIndex s)) s in
        let s := if 0 <? bsc_hd l
                 then withHd2bsc (<[bsc_hd l := bscNum]> (hd2bsc s)) s
                 else s in
        if negb (JsString.isEmpty (JsString.trim (bsc_name l))) then
          update r
            (setDesignation
               (Some (bsc_flamsteedNum l))
               (Some (bscBayerRank (bsc_name l)))
               (Some (bsc_subIndex l))
               (Some (JsString.indexOf
                        (JsString.toLowerCase
                           (JsString.substring 7 10 (bsc_name l)))
                        constellationCodes + 1))) s
        else s
    | None => s
    end
  else s.

(** Lines 298-308: the FK5 number of the line, or the one carried over
    from the first scan when the column is blank. *)
Definition resolvedFK5 (s : State) (l : BSCLine) (carried : Z) : Z :=
  match bsc_fk5 l with
  | None => carried
  | Some n => if highestFK5 s <? n then 0 else n
  end.

(** Body of the second loop (lines 289-370). *)
Definition mergeLine (s : State) (l : BSCLine) : State :=
  if bsc_blank l then s
  else
    match bsc2fk5 s !! bsc_bscNum l with
    | None => s
    | Some carried =>
        let fk5 := resolvedFK5 s l carried in
        match bsc_vmag l with
        | None => s
        | Some vmag =>
            if brightEnough vmag (bsc_bscNum l) (bscBayerRank (bsc_name l))
               && unmatched s fk5
            then let '(k, s) := addBscStar s l vmag in annotateBsc s l k
            else annotateBsc s l fk5
        end
    end.

Definition processYaleBrightStarCatalog (s : State) (lines : list BSCLine)
  : State :=
  fold_left mergeLine lines (snd (scanLines s lines)).

(** ** Stage 3: [processYaleBrightStarCatalogNotes] *)

Record NoteLine := mkNoteLine {
  note_blank : bool;           (* !line.trim() *)
  note_bscNum : Z;             (* toNumber(line.substring(0, 5)) *)
  note_code : string;          (* line.substring(5, 11) *)
  note_text : string           (* line.substring(12) *)
}.

(** Longest prefix of upper-case letters and spaces, and what follows. *)
Fixpoint upperRun (s : string) : string * string :=
  match s with
  | EmptyString => (EmptyString, EmptyString)
  | String c r =>
      if JsString.isUpper c || Ascii.eqb c " "
      then let '(run, rest) := upperRun r in (String c run, rest)
      else (EmptyString, s)
  end.

(** Group 1 of [/^([A-Z][A-Z ]+)[.;]/.exec(text)], when the text matches. *)
Definition notesName (text : string) : option string :=
  match text with
  | String c r =>
      if JsString.isUpper c then
        let '(run, rest) := upperRun r in
        match run, rest with
        | String _ _, String t _ =>
            if Ascii.eqb t "." || Ascii.eqb t ";"
            then Some (String c run) else None
        | _, _ => None
        end
      else None
  | EmptyString => None
  end.

(** Body of the loop (lines 377-397).  The assignment on line 395 throws
    when [fk5Index[bsc2fk5[bscNum]]] is [undefined]. *)
Definition notesLine (s : State) (l : NoteLine) : option State :=
  if note_blank l then Some s
  else if bool_decide (bsc2fk5 s !! note_bscNum l = Some 0) then Some s
  else if negb (String.eqb (JsString.trim (note_code l)) "1N:") then Some s
  else
    match notesName (note_text l) with
    | None => Some s
    | Some nm =>
        k ← bsc2fk5 s !! note_bscNum l;
        r ← fk5Index s !! k;
        Some (update r (setName (Some (toMixedCase nm))) s)
    end.

Fixpoint processYaleBrightStarCatalogNotes (s : State) (lines : list NoteLine)
  : option State :=
  match lines with
  | [] => Some s
  | l :: rest =>
      s' ← notesLine s l; processYaleBrightStarCatalogNotes s' rest
  end.

(** ** Stage 4: [processHipparcosStarCatalog] *)

(** One line of the Hipparcos query result, split at the pipes.  A text
    field is [None] when the part is missing or empty. *)
Record HIPLine := mkHIPLine {
  hip_isData : bool;           (* /^\|[^a-z]/i.test(line.trim()) *)
  hip_pmRA : option Q;         (* parts[1] *)
  hip_pmDE : option Q;         (* parts[2] *)
  hip_hipNum : Z;              (* toNumber(parts[3]) *)
  hip_vmag : option Q;         (* parts[4] *)
  hip_ra : option Q;           (* parts[5] *)
  hip_de : option Q;           (* parts[6] *)
  hip_hdNum : Z                (* toNumber(parts[7]) *)
}.

(** Lines 452-456 on one star object. *)
Definition astrometry (vmag' ra de pra pde : Q) (o : StarInfo) : StarInfo :=
  setAstrometry
    (Some (ra / 15)%Q)
    (Some de)
    (Some (pra * 0.0066667 / cosDeg de)%Q)
    (Some (pde / 10)%Q)
    (Some (Qmin vmag' (default vmag' (vmag o))))
    o.

Inductive Flow := Continue (s : State) | Break (s : State).

(** Lines 458-465. *)
Definition addHipStar (s : State) (r : loc) : State :=
  let s := withAddedStars (addedStars s + 1) s in
  let k := highestFK5 s + addedStars s in
  let s := withFk5Index (<[k := r]> (fk5Index s)) s in
  let s := withTotalHIP (totalHIP s + 1) s in
  withHighestStar k (withHighestHIP k s).

(** Body of the loop (lines 405-466); [None] is the [TypeError] raised by
    [star.vmag] on an [undefined] star. *)
Definition hipparcosLine (s : State) (l : HIPLine) : option Flow :=
  if negb (hip_isData l) then Some (Continue s)
  else if hip_hipNum l =? 0 then Some (Continue s)
  else
    match hip_ra l, hip_de l, hip_vmag l, hip_pmRA l, hip_pmDE l with
    | Some ra, Some de, Some vmag', Some pra, Some pde =>
        let hd := hip_hdNum l in
        let fk5 := if 0 <? hd then default 0 (hd2fk5 s !! hd) else 0 in
        let bsc := if 0 <? hd then default 0 (hd2bsc s !! hd) else 0 in
        if 0 <? fk5 then
          r ← fk5Index s !! fk5;
          _ ← heap s !! r;
          Some (Continue (update r (astrometry vmag' ra de pra pde) s))
        else if 0 <? bsc then
          r ← bscIndex s !! bsc;
          _ ← heap s !! r;
          Some (Continue (update r (astrometry vmag' ra de pra pde) s))
        else if Qgtb vmag' magLimitHipparcos then Some (Break s)
        else
          let o := mkStar None None (Some (hip_hipNum l)) None None None None
                          None None None None None None None None in
          let '(r, s) := alloc (astrometry vmag' ra de pra pde o) s in
          Some (Continue (addHipStar s r))
    | _, _, _, _, _ => Some (Continue s)
    end.

Fixpoint hipparcosLoop (s : State) (lines : list HIPLine) : option State :=
  match lines with
  | [] => Some s
  | l :: rest =>
      match hipparcosLine s l with
      | None => None
      | Some (Continue s') => hipparcosLoop s' rest
      | Some (Break s') => Some s'
      end
  end.

(** Lines 468-472: the synthetic M45 entry. *)
Definition addPleiades (s : State) : State :=
  match pleiades s with
  | Some p =>
      let s := withTotalDSO (totalDSO s + 1) s in
      withFk5Index (<[highestStar s + totalDSO s := p]> (fk5Index s)) s
  | None => s
  end.

Definition processHipparcosStarCatalog (s : State) (lines : list HIPLine)
  : option State :=
  addPleiades <$> hipparcosLoop s lines.

(** ** Stage 5: [processNgcNames] and [processNgcData] *)

Record NgcNameLine := mkNgcNameLine {
  nn_dash : bool;              (* line.startsWith('-') *)
  nn_empty : bool;             (* !line *)
  nn_name : string;            (* parts[0] *)
  nn_messier : Z;              (* toNumber(parts[0].trim().substring(1)) *)
  nn_ngcIcNum : option Z       (* parts[1]: None when missing or empty, else
                                  toNumber(ngcIcStr.substring(1)) * (ngcIcStr.startsWith('I') ? -1 : 1) *)
}.

(** Lines 516-533: record or extend the entry of [ngcs]. *)
Definition noteNgcName (tbl : gmap Z NGCMatchInfo) (n messier : Z) (nm : string)
  : gmap Z NGCMatchInfo :=
  match tbl !! n with
  | None => <[n := mkNgc n messier nm]> tbl
  | Some info =>
      let nm' :=
        if JsString.isEmpty (ngc_name info) then nm
        else if JsString.isEmpty nm then ngc_name info
             else String.append (ngc_name info) (String "/" nm) in
      let m' :=
        if negb (ngc_messierNum info =? 0) && negb (messier =? 0)
        then ngc_messierNum info
        else if negb (messier =? 0) then messier else ngc_messierNum info in
      <[n := mkNgc (ngc_ngcIcNum info) m' nm']> tbl
  end.

(** Body of the loop of [processNgcNames], with [dividerCount]. *)
Definition ngcNameLine (st : Z * State) (l : NgcNameLine) : Z * State :=
  let '(dividerCount, s) := st in
  if nn_dash l then (dividerCount + 1, s)
  else if nn_empty l || (dividerCount <? 2) then st
  else
    match nn_ngcIcNum l with
    | None => st
    | Some n =>
        if n =? 0 then st
        else
          let nm := JsString.trim (nn_name l) in
          let nm := if String.eqb nm "Great Nebula in Andromeda"
                    then "Andromeda galaxy"%string else nm in
          let '(messier, nm) :=
            if JsString.startsWith "M " nm then (nn_messier l, EmptyString)
            else (0, nm) in
          (dividerCount, withNgcs (noteNgcName (ngcs s) n messier nm) s)
    end.

Definition processNgcNames (s : State) (lines : list NgcNameLine) : State :=
  snd (fold_left ngcNameLine lines (0, s)).

(** [parts[2]] of a data line, by columns. *)
Record NgcPosition := mkNgcPosition {
  pos_ra_hours : Q;            (* toNumber(raAndD.substring(0, 2)) *)
  pos_ra_mins : Q;             (* toNumber(raAndD.substring(3, 7)) *)
  pos_de_minus : bool;         (* raAndD.charAt(8) === '-' *)
  pos_de_degs : Q;             (* toNumber(raAndD.substring(9, 11)) *)
  pos_de_mins : Q              (* toNumber(raAndD.substring(12, 14)) *)
}.

Record NgcDataLine := mkNgcDataLine {
  nd_dash : bool;              (* line.startsWith('-') *)
  nd_empty : bool;             (* !line *)
  nd_ngcIcNum : Z;             (* toNumber(parts[0].substring(1)) * (parts[0].startsWith('I') ? -1 : 1) *)
  nd_position : option NgcPosition;   (* parts[2], None when the part is missing *)
  nd_constellation : option string;   (* parts[4], None when the part is missing *)
  nd_vmag : Q                  (* toNumber(parts[7], 1000) *)
}.

(** Lines 564-589: the object built for a retained line. *)
Definition ngcStar (l : NgcDataLine) (info : option NGCMatchInfo)
           (p : NgcPosition) (c : string) : StarInfo :=
  mkStar (Some 0) (Some 0) None (Some (nd_ngcIcNum l))
         None None None
         (Some (JsString.indexOf (JsString.toLowerCase c) constellationCodes + 1))
         (Some (from_option ngc_messierNum 0 info))
         (ngc_name <$> info)
         (Some (pos_ra_hours p + pos_ra_mins p / 60)%Q)
         (Some ((pos_de_degs p + pos_de_mins p / 60) * signOf (pos_de_minus p))%Q)
         None None
         (Some (nd_vmag l)).

(** Body of the loop of [processNgcData]; [None] is the [TypeError] raised
    on a retained line without [parts[2]] or [parts[4]]. *)
Definition ngcDataLine (st : Z * State) (l : NgcDataLine)
  : option (Z * State) :=
  let '(dividerCount, s) := st in
  if nd_dash l then Some (dividerCount + 1, s)
  else if nd_empty l || (dividerCount <? 2) then Some st
  else
    let info := ngcs s !! nd_ngcIcNum l in
    if bool_decide (info = None) && Qgtb (nd_vmag l) 6 then Some st
    else
      p ← nd_position l;
      c ← nd_constellation l;
      let '(r, s) := alloc (ngcStar l info p c) s in
      let s := withTotalDSO (totalDSO s + 1) s in
      Some (dividerCount,
            withFk5Index (<[highestStar s + totalDSO s := r]> (fk5Index s)) s).

Fixpoint ngcDataLoop (st : Z * State) (lines : list NgcDataLine)
  : option (Z * State) :=
  match lines with
  | [] => Some st
  | l :: rest => st' ← ngcDataLine st l; ngcDataLoop st' rest
  end.

Definition processNgcData (s : State) (lines : list NgcDataLine)
  : option State :=
  snd <$> ngcDataLoop (0, s) lines.

(** ** The run: the five stages in the order of the main function *)

Record Sources := mkSources {
  crossIndex : list FK5Line;
  bscCatalog : list BSCLine;
  bscNotes : list NoteLine;
  hipparcosData : list HIPLine;
  ngcNames : list NgcNameLine;
  ngcData : list NgcDataLine
}.

Definition afterCrossIndex (src : Sources) : State :=
  processCrossIndex initialState (crossIndex src).

Definition afterBsc (src : Sources) : State :=
  processYaleBrightStarCatalog (afterCrossIndex src) (bscCatalog src).

Definition afterNotes (src : Sources) : option State :=
  processYaleBrightStarCatalogNotes (afterBsc src) (bscNotes src).

Definition afterHipparcosLoop (src : Sources) : option State :=
  s ← afterNotes src; hipparcosLoop s (hipparcosData src).

Definition afterHipparcos (src : Sources) : option State :=
  s ← afterNotes src; processHipparcosStarCatalog s (hipparcosData src).

Definition afterNgcNames (src : Sources) : option State :=
  s ← afterHipparcos src; Some (processNgcNames s (ngcNames src)).

(** The registry handed to [writeStarCatalog]. *)
Definition pipeline (src : Sources) : option State :=
  s ← afterNgcNames src; processNgcData s (ngcData src).

(** ** The writer: [writeStarCatalog]

    The output is the sequence of calls made on the [BinaryFile]. *)

Inductive FileOp :=
| writeUInt8 (v : option Z)
| writeInt16 (v : option Z)
| writeUInt16 (v : option Z)
| writeFloat (x : option Q)
| writeDouble (x : option Q)
| writeBuffer (bytes : string).

Definition gapByte : FileOp := writeUInt8 (Some 255).
Definition markerByte : FileOp := writeUInt8 (Some 254).
Definition doubleFlag : FileOp := writeUInt8 (Some 253).

(** [x || 0] on a number that may be [undefined]. *)
Definition orZero (x : option Q) : Q :=
  match x with
  | Some q => if Qeq_bool q 0 then 0%Q else q
  | None => 0%Q
  end.

(** *** Arithmetic on doubles

    A finite double is an integer multiple of [2 ^ -1074] whose
    significand has at most 53 bits.  An operation on doubles returns the
    double nearest to the exact result, a tie going to the even
    significand. *)

(** Nearest integer to [n / d] for [0 < d], a tie going to the even
    neighbour. *)
Definition roundHalfEven (n d : Z) : Z :=
  let f := n / d in
  match 2 * (n mod d) ?= d with
  | Lt => f
  | Gt => f + 1
  | Eq => if Z.even f then f else f + 1
  end.

(** Exponent of the last significant bit of a double whose magnitude, in
    units of [2 ^ -1074], has the integer part [a]: 53 bits are kept, and
    none below the unit. *)
Definition ulpExp (a : Z) : Z := Z.max (Z.log2 a - 52) 0.

(** [n / d], in units of [2 ^ -1074], rounded to a double. *)
Definition roundGrid (n d : Z) : Z :=
  let e := ulpExp (Z.abs n / d) in
  roundHalfEven n (d * 2 ^ e) * 2 ^ e.

(** The double nearest to [x]: the number stored for a field whose text
    reads [x], and [x] itself when [x] is a double.  A result beyond the
    largest double is [Infinity] in the code; it is left finite here, and
    the clamp of line 659 takes both to the same byte. *)
Definition toDouble (x : Q) : Q :=
  roundGrid (Qnum x * 2 ^ 1074) (Z.pos (Qden x)) # (2 ^ 1074).

(** [x + y] and [x * y] on doubles. *)
Definition fadd (x y : Q) : Q := toDouble (x + y).
Definition fmul (x y : Q) : Q := toDouble (x * y).

(** Lines 658-659: [floor((star.vmag + 2.0) * 10.0 + 0.5)], clamped. *)
Definition compressedMag (vmag : Q) : Z :=
  Z.min
    (Z.max (Qfloor (fadd (fmul (fadd (toDouble vmag) 2) 10) (1 # 2))) 0)
    255.

(** Lines 626-635: the category markers in front of key [i]. *)
Definition markerOps (s : State) (i : Z) : list FileOp :=
  if (i =? highestFK5 s + 1)
     || ((0 <? highestBSC s) && (i =? highestBSC s + 1))
     || (i =? highestStar s + 1)
  then
    markerByte ::
    (if (i =? highestStar s + 1) && (highestHIP s =? 0)
     then [markerByte] else [])
  else [].

(** Lines 662-671: the trailer that depends on the block of the key. *)
Definition trailerOps (s : State) (i : Z) (o : StarInfo) : list FileOp :=
  if highestStar s <? i then
    [writeInt16 (ngcIcNum o); writeUInt8 (messierNum o)]
  else if (0 <? highestBSC s) && (highestBSC s <? i) then
    [writeUInt8 ((fun n => n / 65536) <$> hipNum o);
     writeUInt16 (Some (from_option (fun n => Z.land n 65535) 0 (hipNum o)))]
  else if highestFK5 s <? i then [writeUInt16 (bscNum o)]
  else [].

(** Lines 673-679. *)
Definition nameOps (o : StarInfo) : list FileOp :=
  match name o with
  | Some (String c r) =>
      [writeUInt8 (Some (Z.of_nat (String.length (String c r))));
       writeBuffer (String c r)]
  | _ => [writeUInt8 (Some 0)]
  end.

(** Lines 642-679: the calls made for one star. *)
Definition recordOps (dp : bool) (s : State) (i : Z) (o : StarInfo)
  : list FileOp :=
  [writeUInt8 (flamsteed o); writeUInt8 (bayerRank o);
   writeUInt8 (subIndex o); writeUInt8 (constellation o)]
  ++ (if dp then [writeDouble (RA o); writeDouble (DE o)]
      else [writeFloat (RA o); writeFloat (DE o)])
  ++ [writeFloat (Some (orZero (pmRA o)));
      writeFloat (Some (orZero (pmDE o)));
      writeUInt8 (compressedMag <$> vmag o)]
  ++ trailerOps s i o
  ++ nameOps o.

(** The range check of the [Buffer] methods behind [BinaryFile]: an
    integer outside the range of its field raises a [RangeError];
    [undefined] is converted to NaN, passes the check and is stored as 0.
    Floats, doubles and byte strings are not checked. *)
Definition fits (op : FileOp) : bool :=
  match op with
  | writeUInt8 (Some v) => (0 <=? v) && (v <=? 255)
  | writeInt16 (Some v) => (-32768 <=? v) && (v <=? 32767)
  | writeUInt16 (Some v) => (0 <=? v) && (v <=? 65535)
  | _ => true
  end.

(** Body of the loop (lines 609-682), on [gapSize] and the calls made so
    far.  [None] is the [TypeError] of [star.vmag] on a missing star
    above [highestFK5], or the [RangeError] of a call of the record whose
    value does not fit (the gap and marker bytes always fit). *)
Definition writeKey (dp : bool) (s : State) (st : nat * list FileOp) (i : Z)
  : option (nat * list FileOp) :=
  let '(gapSize, out) := st in
  match starAt s i with
  | None => if i <=? highestFK5 s then Some (S gapSize, out) else None
  | Some o =>
      if forallb fits (recordOps dp s i o)
      then Some (O, out ++ repeat gapByte gapSize
                        ++ markerOps s i ++ recordOps dp s i o)
      else None
  end.

Fixpoint writeKeys (dp : bool) (s : State) (st : nat * list FileOp)
         (keys : list Z) : option (nat * list FileOp) :=
  match keys with
  | [] => Some st
  | i :: rest => st' ← writeKey dp s st i; writeKeys dp s st' rest
  end.

Definition writeStarCatalog (dp : bool) (s : State) : option (list FileOp) :=
  snd <$> writeKeys dp s (O, if dp then [doubleFlag] else [])
                    (seqZ 1 (highestStar s + totalDSO s)).

(** ** Reference descriptions used by the properties *)

(** What the output format prescribes for key [i] taken alone: one gap
    byte for a key without record, else the markers and the record. *)
Definition segment (dp : bool) (s : State) (i : Z) : list FileOp :=
  match starAt s i with
  | None => [gapByte]
  | Some o => markerOps s i ++ recordOps dp s i o
  end.


(** The fields of a record that the range check can refuse: the four
    designation bytes, the trailer and the length of the name. *)
Definition fieldsFit (s : State) (i : Z) (o : StarInfo) : bool :=
  forallb fits
    ([writeUInt8 (flamsteed o); writeUInt8 (bayerRank o);
      writeUInt8 (subIndex o); writeUInt8 (constellation o)]
     ++ trailerOps s i o ++ nameOps o).

(** Every key the writer visits has a record whose fields fit, or is a
    key up to [highestFK5] without record. *)
Definition writable (s : State) : bool :=
  forallb
    (fun i => match starAt s i with
              | Some o => fieldsFit s i o
              | None => i <=? highestFK5 s
              end)
    (seqZ 1 (highestStar s + totalDSO s)).

(** The name rule in the words of the specification: a digit anywhere,
    or one lower-case letter, optionally one more, then a space. *)
Definition containsDigit (s : string) : Prop :=
  ∃ pre c post,
    s = String.append pre (String c post) ∧ JsString.isDigit c = true.

Definition designationFragment (s : string) : Prop :=
  (∃ c r, s = String c (String " " r) ∧ JsString.isLower c = true) ∨
  (∃ c d r, s = String c (String d (String " " r)) ∧
            JsString.isLower c = true ∧ JsString.isLower d = true).

(** The same with the second letter restricted as the pattern has it. *)
Definition designationFragmentNoL (s : string) : Prop :=
  (∃ c r, s = String c (String " " r) ∧ JsString.isLower c = true) ∨
  (∃ c d r, s = String c (String d (String " " r)) ∧
            JsString.isLower c = true ∧ JsString.isLower d = true ∧
            d ≠ "l"%char).

(** The Bayer tiers in the words of the specification: the twelve first
    ranks up to 5.5, the six first ranks up to 6.0. *)
Definition specBayerTiers (rank : Z) (vmag : Q) : bool :=
  (0 <? rank) &&
  (((rank <=? 12) && Qleb vmag 5.5) || ((rank <=? 6) && Qleb vmag 6.0)).

(** A line the first scan compares with its predecessor: not blank and
    with a magnitude. *)
Definition rated (l : BSCLine) : bool :=
  negb (bsc_blank l) &&
  match bsc_vmag l with Some _ => true | None => false end.


(** ** Layout of the registry *)

(** Last key the writer visits. *)
Definition top (s : State) : Z := highestStar s + totalDSO s.

(** What every stage maintains.  Above [highestFK5] the registry is full
    up to [top]; the counters of added stars give the block ends kept in
    [highestBSC], [highestHIP] and [highestStar]. *)
Record Layout (s : State) : Prop := mkLayout {
  lay_first : 0 ≤ highestFK5 s;
  lay_bsc_count : 0 ≤ totalBSC s;
  lay_hip_count : 0 ≤ totalHIP s;
  lay_dso_count : 0 ≤ totalDSO s;
  lay_added : addedStars s = totalBSC s + totalHIP s;
  lay_star : highestStar s = highestFK5 s + addedStars s;
  lay_bsc :
    highestBSC s = if 0 <? totalBSC s then highestFK5 s + totalBSC s else 0;
  lay_hip : highestHIP s = if 0 <? totalHIP s then highestStar s else 0;
  lay_dense :
    ∀ k, highestFK5 s < k → (is_Some (fk5Index s !! k) ↔ k ≤ top s);
  lay_heap : ∀ k r, fk5Index s !! k = Some r → (r < length (heap s))%nat;
  lay_last : 0 < highestFK5 s → is_Some (fk5Index s !! highestFK5 s);
  lay_pleiades : ∀ p, pleiades s = Some p → (p < length (heap s))%nat
}.

(** Two states with the same registry keys, counters and heap size. *)
Definition sameLayout (s s' : State) : Prop :=
  fk5Index s' = fk5Index s ∧
  length (heap s') = length (heap s) ∧
  totalBSC s' = totalBSC s ∧
  totalHIP s' = totalHIP s ∧
  totalDSO s' = totalDSO s ∧
  highestFK5 s' = highestFK5 s ∧
  highestBSC s' = highestBSC s ∧
  highestHIP s' = highestHIP s ∧
  highestStar s' = highestStar s ∧
  addedStars s' = addedStars s ∧
  pleiades s' = pleiades s.

(** A later state keeps [highestFK5] and the entries up to it. *)
Definition extends (s s' : State) : Prop :=
  highestFK5 s' = highestFK5 s ∧
  ∀ k, k ≤ highestFK5 s → fk5Index s' !! k = fk5Index s !! k.

(** The four blocks of registry keys, by the stage that created them. *)
Definition keys (s : State) : gset Z := dom (fk5Index s).

Definition keysOf (o : option State) : gset Z := from_option keys ∅ o.

Definition primaryBlock (src : Sources) : gset Z :=
  keys (afterCrossIndex src).

Definition brightStarBlock (src : Sources) : gset Z :=
  keys (afterBsc src) ∖ keys (afterCrossIndex src).

Definition astrometryBlock (src : Sources) : gset Z :=
  keysOf (afterHipparcosLoop src) ∖ keysOf (afterNotes src).

Definition deepSkyBlock (src : Sources) : gset Z :=
  keysOf (pipeline src) ∖ keysOf (afterHipparcosLoop src).

(** The markers due in front of key [i], from the sizes of the blocks:
    one after the end of the primary block, one after the end of a
    non-empty bright-star block, one after the end of the stellar blocks,
    and there a second one when no astrometry star was added. *)
Definition boundaryMarkers (first nBsc nHip i : Z) : list FileOp :=
  if (i =? first + nBsc + nHip + 1) && (nHip =? 0)
  then [markerByte; markerByte]
  else if (i =? first + 1)
          || ((0 <? nBsc) && (i =? first + nBsc + 1))
          || (i =? first + nBsc + nHip + 1)
       then [markerByte]
       else [].

(** What holds while [processCrossIndex] runs: no star has been added and
    every key is at most [highestFK5]. *)
Record Primary (s : State) : Prop := mkPrimary {
  pri_first : 0 ≤ highestFK5 s;
  pri_star : highestStar s = highestFK5 s;
  pri_added : addedStars s = 0;
  pri_bsc : totalBSC s = 0 ∧ highestBSC s = 0;
  pri_hip : totalHIP s = 0 ∧ highestHIP s = 0;
  pri_dso : totalDSO s = 0;
  pri_keys : ∀ k, is_Some (fk5Index s !! k) → k ≤ highestFK5 s;
  pri_heap : ∀ k r, fk5Index s !! k = Some r → (r < length (heap s))%nat;
  pri_last : 0 < highestFK5 s → is_Some (fk5Index s !! highestFK5 s);
  pri_pleiades : ∀ p, pleiades s = Some p → (p < length (heap s))%nat
}.

Definition flowState (f : Flow) : State :=
  match f with Continue s => s | Break s => s end.

(** The keys above [t] hold records without proper motion. *)
Definition noMotionAbove (t : Z) (s : State) : Prop :=
  ∀ k, t < k ≤ top s →
       ∃ o, starAt s k = Some o ∧ pmRA o = None ∧ pmDE o = None.

(** Line 606-607: the flag written before the first key. *)
Definition header (dp : bool) : list FileOp :=
  if dp then [doubleFlag] else [].

(** ** Concrete inputs on which the properties are run *)

Definition sampleFK5 (n : Z) (nm : string) : FK5Line :=
  mkFK5Line false n 2 31 48.7%Q 0.3%Q false 89 15 51 0.1%Q 2.0%Q
            (Some (8000 + n)) "  1" 1 0 " UMi" nm.

Definition sampleBSC (n : Z) (nm : string) (m : Q) : BSCLine :=
  mkBSCLine false n nm (9000 + n) None 14 39 36.5%Q true 60 50 2 (Some m)
            0.01%Q 0.02%Q 0 0.

(** A primary catalog with the numbers 41, 43 and 139, three bright
    stars two of which share a name, one note, one matched and one new
    Hipparcos row, and one named NGC object. *)
Definition sampleSources : Sources :=
  mkSources
    [sampleFK5 41 "Polaris"; sampleFK5 43 "b Persei";
     sampleFK5 139 "Alcyone; eta Tau"]
    [sampleBSC 1 "   Eps And" 6.4%Q; sampleBSC 2 "   Alp Cen" 3.0%Q;
     sampleBSC 3 "   Alp Cen" 4.5%Q]
    [mkNoteLine false 1 "  1N: " "ALPHA FOO; a name"]
    [mkHIPLine true (Some 1.5%Q) (Some 2.5%Q) 11767 (Some 1.9%Q)
               (Some 37.95%Q) (Some 89.26%Q) 8041;
     mkHIPLine true (Some 3.5%Q) (Some 4.5%Q) 77 (Some 5.0%Q)
               (Some 30%Q) (Some 0%Q) 12345]
    [mkNgcNameLine true false "" 0 None;
     mkNgcNameLine true false "" 0 None;
     mkNgcNameLine false false "Great Nebula in Andromeda" 0 (Some 224)]
    [mkNgcDataLine true false 0 None None 0;
     mkNgcDataLine true false 0 None None 0;
     mkNgcDataLine false false 224
                   (Some (mkNgcPosition 0 42.7%Q false 41 16))
                   (Some "And"%string) 3.4%Q].

(** Rank 5 ("Eps") at magnitude 6.4, outside the legacy list. *)
Definition sampleRank5 : BSCLine := sampleBSC 1 "   Eps And" 6.4%Q.

(** Three consecutive lines with one name, the last one the brightest. *)
Definition sampleRun : list BSCLine :=
  [sampleBSC 10 "   Alp Cen" 3.0%Q; sampleBSC 11 "   Alp Cen" 4.5%Q;
   sampleBSC 12 "   Alp Cen" 2.0%Q].

(** A bright-star catalog whose second line is dropped as a duplicate,
    and a note with the primary-name code for that line. *)
Definition sampleDroppedNote : Sources :=
  mkSources
    [sampleFK5 41 "Polaris"]
    [sampleBSC 2 "   Alp Cen" 3.0%Q; sampleBSC 3 "   Alp Cen" 4.5%Q]
    [mkNoteLine false 3 "  1N: " "RIGIL KENTAURUS; a name"]
    [] [] [].

(** A registry with one star, reachable from HD 8041, and a Hipparcos row
    for that HD number. *)
Definition sampleMatched : State :=
  withHd2fk5 {[8041 := 41]}
    (withFk5Index {[41 := O]}
       (withHeap [fk5Star (sampleFK5 41 "Polaris")]
          (withHighestStar 41 (withHighestFK5 41 initialState)))).

Definition sampleRow : HIPLine :=
  mkHIPLine true (Some 1.5%Q) (Some 2.5%Q) 11767 (Some 1.9%Q)
            (Some 37.95%Q) (Some 89.26%Q) 8041.

(** ** Reference descriptions of the primary loader *)

(** The lines of the cross index that assign registry key [k], and those
    that assign the entry of [hd2fk5] for the HD number [hd]. *)
Definition assignsKey (k : Z) (l : FK5Line) : bool :=
  negb (fk5_blank l) && (fk5_fk5Num l =? k).

Definition assignsHD (hd : Z) (l : FK5Line) : bool :=
  negb (fk5_blank l) &&
  match fk5_hd l with
  | Some h => (0 <? h) && (h =? hd)
  | None => false
  end.

(** ** Objects across a stage *)

(** Every object of [s] is still in the heap of [s'], behind the same
    reference, and its new value is related to the old one by [R]. *)
Definition evolves (R : StarInfo → StarInfo → Prop) (s s' : State) : Prop :=
  ∀ r o, heap s !! r = Some o → ∃ o', heap s' !! r = Some o' ∧ R o o'.

(** Two values of an object that differ at most in the bright-star number
    and the designation, the second one with a bright-star number when
    the first one has one. *)
Definition sameButDesignation (o o' : StarInfo) : Prop :=
  (fk5Num o', hipNum o', ngcIcNum o', messierNum o', name o')
  = (fk5Num o, hipNum o, ngcIcNum o, messierNum o, name o) ∧
  (RA o', DE o', pmRA o', pmDE o', vmag o')
  = (RA o, DE o, pmRA o, pmDE o, vmag o) ∧
  (is_Some (bscNum o) → is_Some (bscNum o')).

(** A relation between the values of an object that the updates of the
    bright-star stage respect: the assignment of a bright-star number,
    and that of a designation whose Bayer rank and constellation code
    come from the two tables. *)
Record bscClosed (R : StarInfo → StarInfo → Prop) : Prop := mkBscClosed {
  bc_refl : ∀ o, R o o;
  bc_trans : ∀ a b c, R a b → R b c → R a c;
  bc_num : ∀ o v, R o (setBscNum (Some v) o);
  bc_desig : ∀ o f b i c,
    0 ≤ b ≤ 24 → 0 ≤ c ≤ 88 →
    R o (setDesignation (Some f) (Some b) (Some i) (Some c) o)
}.

(** Two values that differ at most in the name. *)
Definition sameButName (o o' : StarInfo) : Prop := setName (name o) o' = o.

(** Two values that differ at most in position, proper motion and
    magnitude, the second one with a magnitude and not fainter when the
    first one has a magnitude. *)
Definition refinedBy (o o' : StarInfo) : Prop :=
  setAstrometry (RA o) (DE o) (pmRA o) (pmDE o) (vmag o) o' = o ∧
  ∀ m, vmag o = Some m → ∃ m', vmag o' = Some m' ∧ (m' <= m)%Q.

(** ** Consistency of the cross-reference tables *)

(** [hd2fk5] holds registry keys under positive HD numbers, [hd2bsc] holds
    keys of [bscIndex] under positive HD numbers, and an object reachable
    through [bscIndex] is the one the registry holds under the positive
    key that [bsc2fk5] gives for the same bright-star number. *)
Record Linked (s : State) : Prop := mkLinked {
  lnk_fk5 : ∀ hd k, hd2fk5 s !! hd = Some k →
                    0 < hd ∧ is_Some (fk5Index s !! k);
  lnk_hd : ∀ hd b, hd2bsc s !! hd = Some b →
                   0 < hd ∧ is_Some (bscIndex s !! b);
  lnk_bsc : ∀ b r, bscIndex s !! b = Some r →
                   ∃ k, 0 < k ∧ bsc2fk5 s !! b = Some k ∧
                        fk5Index s !! k = Some r
}.

(** ** Reference descriptions of the deep-sky stage *)

(** An entry of [ngcs] and a later value of it: the same object number,
    the Messier number kept once it is not 0, the name extended at its
    end. *)
Definition extendsInfo (i i' : NGCMatchInfo) : Prop :=
  ngc_ngcIcNum i' = ngc_ngcIcNum i ∧
  (ngc_messierNum i ≠ 0 → ngc_messierNum i' = ngc_messierNum i) ∧
  ∃ rest, ngc_name i' = String.append (ngc_name i) rest.

(** The keys above [t] hold records with the property [P]. *)
Definition recordsAbove (P : StarInfo → Prop) (t : Z) (s : State) : Prop :=
  ∀ k, t < k ≤ top s → ∃ o, starAt s k = Some o ∧ P o.

(** The test of line 561 on a data line: the object has an entry in the
    table of names, or a magnitude up to 6.0. *)
Definition retained (tbl : gmap Z NGCMatchInfo) (l : NgcDataLine) : Prop :=
  is_Some (tbl !! nd_ngcIcNum l) ∨ (nd_vmag l <= 6)%Q.

(** A record built from a retained data line of [lines]. *)
Definition fromDataLine (tbl : gmap Z NGCMatchInfo) (lines : list NgcDataLine)
           (o : StarInfo) : Prop :=
  ∃ l p c,
    l ∈ lines ∧ nd_dash l = false ∧ nd_empty l = false ∧ retained tbl l ∧
    nd_position l = Some p ∧ nd_constellation l = Some c ∧
    o = ngcStar l (tbl !! nd_ngcIcNum l) p c.

(** A data line on which [processNgcData] stops with an error when it
    comes after [d] divider lines: a retained line without position or
    without constellation field. *)
Definition badDataLine (tbl : gmap Z NGCMatchInfo) (d : Z) (l : NgcDataLine)
  : Prop :=
  nd_dash l = false ∧ nd_empty l = false ∧ 2 ≤ d ∧ retained tbl l ∧
  (nd_position l = None ∨ nd_constellation l = None).

(** A line of the notes on which the notes stage stops with an error: a
    name note for a bright-star number that [bsc2fk5] does not know, or
    maps to a key other than 0 without record. *)
Definition badNote (s : State) (l : NoteLine) : Prop :=
  note_blank l = false ∧
  JsString.trim (note_code l) = "1N:"%string ∧
  is_Some (notesName (note_text l)) ∧
  (bsc2fk5 s !! note_bscNum l = None ∨
   ∃ k, bsc2fk5 s !! note_bscNum l = Some k ∧ k ≠ 0 ∧
        fk5Index s !! k = None).

(** ** Reference descriptions of the designation bytes *)

(** The Bayer rank and the constellation code of a record, when present,
    are 0 or positions in the two tables. *)
Definition wellCoded (o : StarInfo) : Prop :=
  (∀ b, bayerRank o = Some b → 0 ≤ b ≤ 24) ∧
  (∀ c, constellation o = Some c → 0 ≤ c ≤ 88).

(** Every object of the heap has the property [P]. *)
Definition allObjects (P : StarInfo → Prop) (s : State) : Prop :=
  ∀ r o, heap s !! r = Some o → P o.

(** A property of star objects that every object built by a stage has and
    that every assignment made by a stage keeps. *)
Record stable (P : StarInfo → Prop) : Prop := mkStable {
  st_fk5 : ∀ l, P (fk5Star l);
  st_pleiades : ∀ l, P (pleiadesOf (fk5Star l));
  st_bsc : ∀ l v, P (bscStar l v);
  st_num : ∀ o v, P o → P (setBscNum (Some v) o);
  st_desig : ∀ o f b i c,
    0 ≤ b ≤ 24 → 0 ≤ c ≤ 88 →
    P o → P (setDesignation (Some f) (Some b) (Some i) (Some c) o);
  st_name : ∀ o nm, P o → P (setName (Some nm) o);
  st_astro : ∀ o v ra de pra pde, P o → P (astrometry v ra de pra pde o);
  st_hip : ∀ n v ra de pra pde,
    P (astrometry v ra de pra pde
         (mkStar None None (Some n) None None None None None None None
                 None None None None None));
  st_ngc : ∀ l info p c, P (ngcStar l info p c)
}.

(** A record with a position and a magnitude. *)
Definition located (o : StarInfo) : Prop :=
  is_Some (RA o) ∧ is_Some (DE o) ∧ is_Some (vmag o).

(** ** Reference descriptions of the added stars *)

(** A record added by the bright-star stage for a line of [lines]: the
    line has a magnitude that passes the inclusion test, the record has a
    bright-star number, and its position, proper motion and magnitude
    are those computed from the line. *)
Definition fromCatalogLine (lines : list BSCLine) (o : StarInfo) : Prop :=
  ∃ l v,
    l ∈ lines ∧ bsc_blank l = false ∧ bsc_vmag l = Some v ∧
    brightEnough v (bsc_bscNum l) (bscBayerRank (bsc_name l)) = true ∧
    sameButDesignation (bscStar l v) o ∧ is_Some (bscNum o).

(** The object the astrometry stage creates for a row. *)
Definition hipStar (n : Z) (v ra de pra pde : Q) : StarInfo :=
  astrometry v ra de pra pde
    (mkStar None None (Some n) None None None None None None None
            None None None None None).

(** A record added by the astrometry stage for a row of [lines]: the row
    has a Hipparcos number and a magnitude up to the limit, and the
    record is the object created for the row, possibly refined later. *)
Definition fromHipRow (lines : list HIPLine) (o : StarInfo) : Prop :=
  ∃ l v ra de pra pde,
    l ∈ lines ∧ hip_isData l = true ∧ hip_hipNum l ≠ 0 ∧
    hip_vmag l = Some v ∧ hip_ra l = Some ra ∧ hip_de l = Some de ∧
    hip_pmRA l = Some pra ∧ hip_pmDE l = Some pde ∧
    (v <= magLimitHipparcos)%Q ∧
    refinedBy (hipStar (hip_hipNum l) v ra de pra pde) o.

(** ** Reference descriptions of the synthetic M45 entry *)

(** Nothing refers to the object behind [p]: it is in the heap, and
    neither the registry nor [bscIndex] holds it. *)
Definition Apart (p : nat) (s : State) : Prop :=
  (p < length (heap s))%nat ∧
  (∀ k, fk5Index s !! k ≠ Some p) ∧
  (∀ b, bscIndex s !! b ≠ Some p).

(** While the primary loader runs, [pleiades] is set exactly when key 139
    has a record, and the object it holds is the literal built from that
    record. *)
Definition mirrorsAlcyone (s : State) : Prop :=
  match pleiades s with
  | None => fk5Index s !! 139 = None
  | Some p =>
      Apart p s ∧
      ∃ o, starAt s 139 = Some o ∧ heap s !! p = Some (pleiadesOf o)
  end.

(** ** Reference description of the name pattern of the notes *)

(** Every character of [s] is an upper-case letter or a space. *)
Definition upperOrSpaces (s : string) : bool :=
  negb (JsString.any
          (λ c, negb (JsString.isUpper c || Ascii.eqb c " ")) s).

(** The lines of the data file for which [processNgcData] builds a record,
    in file order: the lines after the second divider that are not empty
    and pass the test of line 561.  [d] counts the dividers met so far. *)
Fixpoint keptLines (tbl : gmap Z NGCMatchInfo) (d : Z)
         (lines : list NgcDataLine) : list NgcDataLine :=
  match lines with
  | [] => []
  | l :: rest =>
      if nd_dash l then keptLines tbl (d + 1) rest
      else if nd_empty l || (d <? 2) then keptLines tbl d rest
      else if bool_decide (tbl !! nd_ngcIcNum l = None)
              && Qgtb (nd_vmag l) 6
           then keptLines tbl d rest
           else l :: keptLines tbl d rest
  end.

(** * Properties *)

(** ** The name filter *)

Lemma any_isDigit (s : string) :
  JsString.any JsString.isDigit s = true ↔ containsDigit s.
Proof.
  induction s as [|a s IH]; simpl.
  - split; [discriminate|].
    intros (pre & c & post & E & _). destruct pre; discriminate.
  - rewrite orb_true_iff, IH. split.
    + intros [Ha | (pre & c & post & -> & Hc)].
      * exists EmptyString, a, s. auto.
      * exists (String a pre), c, post. auto.
    + intros (pre & c & post & E & Hc). destruct pre as [|b pre]; simpl in E.
      * injection E as -> ->. auto.
      * injection E as -> ->. right. exists pre, c, post. auto.
Qed.

Lemma fragment_pattern (s : string) :
  match s with
  | String c0 (String c1 r) =>
      JsString.isLower c0 &&
      (Ascii.eqb c1 " " ||
       (JsString.isLower c1 && negb (Ascii.eqb c1 "l") &&
        match r with
        | String c2 _ => Ascii.eqb c2 " "
        | EmptyString => false
        end))
  | _ => false
  end = true ↔ designationFragmentNoL s.
Proof.
  unfold designationFragmentNoL.
  destruct s as [|c0 [|c1 r]].
  - split; [discriminate|]. intros [(?&?&?&_)|(?&?&?&?&_)]; discriminate.
  - split; [discriminate|]. intros [(?&?&?&_)|(?&?&?&?&_)]; discriminate.
  - rewrite andb_true_iff, orb_true_iff, !andb_true_iff, negb_true_iff,
      Ascii.eqb_eq, Ascii.eqb_neq.
    split.
    + intros [H0 [-> | [[H1 Hl] H2]]].
      * left. eauto.
      * right. destruct r as [|c2 r]; [discriminate|].
        apply Ascii.eqb_eq in H2 as ->. exists c0, c1, r. auto.
    + intros [(c & r' & E & Hc) | (c & d & r' & E & Hc & Hd & Hl)].
      * injection E as -> -> ->. auto.
      * injection E as -> -> ->. split; [done|]. right.
        rewrite Ascii.eqb_refl. auto.
Qed.

Lemma skip_rule (s : string) :
  FK5_NAMES_TO_SKIP s = true ↔ containsDigit s ∨ designationFragmentNoL s.
Proof.
  unfold FK5_NAMES_TO_SKIP.
  rewrite orb_true_iff, any_isDigit, fragment_pattern. tauto.
Qed.

Lemma heap_alloc_lookup (h : list StarInfo) (o : StarInfo) :
  (h ++ [o]) !! length h = Some o.
Proof. by rewrite lookup_app_r, Nat.sub_diag. Qed.

Lemma crossIndexLine_star (s : State) (l : FK5Line) :
  fk5_blank l = false →
  starAt (crossIndexLine s l) (fk5_fk5Num l) = Some (fk5Star l).
Proof.
  intros Hb. unfold crossIndexLine, starAt. rewrite Hb.
  destruct (fk5_hd l) as [hd|]; [destruct (0 <? hd)|];
    destruct (fk5_fk5Num l =? 139); simpl;
    rewrite lookup_insert_eq; simpl;
    rewrite ?(lookup_app_l (_ ++ [_])) by (rewrite length_app; simpl; lia);
    apply heap_alloc_lookup.
Qed.

(** C8, amended.  A candidate name is rejected exactly when it contains a
    digit or starts with a lower-case letter, optionally one more
    lower-case letter other than [l], and a space; an accepted name is
    stored through [toMixedCase], also in the registry record of its
    line; "12 Persei" and "b Persei" are rejected and "Polaris" is kept
    as "Polaris" by a title-casing [toMixedCase]. *)
Theorem name_filter_rule (nm : string) :
  nm ≠ EmptyString →
  toMixedCase "Polaris" = "Polaris"%string →
  (acceptName nm = None ↔ containsDigit nm ∨ designationFragmentNoL nm) ∧
  (∀ stored, acceptName nm = Some stored → stored = toMixedCase nm) ∧
  (∀ s l, fk5_blank l = false → candidateName (fk5_name l) = nm →
          name <$> starAt (crossIndexLine s l) (fk5_fk5Num l)
          = Some (acceptName nm)) ∧
  acceptName "12 Persei" = None ∧
  acceptName "b Persei" = None ∧
  acceptName "Polaris" = Some "Polaris"%string.
Proof.
  intros Hne Hpol. repeat split.
  - unfold acceptName. destruct nm; [done|]. simpl JsString.isEmpty. simpl negb.
    rewrite andb_true_l. intros H. apply skip_rule.
    destruct (FK5_NAMES_TO_SKIP (String a nm)); [done|discriminate].
  - unfold acceptName. intros H%skip_rule. rewrite H.
    by rewrite andb_false_r.
  - unfold acceptName. intros stored H.
    destruct (_ && _); congruence.
  - intros s l Hb <-. rewrite crossIndexLine_star by done. simpl.
    unfold fk5Star. destruct (fk5Designation l) as [[[? ?] ?] ?]. done.
  - unfold acceptName. simpl. by rewrite Hpol.
Qed.


(** ** Comparisons and frame facts used throughout *)

Lemma Qleb_spec (x y : Q) : reflect (x <= y)%Q (Qleb x y).
Proof.
  unfold Qleb. destruct (Qle_bool x y) eqn:E; constructor.
  - by apply Qle_bool_iff.
  - intros H%Qle_bool_iff. congruence.
Qed.

Lemma Qgtb_lt (x y : Q) : Qgtb x y = true ↔ (y < x)%Q.
Proof.
  unfold Qgtb. rewrite negb_true_iff.
  destruct (Qle_bool x y) eqn:E.
  - apply Qle_bool_iff in E. split; [discriminate|]. intros ?. lra.
  - split; [|done]. intros _. apply Qnot_le_lt.
    intros H%Qle_bool_iff. congruence.
Qed.

Lemma annotateBsc_frame (s : State) (l : BSCLine) (k : Z) :
  fk5Index (annotateBsc s l k) = fk5Index s ∧
  length (heap (annotateBsc s l k)) = length (heap s) ∧
  totalBSC (annotateBsc s l k) = totalBSC s ∧
  totalHIP (annotateBsc s l k) = totalHIP s ∧
  totalDSO (annotateBsc s l k) = totalDSO s ∧
  highestFK5 (annotateBsc s l k) = highestFK5 s ∧
  highestBSC (annotateBsc s l k) = highestBSC s ∧
  highestHIP (annotateBsc s l k) = highestHIP s ∧
  highestStar (annotateBsc s l k) = highestStar s ∧
  addedStars (annotateBsc s l k) = addedStars s ∧
  pleiades (annotateBsc s l k) = pleiades s.
Proof.
  unfold annotateBsc.
  destruct (0 <? k); [|done].
  destruct (fk5Index s !! k); [|done].
  destruct (0 <? bsc_hd l), (negb _);
    cbn [heap fk5Index totalBSC totalHIP totalDSO highestFK5 highestBSC
         highestHIP highestStar addedStars pleiades
         update withHeap withBsc2fk5 withBscIndex withHd2bsc];
    rewrite ?length_alter; done.
Qed.


Lemma addBscStar_frame (s : State) (l : BSCLine) (v : Q) :
  let k := highestFK5 s + (addedStars s + 1) in
  let s' := snd (addBscStar s l v) in
  fst (addBscStar s l v) = k ∧
  fk5Index s' = <[k := length (heap s)]> (fk5Index s) ∧
  heap s' = heap s ++ [bscStar l v] ∧
  totalBSC s' = totalBSC s + 1 ∧
  totalHIP s' = totalHIP s ∧
  totalDSO s' = totalDSO s ∧
  highestFK5 s' = highestFK5 s ∧
  highestBSC s' = k ∧
  highestHIP s' = highestHIP s ∧
  highestStar s' = k ∧
  addedStars s' = addedStars s + 1 ∧
  pleiades s' = pleiades s.
Proof. repeat split. Qed.

(** ** The inclusion test of the second scan *)

(** C2, amended.  Above the general ceiling and outside the legacy list,
    a record passes the inclusion test by its Bayer rank exactly when the
    rank is one of the seven first and the magnitude is at most 6.5; a
    line that passes and has no FK5 record to attach to becomes a new
    registry entry, a line that fails adds none.  Rank 5 at magnitude 6.4
    passes, and so does rank 5 at 5.9. *)
Theorem bayer_tier_rule (vmag : Q) (bscNum rank : Z) :
  (magLimitBSC < vmag)%Q →
  includes bscNum bscExtras = false →
  (brightEnough vmag bscNum rank = true ↔ 1 ≤ rank ≤ 7 ∧ (vmag <= 6.5)%Q) ∧
  (∀ s l carried,
     bsc_blank l = false →
     bsc2fk5 s !! bsc_bscNum l = Some carried →
     bsc_vmag l = Some vmag →
     bsc_bscNum l = bscNum →
     bscBayerRank (bsc_name l) = rank →
     unmatched s (resolvedFK5 s l carried) = true →
     if brightEnough vmag bscNum rank
     then totalBSC (mergeLine s l) = totalBSC s + 1 ∧
          is_Some (fk5Index (mergeLine s l)
                     !! (highestFK5 s + (addedStars s + 1)))
     else totalBSC (mergeLine s l) = totalBSC s ∧
          fk5Index (mergeLine s l) = fk5Index s) ∧
  brightEnough 6.4 bscNum 5 = true ∧
  brightEnough 5.9 bscNum 5 = true.
Proof.
  intros Hlim Hextra. unfold magLimitBSC in Hlim. split; [|split; [|split]].
  - unfold brightEnough. rewrite Hextra. unfold magLimitBSC.
    destruct (Qleb_spec vmag 6) as [H6|H6]; [exfalso; lra|].
    destruct (Qleb_spec vmag 6.5) as [H65|H65];
      rewrite ?andb_false_r, ?andb_true_r, ?orb_false_l, ?orb_false_r.
    + rewrite andb_true_iff, !Z.ltb_lt.
      split; [intros [? ?]; split; [lia|done] | intros [? _]; lia].
    + split; [discriminate|]. intros [_ ?]. exfalso. lra.
  - intros s l carried Hb Hc Hv <- <- Hun.
    unfold mergeLine. rewrite Hb, Hc, Hv, Hun, andb_true_r.
    destruct (brightEnough _ _ _).
    + pose proof (addBscStar_frame s l vmag) as F.
      destruct (addBscStar s l vmag) as [k s']. cbn [fst snd] in F.
      destruct F as (-> & Hi & _ & Ht & _).
      destruct (annotateBsc_frame s' l (highestFK5 s + (addedStars s + 1)))
        as (-> & _ & -> & _).
      rewrite Hi, Ht, lookup_insert_eq. eauto.
    + destruct (annotateBsc_frame s l (resolvedFK5 s l carried))
        as (-> & _ & -> & _). done.
  - unfold brightEnough. apply orb_true_iff. right. reflexivity.
  - reflexivity.
Qed.

(** ** The magnitude byte *)


(** ** Rounding to the nearest integer *)







(** ** Rounding to a double *)














Lemma compressedMag_range (m : Q) : 0 ≤ compressedMag m ≤ 255.
Proof. unfold compressedMag. lia. Qed.







(** ** The first scan of the bright-star catalog *)

Lemma scanLine_unrated (p : Scan) (s : State) (l : BSCLine) :
  rated l = false →
  fst (scanLine (p, s) l) = p ∧
  highestFK5 (snd (scanLine (p, s) l)) = highestFK5 s ∧
  ∀ k, (bsc_blank l = false → k ≠ bsc_bscNum l) →
       bsc2fk5 (snd (scanLine (p, s) l)) !! k = bsc2fk5 s !! k.
Proof.
  unfold rated, scanLine. intros Hr.
  destruct (bsc_blank l); [done|].
  destruct (bsc_vmag l); [done|]. cbn.
  repeat split. intros k Hk. rewrite lookup_insert_ne; [done|].
  intros E. by apply Hk.
Qed.

Lemma scanLine_rated (p : Scan) (s : State) (l : BSCLine) (m : Q) :
  bsc_blank l = false → bsc_vmag l = Some m →
  let id := bsc_bscNum l in
  let T0 := <[id := 0]> (bsc2fk5 s) in
  scanLine (p, s) l =
  if String.eqb (bsc_name l) (lastName p)
     && negb (JsString.isEmpty (JsString.trim (bsc_name l)))
  then
    let best := Z.max (lastFK5 p) (scanFK5 s l) in
    let T := <[id := best]> (<[lastBSC p := best]> T0) in
    if Qgeb m (lastMag p)
    then (mkScan (lastBSC p) best (lastName p) (lastMag p),
          withBsc2fk5 (delete id T) s)
    else (mkScan id best (bsc_name l) m,
          withBsc2fk5 (delete (lastBSC p) T) s)
  else (mkScan id (scanFK5 s l) (bsc_name l) m, withBsc2fk5 T0 s).
Proof.
  intros Hb Hv. unfold scanLine. rewrite Hb, Hv.
  destruct (_ && _); [destruct (Qgeb _ _)|]; reflexivity.
Qed.

Lemma scanLine_highestFK5 (st : Scan * State) (l : BSCLine) :
  highestFK5 (snd (scanLine st l)) = highestFK5 (snd st).
Proof.
  destruct st as [p s]. destruct (rated l) eqn:Hr.
  - unfold rated in Hr. apply andb_true_iff in Hr as [Hb Hv].
    apply negb_true_iff in Hb. destruct (bsc_vmag l) as [m|] eqn:Hm; [|done].
    rewrite (scanLine_rated p s l m Hb Hm). cbn zeta.
    destruct (_ && _); [destruct (Qgeb _ _)|]; reflexivity.
  - by apply scanLine_unrated.
Qed.

Lemma scan_highestFK5 (lines : list BSCLine) (st : Scan * State) :
  highestFK5 (snd (fold_left scanLine lines st)) = highestFK5 (snd st).
Proof.
  revert st. induction lines as [|l lines IH]; intros st; [done|].
  cbn [fold_left]. by rewrite IH, scanLine_highestFK5.
Qed.

Lemma scanLine_lastName (st : Scan * State) (l : BSCLine) :
  lastName (fst (scanLine st l)) =
  if rated l then bsc_name l else lastName (fst st).
Proof.
  destruct st as [p s]. destruct (rated l) eqn:Hr.
  - unfold rated in Hr. apply andb_true_iff in Hr as [Hb Hv].
    apply negb_true_iff in Hb. destruct (bsc_vmag l) as [m|] eqn:Hm; [|done].
    rewrite (scanLine_rated p s l m Hb Hm). cbn zeta.
    destruct (String.eqb _ _) eqn:E; [|done].
    apply String.eqb_eq in E.
    destruct (negb _); [|done]. by destruct (Qgeb _ _).
  - by destruct (scanLine_unrated p s l Hr) as [-> _].
Qed.

(** After any prefix, [lastName] is the name of the last rated line. *)
Lemma scan_lastName (pre : list BSCLine) (st : Scan * State) :
  lastName (fst (fold_left scanLine pre st)) =
  from_option bsc_name (lastName (fst st)) (last (filter rated pre)).
Proof.
  induction pre as [|l pre IH] using rev_ind; [done|].
  rewrite fold_left_app. cbn [fold_left].
  rewrite scanLine_lastName, filter_app, IH.
  rewrite filter_cons, filter_nil.
  destruct (rated l) eqn:Hr.
  - rewrite decide_True by done. by rewrite last_snoc.
  - rewrite decide_False by (intros []). by rewrite app_nil_r.
Qed.


(** Later lines leave the entries of two identifiers alone when they do
    not carry them and the scan does not extend a run ending on one. *)
Lemma scan_frame (nm : string) (id1 id2 : Z) (post : list BSCLine) :
  ∀ (p : Scan) (s : State),
    (∀ l, l ∈ post → bsc_blank l = false →
          bsc_bscNum l ≠ id1 ∧ bsc_bscNum l ≠ id2) →
    (lastBSC p ≠ id1 ∧ lastBSC p ≠ id2) ∨
    (lastName p = nm ∧ bsc_name <$> head (filter rated post) ≠ Some nm) →
    bsc2fk5 (snd (fold_left scanLine post (p, s))) !! id1 = bsc2fk5 s !! id1 ∧
    bsc2fk5 (snd (fold_left scanLine post (p, s))) !! id2 = bsc2fk5 s !! id2.
Proof.
  induction post as [|l post IH]; intros p s Hids Hcase; [done|].
  cbn [fold_left].
  assert (∀ l', l' ∈ post → bsc_blank l' = false →
                bsc_bscNum l' ≠ id1 ∧ bsc_bscNum l' ≠ id2) as Hids'.
  { intros l' Hl'. apply Hids. by right. }
  destruct (rated l) eqn:Hr.
  - pose proof Hr as Hr'. unfold rated in Hr'.
    apply andb_true_iff in Hr' as [Hb Hv]. apply negb_true_iff in Hb.
    destruct (bsc_vmag l) as [m|] eqn:Hm; [|done].
    destruct (Hids l ltac:(by left) Hb) as [N1 N2].
    rewrite (scanLine_rated p s l m Hb Hm). cbn zeta.
    destruct Hcase as [[A1 A2] | [B1 B2]].
    + destruct (_ && _); [destruct (Qgeb _ _)|];
        (edestruct IH as [-> ->]; [done| left; cbn; done |]);
        cbn [bsc2fk5 withBsc2fk5];
        rewrite ?lookup_delete_ne, ?lookup_insert_ne by done; done.
    + rewrite filter_cons, decide_True in B2 by (by rewrite Hr).
      cbn in B2.
      assert (bsc_name l ≠ lastName p) as Hn by congruence.
      apply String.eqb_neq in Hn. rewrite Hn. cbn [andb].
      edestruct IH as [-> ->]; [done| left; cbn; done |].
      cbn [bsc2fk5 withBsc2fk5].
      rewrite !lookup_insert_ne by done. done.
  - destruct (scanLine_unrated p s l Hr) as (Hp & _ & HT).
    destruct (scanLine (p, s) l) as [p' s'] eqn:E. cbn [fst snd] in *.
    subst p'.
    edestruct (IH p s') as [-> ->]; [done| |].
    + destruct Hcase as [A | [B1 B2]]; [by left|right]. split; [done|].
      rewrite filter_cons, decide_False in B2 by (rewrite Hr; intros []). done.
    + split; apply HT; intros Hb; destruct (Hids l ltac:(by left) Hb); done.
Qed.

(** C3, amended.  Take two consecutive lines with magnitudes, the same
    non-blank name field and different bright-star numbers, such that the
    rated line before them and the rated line after them carry another
    name, and no later line repeats either number.  After the first scan
    exactly one of the two keeps an entry in [bsc2fk5]: the first when its
    magnitude is at most the second's, else the second; the entry is the
    larger of the two FK5 numbers read for the pair.  The second scan
    skips a line without entry.  With magnitudes 3.0 then 4.5 the first
    line is the one kept. *)
Theorem scan_keeps_brighter_of_pair
  (s : State) (pre post : list BSCLine) (l1 l2 : BSCLine) (m1 m2 : Q) :
  bsc_blank l1 = false → bsc_blank l2 = false →
  bsc_vmag l1 = Some m1 → bsc_vmag l2 = Some m2 →
  bsc_name l1 = bsc_name l2 →
  JsString.trim (bsc_name l1) ≠ EmptyString →
  bsc_bscNum l1 ≠ bsc_bscNum l2 →
  bsc_name <$> last (filter rated pre) ≠ Some (bsc_name l1) →
  bsc_name <$> head (filter rated post) ≠ Some (bsc_name l1) →
  (∀ l, l ∈ post → bsc_blank l = false →
        bsc_bscNum l ≠ bsc_bscNum l1 ∧ bsc_bscNum l ≠ bsc_bscNum l2) →
  let T := bsc2fk5 (snd (scanLines s (pre ++ l1 :: l2 :: post))) in
  let best := Z.max (scanFK5 s l1) (scanFK5 s l2) in
  ((m1 <= m2)%Q →
     T !! bsc_bscNum l1 = Some best ∧ T !! bsc_bscNum l2 = None) ∧
  ((m2 < m1)%Q →
     T !! bsc_bscNum l2 = Some best ∧ T !! bsc_bscNum l1 = None) ∧
  ((m1 == 3.0)%Q → (m2 == 4.5)%Q →
     T !! bsc_bscNum l1 = Some best ∧ T !! bsc_bscNum l2 = None) ∧
  (∀ s' l, bsc2fk5 s' !! bsc_bscNum l = None → mergeLine s' l = s').
Proof.
  intros Hb1 Hb2 Hv1 Hv2 Hname Hnb Hid Hpre Hpost Hids T best.
  assert (((m1 <= m2)%Q →
             T !! bsc_bscNum l1 = Some best ∧ T !! bsc_bscNum l2 = None) ∧
          ((m2 < m1)%Q →
             T !! bsc_bscNum l2 = Some best ∧ T !! bsc_bscNum l1 = None))
    as [Hle Hlt].
  { subst T best. unfold scanLines.
    rewrite fold_left_app. cbn [fold_left].
    pose proof (scan_lastName pre (initialScan, s)) as Hlast.
    pose proof (scan_highestFK5 pre (initialScan, s)) as HhF.
    destruct (fold_left scanLine pre (initialScan, s)) as [p0 s0].
    cbn [fst snd] in Hlast, HhF.
    assert (lastName p0 ≠ bsc_name l1) as Hp0.
    { rewrite Hlast. destruct (last (filter rated pre)) as [l0|]; cbn in *.
      - congruence.
      - intros E. apply Hnb. by rewrite <- E. }
    assert (∀ l, scanFK5 s0 l = scanFK5 s l) as Hfk.
    { intros l. unfold scanFK5. by rewrite HhF. }
    rewrite (scanLine_rated p0 s0 l1 m1 Hb1 Hv1). cbn zeta.
    assert (String.eqb (bsc_name l1) (lastName p0) = false) as ->.
    { apply String.eqb_neq. congruence. }
    cbn [andb].
    rewrite (scanLine_rated _ _ l2 m2 Hb2 Hv2). cbn zeta.
    cbn [lastName lastBSC lastFK5 lastMag bsc2fk5 withBsc2fk5].
    rewrite <- Hname, String.eqb_refl.
    assert (negb (JsString.isEmpty (JsString.trim (bsc_name l1))) = true)
      as ->.
    { destruct (JsString.trim (bsc_name l1)); done. }
    cbn [andb].
    change (scanFK5 (withBsc2fk5 _ s0) l2) with (scanFK5 s0 l2).
    rewrite !Hfk.
    unfold Qgeb. split.
    - intros Hm. apply Qle_bool_iff in Hm. rewrite Hm.
      edestruct (scan_frame (bsc_name l1) (bsc_bscNum l1) (bsc_bscNum l2) post)
        as [-> ->]; [done | right; cbn; done |].
      cbn [bsc2fk5 withBsc2fk5].
      rewrite lookup_delete_eq, lookup_delete_ne, lookup_insert_ne,
        lookup_insert_eq by done. done.
    - intros Hm. destruct (Qle_bool m1 m2) eqn:E.
      { apply Qle_bool_iff in E. exfalso. lra. }
      edestruct (scan_frame (bsc_name l1) (bsc_bscNum l1) (bsc_bscNum l2) post)
        as [-> ->]; [done | right; cbn; done |].
      cbn [bsc2fk5 withBsc2fk5].
      rewrite lookup_delete_eq, lookup_delete_ne, lookup_insert_eq by done.
      done. }
  split; [done|]. split; [done|]. split.
  - intros E1 E2. apply Hle. rewrite E1, E2. lra.
  - intros s' l Hnone. unfold mergeLine. rewrite Hnone.
    by destruct (bsc_blank l).
Qed.


(** ** The astrometry merger on a matched row *)

Lemma Qmin_cases (x y : Q) :
  (Qmin x y <= x)%Q ∧ (Qmin x y <= y)%Q ∧ (Qmin x y = x ∨ Qmin x y = y).
Proof.
  split; [apply Q.le_min_l|]. split; [apply Q.le_min_r|].
  unfold Qmin, GenericMinMax.gmin. destruct (x ?= y)%Q; auto.
Qed.



(** ** Layout of the registry through the stages *)

Ltac fields :=
  cbn [heap fk5Index hd2fk5 bscIndex hd2bsc bsc2fk5 ngcs totalBSC totalHIP
       totalDSO highestFK5 highestBSC highestHIP highestStar addedStars
       pleiades withHeap withFk5Index withHd2fk5 withBscIndex withHd2bsc
       withBsc2fk5 withNgcs withTotalBSC withTotalHIP withTotalDSO
       withHighestFK5 withHighestBSC withHighestHIP withHighestStar
       withAddedStars withPleiades alloc update fst snd] in *.

Lemma crossIndexLine_fields (s : State) (l : FK5Line) :
  fk5_blank l = false →
  let s' := crossIndexLine s l in
  highestFK5 s' = Z.max (highestFK5 s) (fk5_fk5Num l) ∧
  highestStar s' = Z.max (highestFK5 s) (fk5_fk5Num l) ∧
  fk5Index s' = <[fk5_fk5Num l := length (heap s)]> (fk5Index s) ∧
  (length (heap s) < length (heap s'))%nat ∧
  (∀ p, pleiades s' = Some p →
        (p < length (heap s'))%nat ∨ pleiades s = Some p) ∧
  (addedStars s', totalBSC s', totalHIP s', totalDSO s',
   highestBSC s', highestHIP s')
  = (addedStars s, totalBSC s, totalHIP s, totalDSO s,
     highestBSC s, highestHIP s).
Proof.
  intros Hb. unfold crossIndexLine. rewrite Hb.
  destruct (fk5_hd l) as [hd|]; [destruct (0 <? hd)|];
    destruct (fk5_fk5Num l =? 139); fields;
    rewrite ?length_app; cbn [length];
    (repeat split; [lia | intros p Hp; try (by right);
                          left; injection Hp as <-; lia]).
Qed.

Lemma initial_primary : Primary initialState.
Proof.
  constructor; cbn; try done; try lia.
  intros k [r Hr]. by rewrite lookup_empty in Hr.
Qed.

Lemma crossIndexLine_primary (s : State) (l : FK5Line) :
  Primary s → Primary (crossIndexLine s l).
Proof.
  intros [H1 H2 H3 [H4 H4'] [H5 H5'] H6 H7 H8 H9 H10].
  destruct (fk5_blank l) eqn:Hb.
  { unfold crossIndexLine. rewrite Hb. by constructor. }
  destruct (crossIndexLine_fields s l Hb) as (EF & ES & EI & EH & EP & EC).
  injection EC as E1 E2 E3 E4 E5 E6.
  constructor; rewrite ?EF, ?ES, ?EI; try done; try lia.
  - intros k. destruct (decide (fk5_fk5Num l = k)) as [<-|Hne].
    + lia.
    + rewrite lookup_insert_ne by done. intros Hk%H7. lia.
  - intros k r. destruct (decide (fk5_fk5Num l = k)) as [<-|Hne].
    + rewrite lookup_insert_eq. intros [= <-]. done.
    + rewrite lookup_insert_ne by done. intros Hk%H8. lia.
  - intros Hpos.
    destruct (decide (fk5_fk5Num l = Z.max (highestFK5 s) (fk5_fk5Num l)))
      as [<-|Hne].
    + rewrite lookup_insert_eq. eauto.
    + rewrite lookup_insert_ne by done.
      replace (Z.max (highestFK5 s) (fk5_fk5Num l)) with (highestFK5 s) in *
        by lia. auto.
  - intros p Hp. destruct (EP p Hp) as [?|Hp']; [done|].
    apply H10 in Hp'. lia.
Qed.

Lemma processCrossIndex_primary (lines : list FK5Line) (s : State) :
  Primary s → Primary (processCrossIndex s lines).
Proof.
  unfold processCrossIndex. revert s.
  induction lines as [|l lines IH]; intros s Hs; [done|].
  cbn [fold_left]. by apply IH, crossIndexLine_primary.
Qed.

Lemma primary_layout (s : State) : Primary s → Layout s.
Proof.
  intros [H1 H2 H3 [H4 H4'] [H5 H5'] H6 H7 H8 H9 H10].
  constructor; try done; try lia.
  - by rewrite H4, H4'.
  - by rewrite H5, H5'.
  - intros k Hk. unfold top. split.
    + intros Hs%H7. lia.
    + lia.
Qed.


Lemma sameLayout_refl (s : State) : sameLayout s s.
Proof. by repeat split. Qed.

Lemma sameLayout_trans (s1 s2 s3 : State) :
  sameLayout s1 s2 → sameLayout s2 s3 → sameLayout s1 s3.
Proof.
  unfold sameLayout. intros H1 H2.
  destruct H1 as (A1&A2&A3&A4&A5&A6&A7&A8&A9&A10&A11).
  destruct H2 as (B1&B2&B3&B4&B5&B6&B7&B8&B9&B10&B11).
  repeat split; congruence.
Qed.

Lemma Layout_same (s s' : State) : sameLayout s s' → Layout s → Layout s'.
Proof.
  intros (E1&E2&E3&E4&E5&E6&E7&E8&E9&E10&E11) [].
  constructor; unfold top in *;
    rewrite ?E1, ?E2, ?E3, ?E4, ?E5, ?E6, ?E7, ?E8, ?E9, ?E10, ?E11; done.
Qed.

Lemma extends_refl (s : State) : extends s s.
Proof. by split. Qed.

Lemma extends_trans (s1 s2 s3 : State) :
  extends s1 s2 → extends s2 s3 → extends s1 s3.
Proof.
  intros [A1 A2] [B1 B2]. split; [congruence|].
  intros k Hk. rewrite B2 by lia. by apply A2.
Qed.

Lemma extends_same (s s' : State) : sameLayout s s' → extends s s'.
Proof. intros (E1&_&_&_&_&E6&_). split; [done|]. intros. by rewrite E1. Qed.

Lemma top_ge_first (s : State) : Layout s → highestFK5 s ≤ top s.
Proof. intros []. unfold top. lia. Qed.

(** One more entry, right after the last key, counted as a bright-star
    addition, as an astrometry addition or as a deep-sky object. *)
Lemma Layout_push (s s' : State) (k : Z) (r : loc) :
  Layout s →
  k = top s + 1 →
  fk5Index s' = <[k := r]> (fk5Index s) →
  (length (heap s) ≤ length (heap s'))%nat →
  (r < length (heap s'))%nat →
  highestFK5 s' = highestFK5 s →
  pleiades s' = pleiades s →
  (totalHIP s = 0 ∧ totalDSO s = 0 ∧
   totalBSC s' = totalBSC s + 1 ∧ totalHIP s' = 0 ∧ totalDSO s' = 0 ∧
   addedStars s' = addedStars s + 1 ∧
   highestBSC s' = k ∧ highestHIP s' = highestHIP s ∧ highestStar s' = k)
  ∨ (totalDSO s = 0 ∧
     totalBSC s' = totalBSC s ∧ totalHIP s' = totalHIP s + 1 ∧
     totalDSO s' = 0 ∧ addedStars s' = addedStars s + 1 ∧
     highestBSC s' = highestBSC s ∧ highestHIP s' = k ∧ highestStar s' = k)
  ∨ (totalBSC s' = totalBSC s ∧ totalHIP s' = totalHIP s ∧
     totalDSO s' = totalDSO s + 1 ∧ addedStars s' = addedStars s ∧
     highestBSC s' = highestBSC s ∧ highestHIP s' = highestHIP s ∧
     highestStar s' = highestStar s) →
  Layout s' ∧ extends s s' ∧ top s' = k.
Proof.
  intros L -> EI EH Er EF EP Hmode.
  pose proof (top_ge_first s L) as Hge.
  destruct L as [L1 L2 L3 L4 L5 L6 L7 L8 L9 L10 L11 L12].
  assert (top s' = top s + 1) as Etop.
  { unfold top in *.
    destruct Hmode as [(?&?&?&?&?&?&?&?&?)|[(?&?&?&?&?&?&?&?)|(?&?&?&?&?&?&?)]];
      lia. }
  split; [|split; [|done]].
  - constructor; rewrite ?EF, ?EI, ?EP, ?Etop; try done.
    + destruct Hmode as [(?&?&?&?&?&?&?&?&?)|[(?&?&?&?&?&?&?&?)|(?&?&?&?&?&?&?)]];
        lia.
    + destruct Hmode as [(?&?&?&?&?&?&?&?&?)|[(?&?&?&?&?&?&?&?)|(?&?&?&?&?&?&?)]];
        lia.
    + destruct Hmode as [(?&?&?&?&?&?&?&?&?)|[(?&?&?&?&?&?&?&?)|(?&?&?&?&?&?&?)]];
        lia.
    + destruct Hmode as [(?&?&?&?&?&?&?&?&?)|[(?&?&?&?&?&?&?&?)|(?&?&?&?&?&?&?)]];
        lia.
    + unfold top in *.
      destruct Hmode as [(?&?&?&?&?&?&?&?&?)|[(?&?&?&?&?&?&?&?)|(?&?&?&?&?&?&?)]];
        lia.
    + unfold top in *.
      destruct Hmode as [(?&?&?&?&?&?&E&?&?)|[(?&E1&?&?&?&E&?&?)|(E1&?&?&?&E&?&?)]].
      * rewrite E. destruct (0 <? totalBSC s') eqn:C; [lia|].
        apply Z.ltb_ge in C. lia.
      * by rewrite E, E1.
      * by rewrite E, E1.
    + unfold top in *.
      destruct Hmode as [(E0&?&?&E1&?&?&?&E&?)|[(?&?&E1&?&?&?&E&?)|(?&E1&?&?&?&E&E2)]].
      * rewrite E, L8, E0, E1. done.
      * rewrite E. destruct (0 <? totalHIP s') eqn:C; [lia|].
        apply Z.ltb_ge in C. lia.
      * by rewrite E, E1, E2.
    + intros j Hj. destruct (decide (top s + 1 = j)) as [<-|Hne].
      * rewrite lookup_insert_eq. split; [lia|eauto].
      * rewrite lookup_insert_ne by done. rewrite L9 by done. lia.
    + intros j r'. destruct (decide (top s + 1 = j)) as [<-|Hne].
      * rewrite lookup_insert_eq. intros [= <-]. done.
      * rewrite lookup_insert_ne by done. intros Hj%L10. lia.
    + intros Hpos. rewrite lookup_insert_ne by lia. auto.
    + intros p Hp%L12. lia.
  - split; [done|]. intros j Hj. rewrite EI, lookup_insert_ne by lia. done.
Qed.


Lemma scanLine_same (st : Scan * State) (l : BSCLine) :
  sameLayout (snd st) (snd (scanLine st l)).
Proof.
  destruct st as [p s]. unfold scanLine.
  destruct (bsc_blank l); [apply sameLayout_refl|].
  destruct (bsc_vmag l); [|by repeat split].
  destruct (_ && _); [destruct (Qgeb _ _)|]; by repeat split.
Qed.

Lemma scanLines_same (lines : list BSCLine) (s : State) :
  sameLayout s (snd (scanLines s lines)).
Proof.
  unfold scanLines.
  change s with (snd (initialScan, s)) at 1.
  generalize (initialScan, s). clear s.
  induction lines as [|l lines IH]; intros st; [apply sameLayout_refl|].
  cbn [fold_left]. eapply sameLayout_trans; [apply scanLine_same|apply IH].
Qed.

Lemma mergeLine_layout (s : State) (l : BSCLine) :
  Layout s → totalHIP s = 0 → totalDSO s = 0 →
  Layout (mergeLine s l) ∧ totalHIP (mergeLine s l) = 0 ∧
  totalDSO (mergeLine s l) = 0 ∧ extends s (mergeLine s l).
Proof.
  intros L HH HD. unfold mergeLine.
  destruct (bsc_blank l); [by auto using extends_refl|].
  destruct (bsc2fk5 s !! bsc_bscNum l) as [carried|];
    [|by auto using extends_refl].
  destruct (bsc_vmag l) as [v|]; [|by auto using extends_refl].
  destruct (_ && _).
  - pose proof (addBscStar_frame s l v) as F.
    destruct (addBscStar s l v) as [k s1]. cbn [fst snd] in F.
    destruct F as (-> & EI & EH & F1 & F2 & F3 & F4 & F5 & F6 & F7 & F8 & F9).
    destruct (Layout_push s s1 (highestFK5 s + (addedStars s + 1))
                (length (heap s))) as (L1 & X1 & _);
      try done.
    + destruct L. unfold top. lia.
    + rewrite EH, length_app. lia.
    + rewrite EH, length_app. cbn. lia.
    + left. repeat split; try done; lia.
    + pose proof (annotateBsc_frame s1 l
                    (highestFK5 s + (addedStars s + 1))) as S.
      split; [by eapply Layout_same|].
      pose proof (extends_same _ _ S) as X2.
      destruct S as (_&_&_&->&->&_).
      split; [lia|]. split; [lia|]. by eapply extends_trans.
  - pose proof (annotateBsc_frame s l (resolvedFK5 s l carried)) as S.
    split; [by eapply Layout_same|].
    pose proof (extends_same _ _ S) as X2.
    destruct S as (?&?&?&->&->&?). done.
Qed.

Lemma mergeLines_layout (ls : list BSCLine) (s s0 : State) :
  Layout s0 ∧ totalHIP s0 = 0 ∧ totalDSO s0 = 0 ∧ extends s s0 →
  Layout (fold_left mergeLine ls s0) ∧
  totalHIP (fold_left mergeLine ls s0) = 0 ∧
  totalDSO (fold_left mergeLine ls s0) = 0 ∧
  extends s (fold_left mergeLine ls s0).
Proof.
  revert s0. induction ls as [|l ls IH]; intros s0 H0; [done|].
  cbn [fold_left]. apply IH.
  destruct H0 as (L0 & H1 & H2 & X).
  destruct (mergeLine_layout s0 l L0 H1 H2) as (?&?&?&?).
  split; [done|]. split; [done|]. split; [done|]. by eapply extends_trans.
Qed.

Lemma bsc_stage (s : State) (lines : list BSCLine) :
  Layout s → totalHIP s = 0 → totalDSO s = 0 →
  Layout (processYaleBrightStarCatalog s lines) ∧
  totalHIP (processYaleBrightStarCatalog s lines) = 0 ∧
  totalDSO (processYaleBrightStarCatalog s lines) = 0 ∧
  extends s (processYaleBrightStarCatalog s lines).
Proof.
  intros L HH HD. unfold processYaleBrightStarCatalog.
  pose proof (scanLines_same lines s) as S.
  apply mergeLines_layout.
  split; [by eapply Layout_same|].
  pose proof (extends_same _ _ S).
  destruct S as (_&_&_&->&->&_). done.
Qed.

Lemma notesLine_same (s s' : State) (l : NoteLine) :
  notesLine s l = Some s' → sameLayout s s'.
Proof.
  unfold notesLine. intros H.
  destruct (note_blank l); [injection H as <-; apply sameLayout_refl|].
  destruct (bool_decide _); [injection H as <-; apply sameLayout_refl|].
  destruct (negb _); [injection H as <-; apply sameLayout_refl|].
  destruct (notesName _); [|injection H as <-; apply sameLayout_refl].
  destruct (bsc2fk5 s !! note_bscNum l) as [k|]; [|done]. cbn in H.
  destruct (fk5Index s !! k) as [r|]; [|done]. cbn in H.
  injection H as <-. repeat split. fields. apply length_alter.
Qed.

Lemma notes_stage (lines : list NoteLine) (s s' : State) :
  processYaleBrightStarCatalogNotes s lines = Some s' → sameLayout s s'.
Proof.
  revert s. induction lines as [|l lines IH]; intros s H; cbn in H.
  - injection H as <-. apply sameLayout_refl.
  - destruct (notesLine s l) as [s1|] eqn:E; [|done]. cbn in H.
    eapply sameLayout_trans; [by eapply notesLine_same|by apply IH].
Qed.


Lemma hipparcosLine_layout (s : State) (l : HIPLine) (f : Flow) :
  hipparcosLine s l = Some f →
  Layout s → totalDSO s = 0 →
  Layout (flowState f) ∧ totalDSO (flowState f) = 0 ∧
  totalBSC (flowState f) = totalBSC s ∧ extends s (flowState f).
Proof.
  intros H L HD.
  assert (∀ s', sameLayout s s' →
                Layout s' ∧ totalDSO s' = 0 ∧ totalBSC s' = totalBSC s ∧
                extends s s') as Hsame.
  { intros s' S. split; [by eapply Layout_same|].
    pose proof (extends_same _ _ S).
    destruct S as (_&_&->&_&->&_). done. }
  assert (∀ r g, sameLayout s (update r g s)) as Hupd.
  { intros r g. repeat split. fields. apply length_alter. }
  unfold hipparcosLine in H.
  destruct (negb _); [injection H as <-; apply Hsame, sameLayout_refl|].
  destruct (_ =? _); [injection H as <-; apply Hsame, sameLayout_refl|].
  destruct (hip_ra l) as [ra|];
    [|injection H as <-; apply Hsame, sameLayout_refl].
  destruct (hip_de l) as [de|];
    [|injection H as <-; apply Hsame, sameLayout_refl].
  destruct (hip_vmag l) as [v|];
    [|injection H as <-; apply Hsame, sameLayout_refl].
  destruct (hip_pmRA l) as [pra|];
    [|injection H as <-; apply Hsame, sameLayout_refl].
  destruct (hip_pmDE l) as [pde|];
    [|injection H as <-; apply Hsame, sameLayout_refl].
  cbn zeta in H.
  destruct (0 <? _).
  { destruct (fk5Index s !! _) as [r|]; [|done]. cbn in H.
    destruct (heap s !! r); [|done]. cbn in H.
    injection H as <-. apply Hsame, Hupd. }
  destruct (0 <? _).
  { destruct (bscIndex s !! _) as [r|]; [|done]. cbn in H.
    destruct (heap s !! r); [|done]. cbn in H.
    injection H as <-. apply Hsame, Hupd. }
  destruct (Qgtb _ _); [injection H as <-; apply Hsame, sameLayout_refl|].
  injection H as <-. cbn [flowState]. unfold addHipStar. fields.
  match goal with |- Layout ?s' ∧ _ =>
    destruct (Layout_push s s' (highestFK5 s + (addedStars s + 1))
                (length (heap s))) as (L1 & X1 & _)
  end; fields; try done.
  - destruct L. unfold top. lia.
  - rewrite length_app. lia.
  - rewrite length_app. cbn. lia.
  - right. left. repeat split; try done; lia.
Qed.

Lemma hip_loop_stage (lines : list HIPLine) (s s' : State) :
  hipparcosLoop s lines = Some s' →
  Layout s → totalDSO s = 0 →
  Layout s' ∧ totalDSO s' = 0 ∧ totalBSC s' = totalBSC s ∧ extends s s'.
Proof.
  revert s. induction lines as [|l lines IH]; intros s H L HD; cbn in H.
  - injection H as <-. auto using extends_refl.
  - destruct (hipparcosLine s l) as [f|] eqn:E; [|done].
    destruct (hipparcosLine_layout s l f E L HD) as (L1 & D1 & B1 & X1).
    destruct f as [s1|s1]; cbn [flowState] in *.
    + destruct (IH s1 H L1 D1) as (?&?&?&?).
      split; [done|]. split; [done|]. split; [congruence|].
      by eapply extends_trans.
    + injection H as <-. done.
Qed.

(** A deep-sky entry appended after the last key. *)
Lemma dso_push (s : State) (h : list StarInfo) (r : loc) :
  Layout s →
  (length (heap s) ≤ length h)%nat → (r < length h)%nat →
  let s' := withFk5Index
              (<[highestStar s + (totalDSO s + 1) := r]> (fk5Index s))
              (withTotalDSO (totalDSO s + 1) (withHeap h s)) in
  Layout s' ∧ totalBSC s' = totalBSC s ∧ totalHIP s' = totalHIP s ∧
  extends s s' ∧ top s' = top s + 1.
Proof.
  intros L Hh Hr s'.
  destruct (Layout_push s s' (highestStar s + (totalDSO s + 1)) r)
    as (L1 & X1 & T1); subst s'; fields; try done.
  - unfold top. lia.
  - right. right. repeat split; done.
  - split; [done|]. split; [done|]. split; [done|]. split; [done|].
    rewrite T1. unfold top. lia.
Qed.

Lemma addPleiades_layout (s : State) :
  Layout s →
  Layout (addPleiades s) ∧ totalBSC (addPleiades s) = totalBSC s ∧
  totalHIP (addPleiades s) = totalHIP s ∧ extends s (addPleiades s).
Proof.
  intros L. unfold addPleiades.
  destruct (pleiades s) as [p|] eqn:Ep; [|by auto using extends_refl].
  destruct (dso_push s (heap s) p L) as (L1 & B1 & H1 & X1 & _).
  - done.
  - by eapply lay_pleiades.
  - done.
Qed.


Lemma ngcNameLine_same (st : Z * State) (l : NgcNameLine) :
  sameLayout (snd st) (snd (ngcNameLine st l)).
Proof.
  destruct st as [d s]. unfold ngcNameLine.
  destruct (nn_dash l); [by repeat split|].
  destruct (_ || _); [apply sameLayout_refl|].
  destruct (nn_ngcIcNum l) as [n|]; [|apply sameLayout_refl].
  destruct (n =? 0); [apply sameLayout_refl|].
  destruct (String.eqb _ _); destruct (JsString.startsWith _ _);
    by repeat split.
Qed.

Lemma ngcNames_same (lines : list NgcNameLine) (s : State) :
  sameLayout s (processNgcNames s lines).
Proof.
  unfold processNgcNames.
  change s with (snd (0, s)) at 1.
  generalize (0, s). clear s.
  induction lines as [|l lines IH]; intros st; [apply sameLayout_refl|].
  cbn [fold_left].
  eapply sameLayout_trans; [apply ngcNameLine_same|apply IH].
Qed.

Lemma starAt_alloc (s : State) (k knew : Z) (o : StarInfo) (X : State) :
  Layout s → k ≠ knew →
  fk5Index X = <[knew := length (heap s)]> (fk5Index s) →
  heap X = heap s ++ [o] →
  starAt X k = starAt s k.
Proof.
  intros L Hk EI EH. unfold starAt. rewrite EI, EH, lookup_insert_ne by done.
  destruct (fk5Index s !! k) as [r|] eqn:E; [|done]. cbn.
  apply lookup_app_l. by eapply lay_heap.
Qed.

Lemma ngcDataLine_layout (t : Z) (st st' : Z * State) (l : NgcDataLine) :
  ngcDataLine st l = Some st' →
  Layout (snd st) → noMotionAbove t (snd st) →
  Layout (snd st') ∧ noMotionAbove t (snd st') ∧
  totalBSC (snd st') = totalBSC (snd st) ∧
  totalHIP (snd st') = totalHIP (snd st) ∧
  extends (snd st) (snd st').
Proof.
  destruct st as [d s]. cbn [snd]. intros H L N.
  unfold ngcDataLine in H.
  destruct (nd_dash l); [injection H as <-; by auto using extends_refl|].
  destruct (_ || _); [injection H as <-; by auto using extends_refl|].
  cbn zeta in H.
  destruct (_ && _); [injection H as <-; by auto using extends_refl|].
  destruct (nd_position l) as [p|]; [|done]. cbn in H.
  destruct (nd_constellation l) as [c|]; [|done]. cbn in H.
  injection H as <-. cbn [snd]. fields.
  set (o := ngcStar l (ngcs s !! nd_ngcIcNum l) p c).
  destruct (dso_push s (heap s ++ [o]) (length (heap s)) L)
    as (L1 & B1 & H1 & X1 & T1).
  { rewrite length_app. lia. }
  { rewrite length_app. cbn. lia. }
  cbn zeta in *.
  split; [done|]. split; [|done].
  intros k Hk. rewrite T1 in Hk.
  destruct (decide (k = highestStar s + (totalDSO s + 1))) as [->|Hne].
  - exists o. split; [|done].
    unfold starAt. fields. rewrite lookup_insert_eq. cbn.
    apply heap_alloc_lookup.
  - rewrite (starAt_alloc s k (highestStar s + (totalDSO s + 1)) o);
      [|done..].
    apply N. unfold top in *. lia.
Qed.

Lemma ngcDataLoop_layout (t : Z) (lines : list NgcDataLine)
      (st st' : Z * State) :
  ngcDataLoop st lines = Some st' →
  Layout (snd st) → noMotionAbove t (snd st) →
  Layout (snd st') ∧ noMotionAbove t (snd st') ∧
  totalBSC (snd st') = totalBSC (snd st) ∧
  totalHIP (snd st') = totalHIP (snd st) ∧
  extends (snd st) (snd st').
Proof.
  revert st. induction lines as [|l lines IH]; intros st H L N; cbn in H.
  - injection H as <-. auto using extends_refl.
  - destruct (ngcDataLine st l) as [st1|] eqn:E; [|done]. cbn in H.
    destruct (ngcDataLine_layout t st st1 l E L N) as (L1 & N1 & B1 & H1 & X1).
    destruct (IH st1 H L1 N1) as (?&?&?&?&?).
    split; [done|]. split; [done|]. split; [congruence|].
    split; [congruence|]. by eapply extends_trans.
Qed.

Lemma ngcData_stage (lines : list NgcDataLine) (s s' : State) :
  processNgcData s lines = Some s' →
  Layout s →
  Layout s' ∧ noMotionAbove (top s) s' ∧
  totalBSC s' = totalBSC s ∧ totalHIP s' = totalHIP s ∧ extends s s'.
Proof.
  unfold processNgcData. intros H L.
  destruct (ngcDataLoop (0, s) lines) as [st'|] eqn:E; [|done].
  injection H as <-.
  apply (ngcDataLoop_layout (top s) lines (0, s) st' E L).
  intros k Hk. cbn [snd] in Hk. lia.
Qed.


(** ** The whole run *)

Lemma pipeline_stages (src : Sources) (s : State) :
  pipeline src = Some s →
  ∃ s3 s4,
    afterNotes src = Some s3 ∧
    afterHipparcosLoop src = Some s4 ∧
    afterHipparcos src = Some (addPleiades s4) ∧
    afterNgcNames src
    = Some (processNgcNames (addPleiades s4) (ngcNames src)) ∧
    processNgcData (processNgcNames (addPleiades s4) (ngcNames src))
                   (ngcData src) = Some s.
Proof.
  unfold pipeline, afterNgcNames, afterHipparcos, afterHipparcosLoop,
    processHipparcosStarCatalog.
  intros H.
  destruct (afterNotes src) as [s3|]; [|done]. cbn in *.
  destruct (hipparcosLoop s3 (hipparcosData src)) as [s4|]; [|done].
  cbn in *. by exists s3, s4.
Qed.

(** The facts about a completed run that the properties below share. *)
Lemma pipeline_layout (src : Sources) (s : State) :
  pipeline src = Some s →
  ∃ s3 s4,
    afterNotes src = Some s3 ∧
    afterHipparcosLoop src = Some s4 ∧
    afterNgcNames src
    = Some (processNgcNames (addPleiades s4) (ngcNames src)) ∧
    Primary (afterCrossIndex src) ∧
    Layout (afterBsc src) ∧ Layout s4 ∧ Layout s ∧
    fk5Index s3 = fk5Index (afterBsc src) ∧
    extends (afterCrossIndex src) (afterBsc src) ∧
    extends (afterCrossIndex src) s4 ∧
    extends (afterCrossIndex src) s ∧
    top (afterBsc src) = highestFK5 s + totalBSC s ∧
    top s4 = highestFK5 s + totalBSC s + totalHIP s ∧
    top s = highestFK5 s + totalBSC s + totalHIP s + totalDSO s ∧
    noMotionAbove (top (processNgcNames (addPleiades s4) (ngcNames src))) s ∧
    Layout (processNgcNames (addPleiades s4) (ngcNames src)) ∧
    extends (afterCrossIndex src)
            (processNgcNames (addPleiades s4) (ngcNames src)).
Proof.
  intros H.
  destruct (pipeline_stages src s H) as (s3 & s4 & E3 & E4 & _ & E5 & E6).
  exists s3, s4. split; [done|]. split; [done|]. split; [done|].
  pose proof (processCrossIndex_primary (crossIndex src) initialState
                initial_primary) as P1.
  fold (afterCrossIndex src) in P1.
  pose proof (primary_layout _ P1) as L1.
  destruct (bsc_stage (afterCrossIndex src) (bscCatalog src) L1)
    as (L2 & H2 & D2 & X2).
  { by destruct P1 as [_ _ _ _ [? _] _]. }
  { by destruct P1. }
  fold (afterBsc src) in L2, H2, D2, X2.
  pose proof (notes_stage _ _ _ E3) as S3.
  pose proof (Layout_same _ _ S3 L2) as L3.
  unfold afterHipparcosLoop in E4. rewrite E3 in E4. cbn in E4.
  destruct (hip_loop_stage _ _ _ E4 L3) as (L4 & D4 & B4 & X4).
  { destruct S3 as (_&_&_&_&->&_). done. }
  destruct (addPleiades_layout s4 L4) as (L5 & B5 & H5 & X5).
  pose proof (ngcNames_same (ngcNames src) (addPleiades s4)) as S6.
  pose proof (Layout_same _ _ S6 L5) as L6.
  destruct (ngcData_stage _ _ _ E6 L6) as (L7 & N7 & B7 & H7 & X7).
  pose proof (extends_same _ _ S3) as X3.
  pose proof (extends_same _ _ S6) as X6.
  assert (extends (afterCrossIndex src) s4) as X14
    by eauto using extends_trans.
  assert (extends (afterCrossIndex src)
                  (processNgcNames (addPleiades s4) (ngcNames src))) as X16
    by eauto using extends_trans.
  assert (extends (afterCrossIndex src) s) as X17
    by eauto using extends_trans.
  split; [done|]. split; [done|]. split; [done|]. split; [done|].
  split; [by destruct S3|].
  split; [done|]. split; [done|]. split; [done|].
  destruct X2 as [F2 _]. destruct X14 as [F4 _]. destruct X17 as [F7 _].
  destruct S3 as (_&_&SB3&_). destruct S6 as (_&_&SB6&SH6&_).
  destruct L2 as [_ _ _ _ A2 R2 _ _ _ _ _ _].
  destruct L4 as [_ _ _ _ A4 R4 _ _ _ _ _ _].
  destruct L7 as [_ _ _ _ A7 R7 _ _ _ _ _ _].
  unfold top. split; [|split; [|split; [|split]]]; try done; lia.
Qed.


Lemma keys_char (s1 X : State) (k : Z) :
  Primary s1 → Layout X → extends s1 X →
  k ∈ keys X ↔ k ∈ keys s1 ∨ highestFK5 s1 < k ≤ top X.
Proof.
  intros P L [EF EL]. unfold keys. rewrite !elem_of_dom.
  destruct (decide (k ≤ highestFK5 s1)) as [Hk|Hk].
  - rewrite EL by done. split; [auto|]. intros [?|?]; [done|lia].
  - rewrite (lay_dense X L) by lia. split.
    + intros ?. right. lia.
    + intros [Hin%(pri_keys s1 P)|?]; lia.
Qed.

(** The blocks as intervals: the keys a stage created are those between
    the last key before the stage and the last key after it. *)
Lemma block_intervals (src : Sources) (s : State) :
  pipeline src = Some s →
  0 ≤ totalBSC s ∧ 0 ≤ totalHIP s ∧ 0 ≤ totalDSO s ∧
  (∀ k, k ∈ primaryBlock src → k ≤ highestFK5 s) ∧
  (∀ k, k ∈ brightStarBlock src ↔
        highestFK5 s < k ≤ highestFK5 s + totalBSC s) ∧
  (∀ k, k ∈ astrometryBlock src ↔
        highestFK5 s + totalBSC s < k
        ≤ highestFK5 s + totalBSC s + totalHIP s) ∧
  (∀ k, k ∈ deepSkyBlock src ↔
        highestFK5 s + totalBSC s + totalHIP s < k
        ≤ highestFK5 s + totalBSC s + totalHIP s + totalDSO s) ∧
  (∀ k, k ∈ keys s ↔
        k ∈ primaryBlock src ∨
        highestFK5 s < k
        ≤ highestFK5 s + totalBSC s + totalHIP s + totalDSO s).
Proof.
  intros H.
  destruct (pipeline_layout src s H)
    as (s3 & s4 & E3 & E4 & E5 & P1 & L2 & L4 & L7 & I3 & X2 & X4 & X7
        & T2 & T4 & T7 & _).
  pose proof (lay_bsc_count s L7). pose proof (lay_hip_count s L7).
  pose proof (lay_dso_count s L7).
  assert (highestFK5 (afterCrossIndex src) = highestFK5 s) as EF
    by (by destruct X7 as [E _]).
  assert (∀ k, k ∈ primaryBlock src → k ≤ highestFK5 s) as HP.
  { intros k Hk. rewrite <- EF. apply (pri_keys _ P1).
    by apply elem_of_dom. }
  split; [done|]. split; [done|]. split; [done|]. split; [done|].
  split; [|split; [|split]].
  - intros k. unfold brightStarBlock.
    rewrite elem_of_difference, (keys_char _ _ k P1 L2 X2), T2, EF.
    split; [intros [[?|?] ?]; done|].
    intros ?. split; [by right|]. intros Hk%HP. lia.
  - intros k. unfold astrometryBlock. rewrite E3, E4. cbn.
    assert (keys s3 = keys (afterBsc src)) as ->
      by (unfold keys; by rewrite I3).
    rewrite elem_of_difference, (keys_char _ _ k P1 L4 X4),
      (keys_char _ _ k P1 L2 X2), T2, T4, EF.
    split.
    + intros [[?|?] Hn]; [exfalso; auto|]. split; [|lia].
      destruct (decide (k ≤ highestFK5 s + totalBSC s)); [|lia].
      exfalso. apply Hn. right. lia.
    + intros ?. split; [right; lia|]. intros [Hk%HP|?]; lia.
  - intros k. unfold deepSkyBlock. rewrite H, E4. cbn.
    rewrite elem_of_difference, (keys_char _ _ k P1 L7 X7),
      (keys_char _ _ k P1 L4 X4), T4, T7, EF.
    split.
    + intros [[?|?] Hn]; [exfalso; auto|]. split; [|lia].
      destruct (decide (k ≤ highestFK5 s + totalBSC s + totalHIP s));
        [|lia].
      exfalso. apply Hn. right. lia.
    + intros ?. split; [right; lia|]. intros [Hk%HP|?]; lia.
  - intros k. by rewrite (keys_char _ _ k P1 L7 X7), T7, EF.
Qed.

(** C1.  After the five stages the registry keys are the union of four
    blocks, taken as the keys each stage created: the keys of the primary
    catalog, all at most [highestFK5]; then the bright-star additions,
    the astrometry additions and the deep-sky objects, each one the full
    run of consecutive integers that starts right after the block before
    it and has as many keys as the stage added records.  Hence every key
    of a block is smaller than every key of a later block, and the keys
    of an additions block are the strictly increasing run
    [lo + 1, lo + 2, ..., hi] without gap. *)
Theorem registry_blocks (src : Sources) (s : State) :
  pipeline src = Some s →
  let first := highestFK5 s in
  let b1 := first + totalBSC s in
  let b2 := b1 + totalHIP s in
  let b3 := b2 + totalDSO s in
  first ≤ b1 ≤ b2 ∧ b2 ≤ b3 ∧
  keys s = primaryBlock src ∪ brightStarBlock src
           ∪ astrometryBlock src ∪ deepSkyBlock src ∧
  (∀ k, k ∈ primaryBlock src → k ≤ first) ∧
  (∀ k, k ∈ brightStarBlock src ↔ first < k ≤ b1) ∧
  (∀ k, k ∈ astrometryBlock src ↔ b1 < k ≤ b2) ∧
  (∀ k, k ∈ deepSkyBlock src ↔ b2 < k ≤ b3) ∧
  (∀ k k', k ∈ primaryBlock src →
           k' ∈ brightStarBlock src ∪ astrometryBlock src
                ∪ deepSkyBlock src → k < k') ∧
  (∀ k k', k ∈ brightStarBlock src →
           k' ∈ astrometryBlock src ∪ deepSkyBlock src → k < k') ∧
  (∀ k k', k ∈ astrometryBlock src → k' ∈ deepSkyBlock src → k < k').
Proof.
  intros H first b1 b2 b3. subst first b1 b2 b3.
  destruct (block_intervals src s H)
    as (NB & NH & ND & HP & HB & HH & HD & HK).
  split; [lia|]. split; [lia|]. split.
  { apply set_eq. intros k.
    rewrite !elem_of_union, HB, HH, HD. fold (keys s). rewrite HK. split.
    - intros [?|?]; [auto|].
      destruct (decide (k ≤ highestFK5 s + totalBSC s));
        [left; left; right; lia|].
      destruct (decide (k ≤ highestFK5 s + totalBSC s + totalHIP s));
        [left; right; lia|right; lia].
    - intros [[[?|?]|?]|?]; [by left|right; lia..]. }
  split; [done|]. split; [done|]. split; [done|]. split; [done|].
  split; [|split].
  - intros k k' Hk%HP. rewrite !elem_of_union, HB, HH, HD. lia.
  - intros k k' Hk%HB. rewrite !elem_of_union, HH, HD. lia.
  - intros k k' Hk%HH Hk'%HD. lia.
Qed.

(** ** The writer against the per-key description *)

Lemma repeat_snoc (x : FileOp) (n : nat) :
  repeat x (S n) = repeat x n ++ [x].
Proof. induction n as [|n IH]; [done|]. cbn in *. by rewrite <- IH. Qed.

(** The loop defers the gap bytes to the next star; on any run of keys
    that it completes it still produces the segments of the keys in
    order, up to the gap bytes not yet written. *)
Lemma writeKeys_segments (dp : bool) (s : State) (ks : list Z) :
  ∀ (g : nat) (out : list FileOp) (g' : nat) (out' : list FileOp),
    writeKeys dp s (g, out) ks = Some (g', out') →
    out' ++ repeat gapByte g'
    = out ++ repeat gapByte g ++ concat (segment dp s <$> ks) ∧
    (∀ i, last ks = Some i → is_Some (starAt s i) → g' = O).
Proof.
  induction ks as [|i ks IH]; intros g out g' out' W.
  - cbn in W. injection W as <- <-. cbn. rewrite app_nil_r. done.
  - cbn [writeKeys] in W. unfold writeKey in W.
    cbn [fmap list_fmap concat].
    destruct (starAt s i) as [o|] eqn:Ei.
    + destruct (forallb fits (recordOps dp s i o)); [|done].
      cbn [mbind option_bind] in W.
      destruct (IH _ _ _ _ W) as [E Hl]. split.
      * assert (segment dp s i = markerOps s i ++ recordOps dp s i o) as ->
          by (unfold segment; by rewrite Ei).
        rewrite E. cbn [repeat app]. by rewrite <- !app_assoc.
      * intros j Hj Hs. destruct ks as [|i' ks]; [|by apply (Hl j)].
        cbn in W. by injection W as <- _.
    + destruct (i <=? highestFK5 s); [|done].
      cbn [mbind option_bind] in W.
      destruct (IH _ _ _ _ W) as [E Hl]. split.
      * assert (segment dp s i = [gapByte]) as ->
          by (unfold segment; by rewrite Ei).
        rewrite E, repeat_snoc. by rewrite <- !app_assoc.
      * intros j Hj Hs. destruct ks as [|i' ks]; [|by apply (Hl j)].
        cbn in Hj. injection Hj as <-. rewrite Ei in Hs.
        by destruct Hs.
Qed.

(** The run stops on a key above [highestFK5] without record, or on a
    record with a call whose value does not fit. *)
Lemma writeKeys_none (dp : bool) (s : State) (ks : list Z) :
  ∀ st, writeKeys dp s st ks = None ↔
        ∃ i, i ∈ ks ∧
             ((highestFK5 s < i ∧ starAt s i = None) ∨
              (∃ o, starAt s i = Some o ∧
                    forallb fits (recordOps dp s i o) = false)).
Proof.
  induction ks as [|i ks IH]; intros [g out].
  - cbn. split; [done|]. intros (i & Hi & _). by apply elem_of_nil in Hi.
  - cbn [writeKeys writeKey].
    destruct (starAt s i) as [o|] eqn:Ei.
    + destruct (forallb fits (recordOps dp s i o)) eqn:Ef;
        cbn [mbind option_bind].
      * rewrite IH. split.
        -- intros (j & Hj & H). exists j. split; [by right|done].
        -- intros (j & Hj & H). exists j.
           apply elem_of_cons in Hj as [->|Hj]; [|done].
           destruct H as [[_ Hn]|(o' & Ho' & Hf)]; congruence.
      * split; [|done]. intros _. exists i. split; [by left|].
        right. by exists o.
    + destruct (Z.leb_spec i (highestFK5 s)) as [Hi|Hi];
        cbn [mbind option_bind].
      * rewrite IH. split.
        -- intros (j & Hj & H). exists j. split; [by right|done].
        -- intros (j & Hj & H). exists j.
           apply elem_of_cons in Hj as [->|Hj]; [|done].
           destruct H as [[Hlt _]|(o' & Ho' & _)]; [lia|congruence].
      * split; [|done]. intros _. exists i. split; [by left|].
        left. done.
Qed.



(** The magnitude byte and the floats always pass the range check: a
    record is written when its designation bytes, its trailer and the
    length of its name fit. *)
Lemma recordOps_fits (dp : bool) (s : State) (i : Z) (o : StarInfo) :
  forallb fits (recordOps dp s i o) = fieldsFit s i o.
Proof.
  unfold recordOps, fieldsFit. rewrite !forallb_app.
  assert (fits (writeUInt8 (compressedMag <$> vmag o)) = true) as Hm.
  { destruct (vmag o) as [m|]; [|done].
    pose proof (compressedMag_range m). cbn [fmap option_fmap option_map fits].
    apply andb_true_iff. split; apply Z.leb_le; lia. }
  cbn [forallb]. rewrite Hm.
  assert (forallb fits
            (if dp then [writeDouble (RA o); writeDouble (DE o)]
             else [writeFloat (RA o); writeFloat (DE o)]) = true) as ->
    by (by destruct dp).
  cbn [fits]. rewrite !andb_true_r, !andb_true_l. by rewrite !andb_assoc.
Qed.

Lemma writer_completes (dp : bool) (s : State) :
  writable s = true → is_Some (writeStarCatalog dp s).
Proof.
  intros H. unfold writeStarCatalog.
  destruct (writeKeys dp s _ _) as [st|] eqn:W; [by eexists|exfalso].
  apply writeKeys_none in W as (i & Hi & Hbad).
  unfold writable in H. rewrite forallb_forall in H.
  specialize (H i ltac:(by apply list_elem_of_In)).
  destruct Hbad as [[Hlt Hn]|(o & Ho & Hf)].
  - rewrite Hn in H. apply Z.leb_le in H. lia.
  - rewrite Ho in H. rewrite recordOps_fits in Hf. congruence.
Qed.

Lemma starAt_dense (s : State) (i : Z) :
  Layout s → highestFK5 s < i ≤ top s → is_Some (starAt s i).
Proof.
  intros L Hi. unfold starAt.
  destruct (proj2 (lay_dense s L i ltac:(lia)) ltac:(lia)) as [r Hr].
  rewrite Hr. cbn. apply lookup_lt_is_Some. by eapply lay_heap.
Qed.

Lemma starAt_top (s : State) :
  Layout s → 1 ≤ top s → is_Some (starAt s (top s)).
Proof.
  intros L Ht. pose proof (top_ge_first s L).
  destruct (decide (highestFK5 s < top s)) as [Hlt|Hge].
  - apply starAt_dense; [done|lia].
  - replace (top s) with (highestFK5 s) by lia. unfold starAt.
    destruct (lay_last s L ltac:(lia)) as [r Hr].
    rewrite Hr. cbn. apply lookup_lt_is_Some. by eapply lay_heap.
Qed.

Lemma last_seqZ (m n : Z) : 0 < n → last (seqZ m n) = Some (m + n - 1).
Proof.
  intros Hn. rewrite last_lookup, length_seqZ, lookup_seqZ_lt by lia.
  f_equal. lia.
Qed.

(** On a registry with the layout of a completed run the output of a
    completed writer is the header followed by the segments of the keys 1
    to [top]. *)
Lemma writer_segments (dp : bool) (s : State) (out : list FileOp) :
  Layout s →
  writeStarCatalog dp s = Some out →
  out = header dp ++ concat (segment dp s <$> seqZ 1 (top s)).
Proof.
  intros L W. unfold writeStarCatalog in W. fold (top s) in W.
  fold (header dp) in W.
  destruct (writeKeys dp s (O, header dp) (seqZ 1 (top s)))
    as [[g' out']|] eqn:E; [|done].
  cbn in W. injection W as <-.
  destruct (writeKeys_segments dp s _ _ _ _ _ E) as [E2 Hl].
  cbn [repeat app] in E2.
  destruct (decide (1 ≤ top s)) as [Ht|Ht].
  - rewrite (Hl (top s)) in E2.
    + cbn in E2. by rewrite app_nil_r in E2.
    + rewrite last_seqZ by lia. f_equal. lia.
    + by apply starAt_top.
  - rewrite seqZ_nil in E by lia. cbn in E. injection E as <- <-.
    rewrite seqZ_nil by lia. cbn. by rewrite app_nil_r.
Qed.

Lemma seqZ_split (k n : Z) :
  1 ≤ k ≤ n → seqZ 1 n = seqZ 1 (k - 1) ++ k :: seqZ (k + 1) (n - k).
Proof.
  intros Hk. replace n with ((k - 1) + (n - k + 1)) at 1 by lia.
  rewrite seqZ_app by lia. f_equal.
  rewrite seqZ_cons by lia. f_equal; [lia|]. f_equal; lia.
Qed.

Lemma segment_in_output (dp : bool) (s : State) (k : Z) :
  1 ≤ k ≤ top s →
  header dp ++ concat (segment dp s <$> seqZ 1 (top s))
  = (header dp ++ concat (segment dp s <$> seqZ 1 (k - 1)))
    ++ segment dp s k
    ++ concat (segment dp s <$> seqZ (k + 1) (top s - k)).
Proof.
  intros Hk. rewrite (seqZ_split k (top s) Hk), fmap_app, concat_app.
  cbn [fmap list_fmap concat]. by rewrite <- !app_assoc.
Qed.

Lemma markerOps_boundary (s : State) (i : Z) :
  Layout s →
  markerOps s i
  = boundaryMarkers (highestFK5 s) (totalBSC s) (totalHIP s) i.
Proof.
  intros [L1 L2 L3 L4 L5 L6 L7 L8 _ _ _ _].
  unfold markerOps, boundaryMarkers. rewrite L7, L8, L6, L5.
  destruct (Z.ltb_spec 0 (totalBSC s)), (Z.ltb_spec 0 (totalHIP s)),
    (Z.eqb_spec (totalHIP s) 0),
    (Z.eqb_spec i (highestFK5 s + 1)),
    (Z.eqb_spec i (highestFK5 s + totalBSC s + 1)),
    (Z.eqb_spec i (highestFK5 s + (totalBSC s + totalHIP s) + 1)),
    (Z.eqb_spec i (highestFK5 s + totalBSC s + totalHIP s + 1));
    try lia; cbn;
    repeat match goal with
           | |- context [Z.ltb ?a ?b] => destruct (Z.ltb_spec a b); try lia
           | |- context [Z.eqb ?a ?b] => destruct (Z.eqb_spec a b); try lia
           end; cbn; try done; try lia.
Qed.

Lemma markerOps_primary (s : State) (i : Z) :
  Layout s → i ≤ highestFK5 s → markerOps s i = [].
Proof.
  intros L Hi. rewrite markerOps_boundary by done.
  pose proof (lay_bsc_count s L). pose proof (lay_hip_count s L).
  unfold boundaryMarkers.
  repeat match goal with
         | |- context [Z.ltb ?a ?b] => destruct (Z.ltb_spec a b); try lia
         | |- context [Z.eqb ?a ?b] => destruct (Z.eqb_spec a b); try lia
         end; cbn; done.
Qed.

Lemma starAt_primary (s1 s : State) (i : Z) :
  Primary s1 → Layout s → extends s1 s → i ≤ highestFK5 s →
  starAt s i = None ↔ i ∉ keys s1.
Proof.
  intros P L [EF EL] Hi. unfold keys, starAt.
  rewrite elem_of_dom, <- (EL i) by lia.
  destruct (fk5Index s !! i) as [r|] eqn:E; cbn.
  - destruct (lookup_lt_is_Some_2 (heap s) r (lay_heap s L i r E)) as [o ->].
    split; [done|]. intros Hn. exfalso. apply Hn. eauto.
  - split; [|done]. intros _ [? ?]. done.
Qed.

Lemma segment_present (dp : bool) (s : State) (i : Z) (o : StarInfo) :
  starAt s i = Some o →
  segment dp s i = markerOps s i ++ recordOps dp s i o ∧
  segment dp s i ≠ [gapByte].
Proof.
  intros E. unfold segment. rewrite E. split; [done|].
  intros X. apply (f_equal length) in X.
  rewrite length_app in X. unfold recordOps in X. cbn [length app] in X.
  lia.
Qed.


(** ** The magnitude byte, gap bytes, category markers, records without
       proper motion *)



(** C5.  The output of a completed writer for a completed run is the
    header and then, key by key in increasing order, one segment per key.
    A key has no record exactly when it lies at or below [highestFK5] and
    the primary catalog had no line with that number; its segment is the
    single byte 0xFF.  The segment of a key with a record is its markers
    and record, never the lone gap byte.  When the primary catalog has 41
    and 43 but not 42, the output holds the record of 41, one 0xFF, the
    record of 43, with the segments of the keys 1..40 before and of 44..
    after. *)
Theorem gap_bytes (src : Sources) (s : State) (dp : bool)
        (out : list FileOp) :
  pipeline src = Some s →
  writeStarCatalog dp s = Some out →
  out = header dp ++ concat (segment dp s <$> seqZ 1 (top s)) ∧
  (∀ i, 1 ≤ i ≤ top s →
     (starAt s i = None ↔ i ≤ highestFK5 s ∧ i ∉ primaryBlock src) ∧
     (starAt s i = None → segment dp s i = [gapByte]) ∧
     (∀ o, starAt s i = Some o →
           segment dp s i = markerOps s i ++ recordOps dp s i o ∧
           segment dp s i ≠ [gapByte])) ∧
  (41 ∈ primaryBlock src → 42 ∉ primaryBlock src →
   43 ∈ primaryBlock src →
   ∃ o41 o43,
     starAt s 41 = Some o41 ∧ starAt s 43 = Some o43 ∧
     out = (header dp ++ concat (segment dp s <$> seqZ 1 40))
           ++ recordOps dp s 41 o41 ++ [gapByte] ++ recordOps dp s 43 o43
           ++ concat (segment dp s <$> seqZ 44 (top s - 43))).
Proof.
  intros H W.
  destruct (pipeline_layout src s H)
    as (s3 & s4 & _ & _ & _ & P1 & _ & _ & L & _ & _ & _ & X & _).
  destruct (block_intervals src s H) as (_ & _ & _ & HP & _).
  pose proof (top_ge_first s L) as Hge.
  pose proof (writer_segments dp s out L W) as ->.
  split; [done|].
  assert (∀ i, i ≤ top s →
               starAt s i = None ↔ i ≤ highestFK5 s ∧ i ∉ primaryBlock src)
    as Hnone.
  { intros i Hi. destruct (decide (i ≤ highestFK5 s)) as [Hlo|Hhi].
    - rewrite (starAt_primary _ s i P1 L X Hlo). unfold primaryBlock. tauto.
    - destruct (starAt_dense s i L ltac:(lia)) as [o Ho]. rewrite Ho.
      split; [done|]. intros [? _]. lia. }
  split.
  - intros i Hi. split; [apply Hnone; lia|]. split.
    + intros E. unfold segment. by rewrite E.
    + intros o. apply segment_present.
  - intros H41 H42 H43.
    pose proof (HP 43 H43) as Hhi.
    assert (is_Some (starAt s 41)) as [o41 E41].
    { destruct (starAt s 41) eqn:E; [eauto|].
      apply Hnone in E as [_ ?]; [done|lia]. }
    assert (is_Some (starAt s 43)) as [o43 E43].
    { destruct (starAt s 43) eqn:E; [eauto|].
      apply Hnone in E as [_ ?]; [done|lia]. }
    assert (starAt s 42 = None) as E42 by (apply Hnone; [lia|split; [lia|done]]).
    exists o41, o43. split; [done|]. split; [done|].
    rewrite (segment_in_output dp s 41) by lia.
    rewrite <- !app_assoc. do 2 f_equal.
    rewrite (proj1 (segment_present dp s 41 o41 E41)),
      (markerOps_primary s 41 L) by lia.
    cbn [app]. f_equal.
    replace (41 + 1) with 42 by lia.
    rewrite (seqZ_cons 42) by lia. rewrite (seqZ_cons (Z.succ 42)) by lia.
    cbn [fmap list_fmap concat].
    replace (Z.succ 42) with 43 by lia.
    assert (segment dp s 42 = [gapByte]) as ->
      by (unfold segment; by rewrite E42).
    rewrite (proj1 (segment_present dp s 43 o43 E43)),
      (markerOps_primary s 43 L) by lia.
    cbn [app].
    replace (seqZ (Z.succ 43) (Z.pred (Z.pred (top s - 41))))
      with (seqZ 44 (top s - 43)) by (f_equal; lia).
    done.
Qed.


(** C6.  In the output of a completed writer, with [first] the end of
    the primary block, [first + nBsc] the end of the bright-star
    additions and [first + nBsc + nHip] the end of all stellar blocks,
    the record that follows one of these ends is preceded by one 0xFE
    marker, the end of the bright-star additions counting only when that
    block is not empty; the record that follows the end of the stellar
    blocks is preceded by two of them exactly when no astrometry star was
    added; no other record has a marker. *)
Theorem category_markers (src : Sources) (s : State) (dp : bool)
        (out : list FileOp) :
  pipeline src = Some s →
  writeStarCatalog dp s = Some out →
  let first := highestFK5 s in
  let nBsc := totalBSC s in
  let nHip := totalHIP s in
  (∀ k, k ∈ primaryBlock src → k ≤ first) ∧
  (∀ k, k ∈ brightStarBlock src ↔ first < k ≤ first + nBsc) ∧
  (∀ k, k ∈ astrometryBlock src ↔
        first + nBsc < k ≤ first + nBsc + nHip) ∧
  out = header dp ++ concat (segment dp s <$> seqZ 1 (top s)) ∧
  ∀ i o, starAt s i = Some o →
    segment dp s i
    = boundaryMarkers first nBsc nHip i ++ recordOps dp s i o ∧
    (boundaryMarkers first nBsc nHip i = [markerByte; markerByte] ↔
       i = first + nBsc + nHip + 1 ∧ nHip = 0) ∧
    (boundaryMarkers first nBsc nHip i = [markerByte] ↔
       (i = first + 1 ∨ (0 < nBsc ∧ i = first + nBsc + 1)
        ∨ i = first + nBsc + nHip + 1)
       ∧ ¬ (i = first + nBsc + nHip + 1 ∧ nHip = 0)) ∧
    (boundaryMarkers first nBsc nHip i = [] ↔
       ¬ (i = first + 1 ∨ (0 < nBsc ∧ i = first + nBsc + 1)
          ∨ i = first + nBsc + nHip + 1)).
Proof.
  intros H W first nBsc nHip. subst first nBsc nHip.
  destruct (pipeline_layout src s H)
    as (s3 & s4 & _ & _ & _ & _ & _ & _ & L & _).
  destruct (block_intervals src s H) as (_ & _ & _ & HP & HB & HH & _).
  split; [done|]. split; [done|]. split; [done|].
  split; [by apply writer_segments|].
  intros i o E. split.
  { rewrite <- markerOps_boundary by done. by apply segment_present. }
  unfold boundaryMarkers.
  repeat match goal with
         | |- context [Z.ltb ?a ?b] => destruct (Z.ltb_spec a b)
         | |- context [Z.eqb ?a ?b] => destruct (Z.eqb_spec a b)
         end; cbn [andb orb];
    (split; [|split]); (split; [try done; try (intros _; lia)
                               |try done; try (intros ?; exfalso; lia)]).
Qed.

(** C10.  Every key created by [processNgcData] holds, at the end of the
    run, a record whose two proper motions were never assigned; the
    output of a completed writer contains the calls made for that record,
    and the seventh and eighth of them write the float 0 for the proper
    motion in right ascension and in declination. *)
Theorem ngc_records_zero_motion
  (src : Sources) (s5 s : State) (dp : bool) (out : list FileOp) :
  afterNgcNames src = Some s5 →
  processNgcData s5 (ngcData src) = Some s →
  writeStarCatalog dp s = Some out →
  ∀ k, k ∈ keys s ∖ keys s5 →
    ∃ o pre post,
      starAt s k = Some o ∧
      pmRA o = None ∧ pmDE o = None ∧
      recordOps dp s k o !! 6%nat = Some (writeFloat (Some 0%Q)) ∧
      recordOps dp s k o !! 7%nat = Some (writeFloat (Some 0%Q)) ∧
      out = pre ++ recordOps dp s k o ++ post.
Proof.
  intros E5 E6 W.
  assert (pipeline src = Some s) as H.
  { unfold pipeline. rewrite E5. done. }
  destruct (pipeline_layout src s H)
    as (s3 & s4 & _ & _ & E5' & P1 & _ & _ & L & _ & _ & _ & X & _ & _ & _
        & N & L5 & X5).
  rewrite E5 in E5'. injection E5' as ->.
  pose proof (writer_segments dp s out L W) as ->.
  intros k [Hin Hout]%elem_of_difference.
  rewrite (keys_char _ _ k P1 L X) in Hin.
  rewrite (keys_char _ _ k P1 L5 X5) in Hout.
  pose proof (top_ge_first _ L5) as Hge.
  pose proof (lay_first _ L5) as Hpos.
  destruct X5 as [EF5 _].
  assert (top (processNgcNames (addPleiades s4) (ngcNames src)) < k
          ≤ top s) as Hk.
  { destruct Hin as [?|?]; [exfalso; auto|].
    split; [|lia].
    destruct (decide (k ≤ top (processNgcNames (addPleiades s4)
                                  (ngcNames src)))); [|lia].
    exfalso. apply Hout. right. lia. }
  destruct (N k Hk) as (o & Eo & Hra & Hde).
  exists o, ((header dp ++ concat (segment dp s <$> seqZ 1 (k - 1)))
             ++ markerOps s k),
         (concat (segment dp s <$> seqZ (k + 1) (top s - k))).
  split; [done|]. split; [done|]. split; [done|].
  split; [|split].
  - unfold recordOps. rewrite Hra. by destruct dp.
  - unfold recordOps. rewrite Hde. by destruct dp.
  - rewrite (segment_in_output dp s k) by lia.
    rewrite (proj1 (segment_present dp s k o Eo)).
    by rewrite <- !app_assoc.
Qed.


(** ** Order and saturation of the magnitude byte *)



(** ** The writer on an arbitrary registry *)

Lemma writeKeys_last_gap (dp : bool) (s : State) (ks : list Z) :
  ∀ st g' out' i,
    writeKeys dp s st ks = Some (g', out') →
    last ks = Some i → starAt s i = None → (0 < g')%nat.
Proof.
  induction ks as [|j ks IH]; intros [g out] g' out' i W Hl Hn; [done|].
  cbn [writeKeys] in W.
  destruct (writeKey dp s (g, out) j) as [st1|] eqn:E1; [|done].
  cbn [mbind option_bind] in W.
  destruct ks as [|j' ks].
  - cbn in W, Hl. injection W as ->. injection Hl as ->.
    unfold writeKey in E1. rewrite Hn in E1.
    destruct (_ <=? _); [|done]. injection E1 as <- _. lia.
  - by apply (IH st1 g' out' i).
Qed.

(** X2.  On any registry the writer stops with an error exactly when some
    key between 1 and the last key either lies above [highestFK5] and has
    no record, or has a record one of whose fields does not fit; the
    fields that can fail are the four designation bytes, the trailer and
    the length of the name, never the magnitude byte.  When the writer
    completes, its output followed by the gap bytes still pending is the
    header and the segments of all keys: gap bytes counted for missing
    keys at the very end are not written.  Without any key the output is
    the header alone. *)
Theorem writer_on_any_registry (dp : bool) (s : State) :
  (writeStarCatalog dp s = None ↔
   ∃ i, 1 ≤ i ≤ top s ∧
        ((highestFK5 s < i ∧ starAt s i = None) ∨
         (∃ o, starAt s i = Some o ∧ fieldsFit s i o = false))) ∧
  (∀ i o, forallb fits (recordOps dp s i o) = fieldsFit s i o) ∧
  (∀ out,
     writeStarCatalog dp s = Some out →
     ∃ g : nat,
       out ++ repeat gapByte g
       = header dp ++ concat (segment dp s <$> seqZ 1 (top s)) ∧
       (is_Some (starAt s (top s)) → g = O) ∧
       (1 ≤ top s → starAt s (top s) = None → (0 < g)%nat)) ∧
  (top s < 1 → writeStarCatalog dp s = Some (header dp)).
Proof.
  unfold writeStarCatalog. fold (top s). fold (header dp).
  assert (∀ i, i ∈ seqZ 1 (top s) ↔ 1 ≤ i ≤ top s) as Hseq
    by (intros i; rewrite elem_of_seqZ; lia).
  split; [|split; [|split]].
  - destruct (writeKeys dp s (O, header dp) (seqZ 1 (top s))) as [st|] eqn:W.
    + split; [done|]. intros (i & Hi & Hbad).
      assert (writeKeys dp s (O, header dp) (seqZ 1 (top s)) = None) as X.
      { apply writeKeys_none. exists i. rewrite Hseq. split; [done|].
        destruct Hbad as [?|(o & Ho & Hf)]; [by left|right].
        exists o. by rewrite recordOps_fits. }
      congruence.
    + split; [|done]. intros _.
      apply writeKeys_none in W as (i & Hi & Hbad).
      exists i. rewrite <- Hseq. split; [done|].
      destruct Hbad as [?|(o & Ho & Hf)]; [by left|right].
      exists o. by rewrite <- (recordOps_fits dp).
  - intros i o. apply recordOps_fits.
  - intros out W.
    destruct (writeKeys dp s (O, header dp) (seqZ 1 (top s)))
      as [[g' out']|] eqn:E; [|done].
    cbn in W. injection W as <-.
    destruct (writeKeys_segments dp s _ _ _ _ _ E) as [E2 Hl].
    exists g'. split; [exact E2|]. split.
    + intros Hs. destruct (decide (1 ≤ top s)) as [Ht|Ht].
      * apply (Hl (top s)); [|done]. rewrite last_seqZ by lia. f_equal. lia.
      * rewrite seqZ_nil in E by lia. cbn in E. by injection E as <- _.
    + intros Ht Hn.
      apply (writeKeys_last_gap dp s _ _ _ _ (top s) E); [|done].
      rewrite last_seqZ by lia. f_equal. lia.
  - intros Ht. rewrite seqZ_nil by lia. done.
Qed.


(** ** The registry after the primary loader *)

Lemma crossIndexLine_lookup (s : State) (l : FK5Line) (k : Z) :
  Primary s →
  starAt (crossIndexLine s l) k
  = if assignsKey k l then Some (fk5Star l) else starAt s k.
Proof.
  intros P. unfold assignsKey.
  destruct (fk5_blank l) eqn:Hb; cbn [negb andb].
  { unfold crossIndexLine. by rewrite Hb. }
  destruct (Z.eqb_spec (fk5_fk5Num l) k) as [<-|Hne].
  { by apply crossIndexLine_star. }
  unfold crossIndexLine, starAt. rewrite Hb.
  destruct (fk5_hd l) as [hd|]; [destruct (0 <? hd)|];
    destruct (fk5_fk5Num l =? 139); fields;
    rewrite lookup_insert_ne by done;
    (destruct (fk5Index s !! k) as [r|] eqn:E; [|done]);
    cbn [mbind option_bind];
    pose proof (pri_heap s P k r E);
    rewrite ?(lookup_app_l (_ ++ [_])) by (rewrite length_app; lia);
    by rewrite lookup_app_l by lia.
Qed.

Lemma crossIndexLine_hd (s : State) (l : FK5Line) (hd : Z) :
  hd2fk5 (crossIndexLine s l) !! hd
  = if assignsHD hd l then Some (fk5_fk5Num l) else hd2fk5 s !! hd.
Proof.
  unfold assignsHD, crossIndexLine.
  destruct (fk5_blank l); cbn [negb andb]; [done|].
  destruct (fk5_hd l) as [h|]; [destruct (Z.ltb_spec 0 h)|];
    destruct (fk5_fk5Num l =? 139); fields; cbn [andb]; try done;
    (destruct (Z.eqb_spec h hd) as [->|Hne];
     [by rewrite lookup_insert_eq|by rewrite lookup_insert_ne]).
Qed.

Lemma processCrossIndex_lookup (lines : list FK5Line) :
  ∀ (s : State) (k hd : Z),
    Primary s →
    starAt (processCrossIndex s lines) k
    = match last (List.filter (assignsKey k) lines) with
      | Some l => Some (fk5Star l)
      | None => starAt s k
      end ∧
    hd2fk5 (processCrossIndex s lines) !! hd
    = match last (List.filter (assignsHD hd) lines) with
      | Some l => Some (fk5_fk5Num l)
      | None => hd2fk5 s !! hd
      end.
Proof.
  unfold processCrossIndex.
  induction lines as [|l lines IH]; intros s k hd P; [done|].
  cbn [fold_left List.filter].
  destruct (IH (crossIndexLine s l) k hd (crossIndexLine_primary s l P))
    as [-> ->].
  rewrite crossIndexLine_lookup, crossIndexLine_hd by done.
  split.
  - destruct (assignsKey k l); [|done]. rewrite last_cons.
    by destruct (last (List.filter (assignsKey k) lines)).
  - destruct (assignsHD hd l); [|done]. rewrite last_cons.
    by destruct (last (List.filter (assignsHD hd) lines)).
Qed.

Lemma processCrossIndex_highest (lines : list FK5Line) :
  ∀ s : State,
    highestFK5 s ≤ highestFK5 (processCrossIndex s lines) ∧
    (∀ l, l ∈ lines → fk5_blank l = false →
          fk5_fk5Num l ≤ highestFK5 (processCrossIndex s lines)) ∧
    (highestFK5 (processCrossIndex s lines) = highestFK5 s ∨
     ∃ l, l ∈ lines ∧ fk5_blank l = false ∧
          highestFK5 (processCrossIndex s lines) = fk5_fk5Num l).
Proof.
  unfold processCrossIndex.
  induction lines as [|l lines IH]; intros s.
  - cbn. split; [lia|]. split; [|by left].
    intros l Hl. by apply elem_of_nil in Hl.
  - cbn [fold_left]. destruct (IH (crossIndexLine s l)) as (H1 & H2 & H3).
    assert (highestFK5 (crossIndexLine s l)
            = if fk5_blank l then highestFK5 s
              else Z.max (highestFK5 s) (fk5_fk5Num l)) as E.
    { destruct (fk5_blank l) eqn:Hb.
      - unfold crossIndexLine. by rewrite Hb.
      - by destruct (crossIndexLine_fields s l Hb) as (-> & _). }
    split; [|split].
    + destruct (fk5_blank l); lia.
    + intros l' [->|Hl]%elem_of_cons Hb; [|by apply H2].
      rewrite Hb in E. lia.
    + destruct H3 as [H3|(l' & Hl' & Hb' & H3)].
      * rewrite H3, E. destruct (fk5_blank l) eqn:Hb; [by left|].
        destruct (Z.max_spec (highestFK5 s) (fk5_fk5Num l)) as [[_ ->]|[_ ->]];
          [|by left].
        right. exists l. split; [by left|done].
      * right. exists l'. split; [by right|done].
Qed.

(** X3.  After the primary loader has read a cross index into the empty
    registry, a key designates the record built from the last non-blank
    line carrying that FK5 number, and no record when there is no such
    line; [hd2fk5] maps an HD number to the FK5 number of the last
    non-blank line carrying that HD number, positive HD numbers only;
    [highestFK5] is the largest FK5 number read, or 0. *)
Theorem crossIndex_last_line_wins (lines : list FK5Line) (k hd : Z) :
  let s := processCrossIndex initialState lines in
  starAt s k = fk5Star <$> last (List.filter (assignsKey k) lines) ∧
  hd2fk5 s !! hd = fk5_fk5Num <$> last (List.filter (assignsHD hd) lines) ∧
  (∀ l, l ∈ lines → fk5_blank l = false → fk5_fk5Num l ≤ highestFK5 s) ∧
  (highestFK5 s = 0 ∨
   ∃ l, l ∈ lines ∧ fk5_blank l = false ∧ highestFK5 s = fk5_fk5Num l).
Proof.
  intros s. subst s.
  destruct (processCrossIndex_lookup lines initialState k hd initial_primary)
    as [E1 E2].
  destruct (processCrossIndex_highest lines initialState) as (_ & H2 & H3).
  split; [|split; [|split; [exact H2|exact H3]]].
  - rewrite E1. by destruct (last _).
  - rewrite E2. by destruct (last _).
Qed.


(** ** What a stage does to the objects already in the heap *)

Lemma evolves_refl (R : StarInfo → StarInfo → Prop) (s : State) :
  (∀ o, R o o) → evolves R s s.
Proof. intros HR r o Ho. eauto. Qed.

Lemma evolves_trans (R : StarInfo → StarInfo → Prop) (s1 s2 s3 : State) :
  (∀ a b c, R a b → R b c → R a c) →
  evolves R s1 s2 → evolves R s2 s3 → evolves R s1 s3.
Proof.
  intros HT H12 H23 r o Ho.
  destruct (H12 r o Ho) as (o2 & Ho2 & R2).
  destruct (H23 r o2 Ho2) as (o3 & Ho3 & R3). eauto.
Qed.

Lemma alter_evolves (R : StarInfo → StarInfo → Prop)
      (f : StarInfo → StarInfo) (r r0 : nat) (h : list StarInfo)
      (o : StarInfo) :
  (∀ o, R o o) → (∀ o, R o (f o)) →
  h !! r0 = Some o → ∃ o', alter f r h !! r0 = Some o' ∧ R o o'.
Proof.
  intros HR Hf Ho. rewrite list_lookup_alter.
  case_decide.
  - subst. rewrite Ho. exists (f o). split; [done|apply Hf].
  - rewrite Ho. exists o. split; [done|apply HR].
Qed.

Lemma update_evolves (R : StarInfo → StarInfo → Prop)
      (f : StarInfo → StarInfo) (r : nat) (s : State) :
  (∀ o, R o o) → (∀ o, R o (f o)) → evolves R s (update r f s).
Proof. intros HR Hf r0 o Ho. fields. by apply alter_evolves. Qed.

Lemma app_evolves (R : StarInfo → StarInfo → Prop) (s s' : State)
      (o : StarInfo) :
  (∀ o, R o o) → heap s' = heap s ++ [o] → evolves R s s'.
Proof.
  intros HR E r o0 Ho. exists o0. split; [|done].
  rewrite E. apply lookup_app_l_Some. done.
Qed.

Lemma sameButName_refl (o : StarInfo) : sameButName o o.
Proof. by destruct o. Qed.

Lemma sameButName_trans (a b c : StarInfo) :
  sameButName a b → sameButName b c → sameButName a c.
Proof.
  unfold sameButName. destruct a, b, c. cbn. intros [= -> -> -> -> -> -> -> -> -> -> -> -> -> ->].
  intros [= -> -> -> -> -> -> -> -> -> -> -> -> -> ->]. done.
Qed.

Lemma refinedBy_refl (o : StarInfo) : refinedBy o o.
Proof.
  split; [by destruct o|]. intros m Hm. exists m. split; [done|].
  apply Qle_refl.
Qed.

Lemma refinedBy_trans (a b c : StarInfo) :
  refinedBy a b → refinedBy b c → refinedBy a c.
Proof.
  intros [E1 M1] [E2 M2]. split.
  - destruct a, b, c. cbn in *.
    injection E1 as -> -> -> -> -> -> -> -> -> ->.
    injection E2 as -> -> -> -> -> -> -> -> -> ->. done.
  - intros m Hm. destruct (M1 m Hm) as (m1 & Hm1 & L1).
    destruct (M2 m1 Hm1) as (m2 & Hm2 & L2).
    exists m2. split; [done|]. by eapply Qle_trans.
Qed.

Lemma astrometry_refines (v ra de pra pde : Q) (o : StarInfo) :
  refinedBy o (astrometry v ra de pra pde o).
Proof.
  split; [by destruct o|]. intros m Hm. unfold astrometry. cbn.
  rewrite Hm. cbn. eexists. split; [done|]. apply Qmin_cases.
Qed.


(** ** The bright-star stage and the records of the primary catalog *)

Lemma scanLine_frame (st : Scan * State) (l : BSCLine) :
  snd (scanLine st l)
  = withBsc2fk5 (bsc2fk5 (snd (scanLine st l))) (snd st).
Proof.
  destruct st as [p s]. unfold scanLine.
  destruct (bsc_blank l); [by destruct s|].
  destruct (bsc_vmag l) as [m|]; [|by destruct s].
  destruct (_ && _); [|by destruct s].
  destruct (Qgeb _ _); by destruct s.
Qed.

Lemma scanLines_frame (lines : list BSCLine) (s : State) :
  snd (scanLines s lines)
  = withBsc2fk5 (bsc2fk5 (snd (scanLines s lines))) s.
Proof.
  unfold scanLines.
  assert (∀ st : Scan * State,
            snd (fold_left scanLine lines st)
            = withBsc2fk5 (bsc2fk5 (snd (fold_left scanLine lines st)))
                          (snd st)) as H.
  { induction lines as [|l lines IH]; intros st; cbn [fold_left].
    - by destruct st as [p []].
    - rewrite (IH (scanLine st l)) at 1.
      by rewrite (scanLine_frame st l). }
  apply (H (initialScan, s)).
Qed.

Lemma fresh_key (s : State) (k : Z) :
  Layout s → top s < k → fk5Index s !! k = None.
Proof.
  intros L Hk. pose proof (top_ge_first s L).
  destruct (fk5Index s !! k) as [r|] eqn:E; [|done].
  assert (k ≤ top s); [|lia].
  apply (lay_dense s L k); [lia|]. rewrite E. eauto.
Qed.

Lemma indexOf_bounds (x : string) (l : list string) :
  -1 ≤ JsString.indexOf x l < Z.of_nat (length l).
Proof.
  induction l as [|y l IH]; [done|].
  change (JsString.indexOf x (y :: l))
    with (if String.eqb x y then 0
          else let i := JsString.indexOf x l in
               if i <? 0 then -1 else i + 1).
  cbn [length]. cbv zeta.
  destruct (String.eqb x y); [lia|].
  destruct (Z.ltb_spec (JsString.indexOf x l) 0); lia.
Qed.

Lemma bayerRank_range (x : string) :
  0 ≤ JsString.indexOf x bayerRanks + 1 ≤ 24.
Proof.
  pose proof (indexOf_bounds x bayerRanks) as H.
  change (Z.of_nat (length bayerRanks)) with 24 in H. lia.
Qed.

Lemma constellation_range (x : string) :
  0 ≤ JsString.indexOf x constellationCodes + 1 ≤ 88.
Proof.
  pose proof (indexOf_bounds x constellationCodes) as H.
  change (Z.of_nat (length constellationCodes)) with 88 in H. lia.
Qed.

Lemma annotateBsc_evolves (R : StarInfo → StarInfo → Prop) (s : State)
      (l : BSCLine) (k : Z) :
  bscClosed R → evolves R s (annotateBsc s l k).
Proof.
  intros [HR HT Hn Hd] r0 o Ho. unfold annotateBsc.
  destruct (0 <? k); [|exists o; split; [done|apply HR]].
  destruct (fk5Index s !! k) as [r|]; [|exists o; split; [done|apply HR]].
  cbn zeta.
  destruct (alter_evolves R (setBscNum (Some (bsc_bscNum l))) r r0 (heap s) o)
    as (o1 & Ho1 & R1); [exact HR|intros o'; apply Hn|done|].
  destruct (0 <? bsc_hd l); destruct (negb _); fields; eauto;
    match goal with |- context [alter ?f r (alter ?g r ?h0)] =>
      destruct (alter_evolves R f r r0 (alter g r h0) o1)
        as (o2 & Ho2 & R2);
        [exact HR
        |intros o'; apply Hd; [apply bayerRank_range|apply constellation_range]
        |done|]
    end;
    exists o2; (split; [done|]); by eapply HT.
Qed.

(** The object that [annotateBsc] resolves gets the bright-star number of
    the line. *)
Lemma annotateBsc_target (s : State) (l : BSCLine) (k : Z) (r : nat)
      (o : StarInfo) :
  0 < k → fk5Index s !! k = Some r → heap s !! r = Some o →
  ∃ o', heap (annotateBsc s l k) !! r = Some o' ∧
        bscNum o' = Some (bsc_bscNum l).
Proof.
  intros Hk Hr Ho. unfold annotateBsc.
  apply Z.ltb_lt in Hk. rewrite Hk, Hr. cbn zeta.
  destruct (0 <? bsc_hd l); destruct (negb _); fields;
    rewrite ?list_lookup_alter; repeat case_decide; try done;
    rewrite Ho; cbn; eauto.
Qed.

Lemma mergeLine_objects (R : StarInfo → StarInfo → Prop) (s : State)
      (l : BSCLine) :
  bscClosed R →
  Layout s → totalHIP s = 0 → totalDSO s = 0 →
  fk5Index s ⊆ fk5Index (mergeLine s l) ∧ evolves R s (mergeLine s l).
Proof.
  intros C L HH HD.
  assert (fk5Index s ⊆ fk5Index s ∧ evolves R s s) as Hid
    by (split; [done|apply evolves_refl, C]).
  unfold mergeLine.
  destruct (bsc_blank l); [done|].
  destruct (bsc2fk5 s !! bsc_bscNum l) as [carried|]; [|done].
  destruct (bsc_vmag l) as [v|]; [|done].
  destruct (_ && _).
  - pose proof (addBscStar_frame s l v) as F. cbv zeta in F.
    destruct (addBscStar s l v) as [k s1]. cbn [fst snd] in F.
    destruct F as (-> & EI & EH & _).
    destruct (annotateBsc_frame s1 l (highestFK5 s + (addedStars s + 1)))
      as (-> & _).
    split.
    + rewrite EI. apply insert_subseteq, fresh_key; [done|].
      destruct L. unfold top. lia.
    + eapply evolves_trans; [apply C| |by apply annotateBsc_evolves].
      eapply app_evolves; [apply C|exact EH].
  - destruct (annotateBsc_frame s l (resolvedFK5 s l carried)) as (-> & _).
    split; [done|by apply annotateBsc_evolves].
Qed.

Lemma mergeLines_objects (R : StarInfo → StarInfo → Prop)
      (ls : list BSCLine) :
  bscClosed R →
  ∀ s : State,
    Layout s → totalHIP s = 0 → totalDSO s = 0 →
    fk5Index s ⊆ fk5Index (fold_left mergeLine ls s) ∧
    evolves R s (fold_left mergeLine ls s).
Proof.
  intros C. induction ls as [|l ls IH]; intros s L HH HD; cbn [fold_left].
  - split; [done|apply evolves_refl, C].
  - destruct (mergeLine_layout s l L HH HD) as (L1 & H1 & D1 & _).
    destruct (mergeLine_objects R s l C L HH HD) as [S1 E1].
    destruct (IH (mergeLine s l) L1 H1 D1) as [S2 E2].
    split; [by etrans|].
    eapply evolves_trans; [apply C|done..].
Qed.

Lemma bsc_stage_objects (R : StarInfo → StarInfo → Prop) (s : State)
      (lines : list BSCLine) :
  bscClosed R →
  Layout s → totalHIP s = 0 → totalDSO s = 0 →
  fk5Index s ⊆ fk5Index (processYaleBrightStarCatalog s lines) ∧
  evolves R s (processYaleBrightStarCatalog s lines).
Proof.
  intros C L HH HD. unfold processYaleBrightStarCatalog.
  pose proof (scanLines_same lines s) as S.
  pose proof (scanLines_frame lines s) as F.
  set (s0 := snd (scanLines s lines)) in *.
  assert (Layout s0) as L0 by by eapply Layout_same.
  destruct S as (EI & _ & _ & E4 & E5 & _).
  destruct (mergeLines_objects R lines C s0 L0) as [S1 E1]; [congruence..|].
  rewrite EI in S1. split; [done|].
  intros r o Ho. apply E1. rewrite F. exact Ho.
Qed.

Lemma sameButDesignation_closed : bscClosed sameButDesignation.
Proof.
  constructor.
  - by split.
  - intros a b c (H1 & H2 & H3) (H4 & H5 & H6).
    split; [congruence|]. split; [congruence|auto].
  - intros o v. split; [done|]. split; [done|]. cbn. eauto.
  - intros o f b i c _ _. by split.
Qed.

(** X4.  The bright-star stage keeps every record of the primary catalog
    under its key, and changes at most its bright-star number and its
    designation (Flamsteed number, Bayer rank, sub-index, constellation):
    FK5 number, name, position, proper motion and magnitude stay as the
    primary loader stored them. *)
Theorem bright_star_stage_keeps_primary_data
  (src : Sources) (k : Z) (o : StarInfo) :
  starAt (afterCrossIndex src) k = Some o →
  ∃ o', starAt (afterBsc src) k = Some o' ∧ sameButDesignation o o'.
Proof.
  unfold starAt, afterBsc. intros H.
  destruct (fk5Index (afterCrossIndex src) !! k) as [r|] eqn:E; [|done].
  cbn [mbind option_bind] in H.
  pose proof (processCrossIndex_primary (crossIndex src) initialState
                initial_primary) as P.
  fold (afterCrossIndex src) in P.
  destruct (bsc_stage_objects sameButDesignation (afterCrossIndex src)
              (bscCatalog src) sameButDesignation_closed)
    as [S1 E1].
  { by apply primary_layout. }
  { apply P. }
  { apply P. }
  rewrite (lookup_weaken _ _ _ _ E S1). cbn [mbind option_bind].
  by apply E1.
Qed.


(** ** The notes stage *)

Lemma notesLine_objects (s s' : State) (l : NoteLine) :
  notesLine s l = Some s' →
  s' = withHeap (heap s') s ∧ evolves sameButName s s'.
Proof.
  assert (s = withHeap (heap s) s ∧ evolves sameButName s s) as Hid
    by (split; [by destruct s|apply evolves_refl, sameButName_refl]).
  unfold notesLine. intros H.
  destruct (note_blank l); [by injection H as <-|].
  destruct (bool_decide _); [by injection H as <-|].
  destruct (negb _); [by injection H as <-|].
  destruct (notesName _) as [nm|]; [|by injection H as <-].
  destruct (bsc2fk5 s !! note_bscNum l) as [k|]; [|done]. cbn in H.
  destruct (fk5Index s !! k) as [r|]; [|done]. cbn in H.
  injection H as <-. split; [done|].
  apply update_evolves; [apply sameButName_refl|]. intros o. by destruct o.
Qed.

Lemma notes_objects (lines : list NoteLine) :
  ∀ s s' : State,
    processYaleBrightStarCatalogNotes s lines = Some s' →
    s' = withHeap (heap s') s ∧ evolves sameButName s s'.
Proof.
  induction lines as [|l lines IH]; intros s s' H; cbn in H.
  - injection H as <-.
    split; [by destruct s|apply evolves_refl, sameButName_refl].
  - destruct (notesLine s l) as [s1|] eqn:E; [|done]. cbn in H.
    destruct (notesLine_objects s s1 l E) as [F1 E1].
    destruct (IH s1 s' H) as [F2 E2]. split.
    + rewrite F2, F1. done.
    + eapply evolves_trans; [apply sameButName_trans|done..].
Qed.

(** X5.  When the notes stage completes, it has changed nothing but names:
    the registry, the cross-reference tables and the counters are those
    it started with, and every key designates a record that differs from
    the former one at most in its name. *)
Theorem notes_stage_changes_names_only
  (s s' : State) (lines : list NoteLine) :
  processYaleBrightStarCatalogNotes s lines = Some s' →
  s' = withHeap (heap s') s ∧
  ∀ k o, starAt s k = Some o →
         ∃ o', starAt s' k = Some o' ∧ sameButName o o'.
Proof.
  intros H. destruct (notes_objects lines s s' H) as [F E].
  split; [exact F|]. intros k o. unfold starAt.
  assert (fk5Index s' = fk5Index s) as -> by by rewrite F.
  destruct (fk5Index s !! k) as [r|]; [|done]. cbn [mbind option_bind].
  apply E.
Qed.


(** ** The astrometry stage and the records already present *)

Lemma afterNotes_layout (src : Sources) (s3 : State) :
  afterNotes src = Some s3 →
  Primary (afterCrossIndex src) ∧ Layout (afterBsc src) ∧
  extends (afterCrossIndex src) (afterBsc src) ∧
  sameLayout (afterBsc src) s3 ∧
  Layout s3 ∧ totalHIP s3 = 0 ∧ totalDSO s3 = 0.
Proof.
  intros H.
  pose proof (processCrossIndex_primary (crossIndex src) initialState
                initial_primary) as P.
  fold (afterCrossIndex src) in P.
  destruct (bsc_stage (afterCrossIndex src) (bscCatalog src))
    as (L2 & H2 & D2 & X2); [by apply primary_layout|apply P..|].
  fold (afterBsc src) in *.
  pose proof (notes_stage _ _ _ H) as S.
  split; [done|]. split; [done|]. split; [done|]. split; [done|].
  split; [by eapply Layout_same|].
  destruct S as (_ & _ & _ & -> & -> & _). done.
Qed.

Lemma hipparcosLine_objects (s : State) (l : HIPLine) (f : Flow) :
  hipparcosLine s l = Some f →
  Layout s → totalDSO s = 0 →
  fk5Index s ⊆ fk5Index (flowState f) ∧
  evolves refinedBy s (flowState f) ∧
  (hd2fk5 (flowState f), bscIndex (flowState f), hd2bsc (flowState f),
   bsc2fk5 (flowState f), ngcs (flowState f), pleiades (flowState f))
  = (hd2fk5 s, bscIndex s, hd2bsc s, bsc2fk5 s, ngcs s, pleiades s).
Proof.
  intros H L HD.
  assert (fk5Index s ⊆ fk5Index s ∧ evolves refinedBy s s ∧
          (hd2fk5 s, bscIndex s, hd2bsc s, bsc2fk5 s, ngcs s, pleiades s)
          = (hd2fk5 s, bscIndex s, hd2bsc s, bsc2fk5 s, ngcs s, pleiades s))
    as Hid by (split; [done|split; [apply evolves_refl, refinedBy_refl|done]]).
  assert (∀ r v ra de pra pde,
            let s' := update r (astrometry v ra de pra pde) s in
            fk5Index s ⊆ fk5Index s' ∧ evolves refinedBy s s' ∧
            (hd2fk5 s', bscIndex s', hd2bsc s', bsc2fk5 s', ngcs s',
             pleiades s')
            = (hd2fk5 s, bscIndex s, hd2bsc s, bsc2fk5 s, ngcs s,
               pleiades s)) as Hupd.
  { intros r v ra de pra pde s'. split; [done|]. split; [|done].
    apply update_evolves; [apply refinedBy_refl|].
    intros o. apply astrometry_refines. }
  unfold hipparcosLine in H.
  destruct (negb _); [by injection H as <-|].
  destruct (_ =? _); [by injection H as <-|].
  destruct (hip_ra l) as [ra|]; [|by injection H as <-].
  destruct (hip_de l) as [de|]; [|by injection H as <-].
  destruct (hip_vmag l) as [v|]; [|by injection H as <-].
  destruct (hip_pmRA l) as [pra|]; [|by injection H as <-].
  destruct (hip_pmDE l) as [pde|]; [|by injection H as <-].
  cbn zeta in H.
  destruct (0 <? _).
  { destruct (fk5Index s !! _) as [r|]; [|done]. cbn in H.
    destruct (heap s !! r); [|done]. cbn in H.
    injection H as <-. apply Hupd. }
  destruct (0 <? _).
  { destruct (bscIndex s !! _) as [r|]; [|done]. cbn in H.
    destruct (heap s !! r); [|done]. cbn in H.
    injection H as <-. apply Hupd. }
  destruct (Qgtb _ _); [by injection H as <-|].
  injection H as <-. cbn [flowState]. unfold addHipStar. fields.
  split; [|split; [|done]].
  - apply insert_subseteq, fresh_key; [done|].
    destruct L. unfold top. lia.
  - eapply app_evolves; [apply refinedBy_refl|]. fields. done.
Qed.

Lemma hipparcosLoop_objects (lines : list HIPLine) :
  ∀ s s' : State,
    hipparcosLoop s lines = Some s' →
    Layout s → totalDSO s = 0 →
    fk5Index s ⊆ fk5Index s' ∧ evolves refinedBy s s' ∧
    (hd2fk5 s', bscIndex s', hd2bsc s', bsc2fk5 s', ngcs s', pleiades s')
    = (hd2fk5 s, bscIndex s, hd2bsc s, bsc2fk5 s, ngcs s, pleiades s).
Proof.
  induction lines as [|l lines IH]; intros s s' H L HD; cbn in H.
  - injection H as <-.
    split; [done|]. split; [apply evolves_refl, refinedBy_refl|done].
  - destruct (hipparcosLine s l) as [f|] eqn:E; [|done].
    destruct (hipparcosLine_layout s l f E L HD) as (L1 & D1 & _).
    destruct (hipparcosLine_objects s l f E L HD) as (S1 & E1 & F1).
    destruct f as [s1|s1]; cbn [flowState] in *.
    + destruct (IH s1 s' H L1 D1) as (S2 & E2 & F2).
      split; [by etrans|]. split; [|congruence].
      eapply evolves_trans; [apply refinedBy_trans|done..].
    + injection H as <-. done.
Qed.

Lemma addPleiades_objects (s : State) :
  Layout s →
  fk5Index s ⊆ fk5Index (addPleiades s) ∧
  heap (addPleiades s) = heap s ∧
  (hd2fk5 (addPleiades s), bscIndex (addPleiades s), hd2bsc (addPleiades s),
   bsc2fk5 (addPleiades s), ngcs (addPleiades s))
  = (hd2fk5 s, bscIndex s, hd2bsc s, bsc2fk5 s, ngcs s).
Proof.
  intros L. unfold addPleiades. destruct (pleiades s) as [p|]; [|done].
  fields. split; [|done].
  apply insert_subseteq, fresh_key; [done|]. unfold top. lia.
Qed.

(** X6.  The astrometry stage keeps every record under its key and never
    makes it fainter: a record present before the stage differs afterwards
    at most in position, proper motion and magnitude, and its magnitude
    has not increased.  Identifiers, designation and name are untouched. *)
Theorem hipparcos_stage_refines_records
  (src : Sources) (s3 s : State) (k : Z) (o : StarInfo) :
  afterNotes src = Some s3 →
  afterHipparcos src = Some s →
  starAt s3 k = Some o →
  ∃ o', starAt s k = Some o' ∧ refinedBy o o'.
Proof.
  intros H3 H4 Ho. unfold afterHipparcos in H4. rewrite H3 in H4.
  cbn [mbind option_bind] in H4. unfold processHipparcosStarCatalog in H4.
  destruct (hipparcosLoop s3 (hipparcosData src)) as [s4|] eqn:E4; [|done].
  cbn in H4. injection H4 as <-.
  destruct (afterNotes_layout src s3 H3) as (_ & _ & _ & _ & L3 & _ & D3).
  destruct (hipparcosLoop_objects _ _ _ E4 L3 D3) as (S4 & V4 & _).
  destruct (hip_loop_stage _ _ _ E4 L3 D3) as (L4 & _).
  destruct (addPleiades_objects s4 L4) as (S5 & EH & _).
  unfold starAt in *.
  destruct (fk5Index s3 !! k) as [r|] eqn:Er; [|done].
  cbn [mbind option_bind] in Ho.
  rewrite (lookup_weaken _ _ _ _ (lookup_weaken _ _ _ _ Er S4) S5).
  cbn [mbind option_bind]. rewrite EH. by apply V4.
Qed.


(** ** The cross-reference tables stay consistent with the registry *)

Lemma crossIndexLine_tables (s : State) (l : FK5Line) :
  (bscIndex (crossIndexLine s l), hd2bsc (crossIndexLine s l),
   bsc2fk5 (crossIndexLine s l), ngcs (crossIndexLine s l))
  = (bscIndex s, hd2bsc s, bsc2fk5 s, ngcs s).
Proof.
  unfold crossIndexLine. destruct (fk5_blank l); [done|].
  destruct (fk5_hd l) as [hd|]; [destruct (0 <? hd)|];
    by destruct (fk5_fk5Num l =? 139).
Qed.

Lemma crossIndexLine_linked (s : State) (l : FK5Line) :
  Linked s ∧ bscIndex s = ∅ ∧ hd2bsc s = ∅ →
  Linked (crossIndexLine s l) ∧ bscIndex (crossIndexLine s l) = ∅ ∧
  hd2bsc (crossIndexLine s l) = ∅.
Proof.
  intros (K & EB & EH).
  pose proof (crossIndexLine_tables s l) as T. injection T as T1 T2 T3 T4.
  split; [|split; congruence].
  constructor.
  - intros hd k. rewrite crossIndexLine_hd. unfold assignsHD.
    destruct (fk5_blank l) eqn:Hb; cbn [negb andb].
    { unfold crossIndexLine. rewrite Hb. apply K. }
    destruct (crossIndexLine_fields s l Hb) as (_ & _ & -> & _).
    assert (∀ k', is_Some (fk5Index s !! k') →
                  is_Some (<[fk5_fk5Num l := length (heap s)]> (fk5Index s)
                             !! k')) as Hmono.
    { intros k' Hk'. rewrite lookup_insert_is_Some.
      destruct (decide (fk5_fk5Num l = k')); auto. }
    assert (hd2fk5 s !! hd = Some k →
            0 < hd ∧
            is_Some (<[fk5_fk5Num l := length (heap s)]> (fk5Index s) !! k))
      as Hold.
    { intros Hk. destruct (lnk_fk5 s K hd k Hk). auto. }
    destruct (fk5_hd l) as [h|]; [|done].
    destruct (Z.ltb_spec 0 h); [|done].
    destruct (Z.eqb_spec h hd) as [->|]; [|done]. cbn [andb].
    intros [= <-]. split; [done|]. rewrite lookup_insert_eq. eauto.
  - intros hd b. rewrite T2, EH, lookup_empty. done.
  - intros b r. rewrite T1, EB, lookup_empty. done.
Qed.

Lemma crossIndex_linked (lines : list FK5Line) :
  ∀ s : State,
    Linked s ∧ bscIndex s = ∅ ∧ hd2bsc s = ∅ →
    Linked (processCrossIndex s lines) ∧
    bscIndex (processCrossIndex s lines) = ∅ ∧
    hd2bsc (processCrossIndex s lines) = ∅.
Proof.
  unfold processCrossIndex.
  induction lines as [|l lines IH]; intros s H; [done|].
  cbn [fold_left]. by apply IH, crossIndexLine_linked.
Qed.

Lemma initial_linked : Linked initialState.
Proof. constructor; intros ? ?; cbn; by rewrite lookup_empty. Qed.

Lemma annotateBsc_tables (s : State) (l : BSCLine) (k : Z) :
  annotateBsc s l k = s ∨
  ∃ r, 0 < k ∧ fk5Index s !! k = Some r ∧
       hd2fk5 (annotateBsc s l k) = hd2fk5 s ∧
       bsc2fk5 (annotateBsc s l k) = <[bsc_bscNum l := k]> (bsc2fk5 s) ∧
       bscIndex (annotateBsc s l k) = <[bsc_bscNum l := r]> (bscIndex s) ∧
       hd2bsc (annotateBsc s l k)
       = if 0 <? bsc_hd l then <[bsc_hd l := bsc_bscNum l]> (hd2bsc s)
         else hd2bsc s.
Proof.
  unfold annotateBsc. destruct (Z.ltb_spec 0 k); [|by left].
  destruct (fk5Index s !! k) as [r|]; [|by left].
  right. exists r. cbn zeta.
  destruct (0 <? bsc_hd l); destruct (negb _); by fields.
Qed.

Lemma annotateBsc_linked (s : State) (l : BSCLine) (k : Z) :
  Linked s → Linked (annotateBsc s l k).
Proof.
  intros K.
  destruct (annotateBsc_frame s l k) as (EI & _).
  destruct (annotateBsc_tables s l k)
    as [->|(r & Hk & Hr & E1 & E2 & E3 & E4)]; [done|].
  constructor.
  - intros hd k'. rewrite E1, EI. apply K.
  - intros hd b. rewrite E4, E3.
    assert (hd2bsc s !! hd = Some b →
            0 < hd ∧ is_Some (<[bsc_bscNum l := r]> (bscIndex s) !! b))
      as Hold.
    { intros Hb. destruct (lnk_hd s K hd b Hb) as [? ?]. split; [done|].
      rewrite lookup_insert_is_Some.
      destruct (decide (bsc_bscNum l = b)); auto. }
    destruct (Z.ltb_spec 0 (bsc_hd l)); [|done].
    destruct (decide (bsc_hd l = hd)) as [<-|Hne].
    + rewrite lookup_insert_eq. intros [= <-]. split; [done|].
      rewrite lookup_insert_eq. eauto.
    + by rewrite lookup_insert_ne.
  - intros b r'. rewrite E3, E2, EI.
    destruct (decide (bsc_bscNum l = b)) as [<-|Hne].
    + rewrite !lookup_insert_eq. intros [= <-]. eauto.
    + rewrite !lookup_insert_ne by done. apply K.
Qed.

Lemma grow_linked (s s' : State) :
  Linked s →
  fk5Index s ⊆ fk5Index s' →
  (hd2fk5 s', bscIndex s', hd2bsc s', bsc2fk5 s')
  = (hd2fk5 s, bscIndex s, hd2bsc s, bsc2fk5 s) →
  Linked s'.
Proof.
  intros K S [= E1 E2 E3 E4]. constructor.
  - intros hd k. rewrite E1. intros Hk.
    destruct (lnk_fk5 s K hd k Hk) as [? [r Hr]]. split; [done|].
    exists r. by eapply lookup_weaken.
  - intros hd b. rewrite E3, E2. apply K.
  - intros b r. rewrite E2, E4. intros Hb.
    destruct (lnk_bsc s K b r Hb) as (k & ? & ? & Hr).
    exists k. split; [done|]. split; [done|]. by eapply lookup_weaken.
Qed.

Lemma mergeLine_linked (s : State) (l : BSCLine) :
  Layout s → totalHIP s = 0 → totalDSO s = 0 →
  Linked s → Linked (mergeLine s l).
Proof.
  intros L HH HD K. unfold mergeLine.
  destruct (bsc_blank l); [done|].
  destruct (bsc2fk5 s !! bsc_bscNum l) as [carried|]; [|done].
  destruct (bsc_vmag l) as [v|]; [|done].
  destruct (_ && _); [|by apply annotateBsc_linked].
  pose proof (addBscStar_frame s l v) as F. cbv zeta in F.
  assert (let s1 := snd (addBscStar s l v) in
          (hd2fk5 s1, bscIndex s1, hd2bsc s1, bsc2fk5 s1)
          = (hd2fk5 s, bscIndex s, hd2bsc s, bsc2fk5 s)) as T by done.
  destruct (addBscStar s l v) as [k s1]. cbn [fst snd] in F, T.
  destruct F as (-> & EI & _).
  apply annotateBsc_linked. apply (grow_linked s); [done| |done].
  rewrite EI. apply insert_subseteq, fresh_key; [done|].
  destruct L. unfold top. lia.
Qed.

Lemma mergeLines_linked (ls : list BSCLine) :
  ∀ s : State,
    Layout s → totalHIP s = 0 → totalDSO s = 0 →
    Linked s → Linked (fold_left mergeLine ls s).
Proof.
  induction ls as [|l ls IH]; intros s L HH HD K; cbn [fold_left]; [done|].
  destruct (mergeLine_layout s l L HH HD) as (L1 & H1 & D1 & _).
  apply IH; [done..|]. by apply mergeLine_linked.
Qed.

Lemma afterBsc_linked (src : Sources) : Linked (afterBsc src).
Proof.
  pose proof (processCrossIndex_primary (crossIndex src) initialState
                initial_primary) as P.
  destruct (crossIndex_linked (crossIndex src) initialState)
    as (K & EB & EH); [by split; [apply initial_linked|]|].
  fold (afterCrossIndex src) in P, K, EB, EH.
  unfold afterBsc, processYaleBrightStarCatalog.
  pose proof (scanLines_same (bscCatalog src) (afterCrossIndex src)) as S.
  pose proof (scanLines_frame (bscCatalog src) (afterCrossIndex src)) as F.
  set (s0 := snd (scanLines (afterCrossIndex src) (bscCatalog src))) in *.
  assert (Layout s0) as L0
    by (eapply Layout_same; [done|by apply primary_layout]).
  assert (totalHIP s0 = 0 ∧ totalDSO s0 = 0) as [H0 D0].
  { destruct S as (_ & _ & _ & -> & -> & _). split; apply P. }
  apply mergeLines_linked; [done..|].
  constructor.
  - intros hd k. rewrite F. fields. apply K.
  - intros hd b. rewrite F. fields. rewrite EH, lookup_empty. done.
  - intros b r. rewrite F. fields. rewrite EB, lookup_empty. done.
Qed.

(** X7.  After the bright-star stage the cross-reference tables agree with
    the registry: [hd2fk5] and [hd2bsc] hold entries under positive HD
    numbers only, an entry of [hd2fk5] is a key with a record, an entry
    of [hd2bsc] is a number known to [bscIndex], and the object
    [bscIndex] gives for a bright-star number is the very object the
    registry holds under the positive key [bsc2fk5] gives for that
    number. *)
Theorem bright_star_tables_agree (src : Sources) :
  let s := afterBsc src in
  (∀ hd k, hd2fk5 s !! hd = Some k → 0 < hd ∧ is_Some (starAt s k)) ∧
  (∀ hd b, hd2bsc s !! hd = Some b → 0 < hd ∧ is_Some (bscIndex s !! b)) ∧
  (∀ b r, bscIndex s !! b = Some r →
          ∃ k, 0 < k ∧ bsc2fk5 s !! b = Some k ∧ fk5Index s !! k = Some r ∧
               is_Some (heap s !! r)).
Proof.
  intros s. subst s. pose proof (afterBsc_linked src) as K.
  pose proof (processCrossIndex_primary (crossIndex src) initialState
                initial_primary) as P.
  fold (afterCrossIndex src) in P.
  destruct (bsc_stage (afterCrossIndex src) (bscCatalog src))
    as (L2 & _); [by apply primary_layout|apply P..|].
  fold (afterBsc src) in L2.
  split; [|split].
  - intros hd k Hk. destruct (lnk_fk5 _ K hd k Hk) as [? [r Hr]].
    split; [done|]. unfold starAt. rewrite Hr. cbn.
    apply lookup_lt_is_Some. by eapply lay_heap.
  - apply K.
  - intros b r Hb. destruct (lnk_bsc _ K b r Hb) as (k & ? & ? & Hr).
    exists k. split; [done|]. split; [done|]. split; [done|].
    apply lookup_lt_is_Some. by eapply lay_heap.
Qed.


(** ** The astrometry stage always completes *)

Lemma hipparcosLine_total (s : State) (l : HIPLine) :
  Layout s → Linked s → is_Some (hipparcosLine s l).
Proof.
  intros L K. unfold hipparcosLine.
  destruct (negb _); [eauto|].
  destruct (_ =? _); [eauto|].
  destruct (hip_ra l) as [ra|]; [|eauto].
  destruct (hip_de l) as [de|]; [|eauto].
  destruct (hip_vmag l) as [v|]; [|eauto].
  destruct (hip_pmRA l) as [pra|]; [|eauto].
  destruct (hip_pmDE l) as [pde|]; [|eauto].
  cbn zeta.
  destruct (Z.ltb_spec 0 (hip_hdNum l)) as [Hhd|Hhd].
  - destruct (hd2fk5 s !! hip_hdNum l) as [k|] eqn:Ek; cbn [default from_option id].
    + destruct (Z.ltb_spec 0 k).
      { destruct (lnk_fk5 s K _ _ Ek) as [_ [r Hr]]. rewrite Hr. cbn.
        destruct (lookup_lt_is_Some_2 (heap s) r (lay_heap s L k r Hr))
          as [o ->].
        cbn. eauto. }
      destruct (hd2bsc s !! hip_hdNum l) as [b|] eqn:Eb; cbn [default from_option id].
      * destruct (Z.ltb_spec 0 b).
        { destruct (lnk_hd s K _ _ Eb) as [_ [r Hr]]. rewrite Hr. cbn.
          destruct (lnk_bsc s K b r Hr) as (k' & _ & _ & Hk').
          destruct (lookup_lt_is_Some_2 (heap s) r (lay_heap s L k' r Hk'))
            as [o ->].
          cbn. eauto. }
        destruct (Qgtb _ _); eauto.
      * cbn. destruct (Qgtb _ _); eauto.
    + cbn.
      destruct (hd2bsc s !! hip_hdNum l) as [b|] eqn:Eb; cbn [default from_option id].
      * destruct (Z.ltb_spec 0 b).
        { destruct (lnk_hd s K _ _ Eb) as [_ [r Hr]]. rewrite Hr. cbn.
          destruct (lnk_bsc s K b r Hr) as (k' & _ & _ & Hk').
          destruct (lookup_lt_is_Some_2 (heap s) r (lay_heap s L k' r Hk'))
            as [o ->].
          cbn. eauto. }
        destruct (Qgtb _ _); eauto.
      * cbn. destruct (Qgtb _ _); eauto.
  - cbn. destruct (Qgtb _ _); eauto.
Qed.

Lemma hipparcosLoop_total (lines : list HIPLine) :
  ∀ s : State,
    Layout s → totalDSO s = 0 → Linked s →
    ∃ s', hipparcosLoop s lines = Some s' ∧ Layout s' ∧ Linked s'.
Proof.
  induction lines as [|l lines IH]; intros s L HD K; cbn [hipparcosLoop].
  - eauto.
  - destruct (hipparcosLine_total s l L K) as [f E]. rewrite E.
    destruct (hipparcosLine_layout s l f E L HD) as (L1 & D1 & _).
    destruct (hipparcosLine_objects s l f E L HD) as (S1 & _ & F1).
    assert (Linked (flowState f)) as K1.
    { apply (grow_linked s); [done..|]. congruence. }
    destruct f as [s1|s1]; cbn [flowState] in *; [by apply IH|eauto].
Qed.

(** X8.  Once the notes stage has completed, the astrometry stage always
    completes: a Hipparcos row that is matched through its HD number
    always finds the star object it is to update, so that no row can
    abort the run. *)
Theorem hipparcos_stage_completes (src : Sources) (s3 : State) :
  afterNotes src = Some s3 →
  is_Some (afterHipparcos src) ∧
  ∀ lines, is_Some (processHipparcosStarCatalog s3 lines).
Proof.
  intros H3.
  destruct (afterNotes_layout src s3 H3) as (_ & _ & _ & _ & L3 & _ & D3).
  assert (Linked s3) as K3.
  { destruct (notes_objects _ _ _ H3) as [F _].
    pose proof (afterBsc_linked src) as K.
    apply (grow_linked (afterBsc src)); [done| |]; by rewrite F. }
  assert (∀ lines, is_Some (processHipparcosStarCatalog s3 lines)) as T.
  { intros lines. unfold processHipparcosStarCatalog.
    destruct (hipparcosLoop_total lines s3 L3 D3 K3) as (s4 & -> & _).
    cbn. eauto. }
  split; [|exact T].
  unfold afterHipparcos. rewrite H3. cbn [mbind option_bind]. apply T.
Qed.


(** ** The table of names of deep-sky objects *)

Lemma string_app_assoc (a b c : string) :
  String.append (String.append a b) c = String.append a (String.append b c).
Proof.
  induction a as [|x a IH]; [done|].
  change (String x (String.append (String.append a b) c)
          = String x (String.append a (String.append b c))).
  by rewrite IH.
Qed.

Lemma string_app_nil_r (a : string) : String.append a EmptyString = a.
Proof.
  induction a as [|x a IH]; [done|].
  change (String x (String.append a EmptyString) = String x a).
  by rewrite IH.
Qed.

Lemma extendsInfo_refl (i : NGCMatchInfo) : extendsInfo i i.
Proof.
  split; [done|]. split; [done|].
  exists EmptyString. by rewrite string_app_nil_r.
Qed.

Lemma extendsInfo_trans (a b c : NGCMatchInfo) :
  extendsInfo a b → extendsInfo b c → extendsInfo a c.
Proof.
  intros (N1 & M1 & r1 & E1) (N2 & M2 & r2 & E2).
  split; [congruence|]. split.
  - intros Ha. rewrite <- (M1 Ha). apply M2. rewrite (M1 Ha). done.
  - exists (String.append r1 r2). by rewrite E2, E1, string_app_assoc.
Qed.

Lemma noteNgcName_extends (tbl : gmap Z NGCMatchInfo) (n m k : Z)
      (nm : string) (info : NGCMatchInfo) :
  tbl !! k = Some info →
  ∃ info', noteNgcName tbl n m nm !! k = Some info' ∧ extendsInfo info info'.
Proof.
  intros Hk. unfold noteNgcName.
  destruct (decide (n = k)) as [->|Hne].
  - rewrite Hk, lookup_insert_eq. eexists. split; [done|].
    split; [done|]. cbn. split.
    + intros Hm. apply Z.eqb_neq in Hm. rewrite Hm. cbn.
      by destruct (negb (m =? 0)).
    + destruct (ngc_name info) as [|c r] eqn:En; cbn.
      * by exists nm.
      * destruct nm as [|d nm]; cbn.
        -- exists EmptyString. by rewrite string_app_nil_r.
        -- by exists (String "/" (String d nm)).
  - exists info. split; [|apply extendsInfo_refl].
    destruct (tbl !! n); by rewrite lookup_insert_ne.
Qed.

Lemma ngcNameLine_extends (st : Z * State) (l : NgcNameLine) (k : Z)
      (info : NGCMatchInfo) :
  ngcs (snd st) !! k = Some info →
  snd (ngcNameLine st l)
  = withNgcs (ngcs (snd (ngcNameLine st l))) (snd st) ∧
  ∃ info', ngcs (snd (ngcNameLine st l)) !! k = Some info' ∧
           extendsInfo info info'.
Proof.
  destruct st as [d s]. cbn [snd]. intros Hk.
  assert (s = withNgcs (ngcs s) s ∧
          ∃ info', ngcs s !! k = Some info' ∧ extendsInfo info info') as Hid
    by (split; [by destruct s|exists info; split;
                              [done|apply extendsInfo_refl]]).
  unfold ngcNameLine.
  destruct (nn_dash l); [done|].
  destruct (_ || _); [done|].
  destruct (nn_ngcIcNum l) as [n|]; [|done].
  destruct (n =? 0); [done|].
  cbn zeta.
  destruct (JsString.startsWith _ _); cbn [snd]; fields;
    (split; [by destruct s|by apply noteNgcName_extends]).
Qed.

Lemma ngcNames_frame (lines : list NgcNameLine) (s : State) :
  processNgcNames s lines = withNgcs (ngcs (processNgcNames s lines)) s.
Proof.
  unfold processNgcNames.
  assert (∀ st : Z * State,
            snd (fold_left ngcNameLine lines st)
            = withNgcs (ngcs (snd (fold_left ngcNameLine lines st)))
                       (snd st)) as H.
  { induction lines as [|l lines IH]; intros st; cbn [fold_left].
    - by destruct st as [d []].
    - rewrite (IH (ngcNameLine st l)) at 1.
      assert (snd (ngcNameLine st l)
              = withNgcs (ngcs (snd (ngcNameLine st l))) (snd st)) as ->;
        [|done].
      destruct st as [d s0]. unfold ngcNameLine.
      destruct (nn_dash l); [by destruct s0|].
      destruct (_ || _); [by destruct s0|].
      destruct (nn_ngcIcNum l) as [n|]; [|by destruct s0].
      destruct (n =? 0); [by destruct s0|].
      cbn zeta. by destruct (JsString.startsWith _ _). }
  apply (H (0, s)).
Qed.

(** An entry of the table is only extended by the lines that follow,
    whatever the count of dividers. *)
Lemma ngcNameLines_extend (lines : list NgcNameLine) :
  ∀ (st : Z * State) (n : Z) (info : NGCMatchInfo),
    ngcs (snd st) !! n = Some info →
    ∃ info', ngcs (snd (fold_left ngcNameLine lines st)) !! n = Some info' ∧
             extendsInfo info info'.
Proof.
  induction lines as [|l lines IH]; intros st n info Hn; cbn [fold_left].
  - exists info. split; [done|apply extendsInfo_refl].
  - destruct (ngcNameLine_extends st l n info Hn) as (_ & i1 & H1 & X1).
    destruct (IH (ngcNameLine st l) n i1 H1) as (i2 & H2 & X2).
    exists i2. split; [done|]. by eapply extendsInfo_trans.
Qed.

(** X9.  A call of [processNgcNames], on any state, changes nothing but
    the table [ngcs]; and an entry that the table holds after some of the
    lines, created by one of them or present before, is only extended by
    the lines that follow: it keeps its object number, a Messier number
    other than 0 is never replaced by a later line, and the name recorded
    so far stays the beginning of the name. *)
Theorem ngc_names_accumulate
  (s : State) (before after : list NgcNameLine) :
  processNgcNames s (before ++ after)
  = withNgcs (ngcs (processNgcNames s (before ++ after))) s ∧
  ∀ n info,
    ngcs (processNgcNames s before) !! n = Some info →
    ∃ info', ngcs (processNgcNames s (before ++ after)) !! n = Some info' ∧
             extendsInfo info info'.
Proof.
  split; [apply ngcNames_frame|].
  intros n info Hn. unfold processNgcNames in *.
  rewrite fold_left_app. by apply ngcNameLines_extend.
Qed.


(** ** The deep-sky stage *)

Lemma retained_test (tbl : gmap Z NGCMatchInfo) (l : NgcDataLine) :
  bool_decide (tbl !! nd_ngcIcNum l = None) && Qgtb (nd_vmag l) 6 = false
  ↔ retained tbl l.
Proof.
  unfold retained. rewrite andb_false_iff, bool_decide_eq_false.
  rewrite <- not_eq_None_Some.
  assert (Qgtb (nd_vmag l) 6 = false ↔ (nd_vmag l <= 6)%Q) as ->; [|done].
  unfold Qgtb. rewrite negb_false_iff. apply Qle_bool_iff.
Qed.

Lemma ngcDataLine_none (d : Z) (s : State) (l : NgcDataLine) :
  ngcDataLine (d, s) l = None ↔ badDataLine (ngcs s) d l.
Proof.
  unfold ngcDataLine, badDataLine.
  destruct (nd_dash l); [split; [done|by intros (? & _)]|].
  destruct (nd_empty l); cbn [orb]; [split; [done|by intros (_ & ? & _)]|].
  destruct (Z.ltb_spec d 2); [split; [done|intros (_ & _ & ? & _); lia]|].
  cbn zeta. rewrite <- retained_test.
  destruct (_ && _); [split; [done|by intros (_ & _ & _ & ? & _)]|].
  destruct (nd_position l) as [p|]; cbn [mbind option_bind].
  - destruct (nd_constellation l) as [c|]; cbn [mbind option_bind].
    + split; [done|]. by intros (_ & _ & _ & _ & [|]).
    + split; [|done]. intros _. repeat split; auto.
  - split; [|done]. intros _. repeat split; auto.
Qed.

Lemma ngcDataLine_records (P : StarInfo → Prop) (t : Z) (st st' : Z * State)
      (l : NgcDataLine) :
  ngcDataLine st l = Some st' →
  Layout (snd st) → recordsAbove P t (snd st) →
  (∀ p c, nd_dash l = false → nd_empty l = false →
          retained (ngcs (snd st)) l →
          nd_position l = Some p → nd_constellation l = Some c →
          P (ngcStar l (ngcs (snd st) !! nd_ngcIcNum l) p c)) →
  Layout (snd st') ∧
  recordsAbove P t (snd st') ∧
  fst st' = fst st + (if nd_dash l then 1 else 0) ∧
  fk5Index (snd st) ⊆ fk5Index (snd st') ∧
  (∃ added, heap (snd st') = heap (snd st) ++ added) ∧
  (hd2fk5 (snd st'), bscIndex (snd st'), hd2bsc (snd st'), bsc2fk5 (snd st'),
   ngcs (snd st'), pleiades (snd st'))
  = (hd2fk5 (snd st), bscIndex (snd st), hd2bsc (snd st), bsc2fk5 (snd st),
     ngcs (snd st), pleiades (snd st)).
Proof.
  destruct st as [d s]. cbn [fst snd]. intros H L N HP.
  assert (∃ added, heap s = heap s ++ added) as Hnil
    by (exists []; by rewrite app_nil_r).
  unfold ngcDataLine in H.
  destruct (nd_dash l) eqn:Hd; [by injection H as <-|]. rewrite Z.add_0_r.
  destruct (nd_empty l) eqn:He; cbn [orb] in H.
  { by injection H as <-. }
  destruct (d <? 2); [by injection H as <-|].
  cbn zeta in H.
  destruct (_ && _) eqn:Ht; [by injection H as <-|].
  apply retained_test in Ht.
  destruct (nd_position l) as [p|] eqn:Ep; [|done]. cbn in H.
  destruct (nd_constellation l) as [c|] eqn:Ec; [|done]. cbn in H.
  injection H as <-. cbn [fst snd]. fields.
  set (o := ngcStar l (ngcs s !! nd_ngcIcNum l) p c).
  destruct (dso_push s (heap s ++ [o]) (length (heap s)) L)
    as (L1 & B1 & H1 & X1 & T1).
  { rewrite length_app. lia. }
  { rewrite length_app. cbn. lia. }
  cbn zeta in *.
  split; [done|].
  split; [|split; [done|split; [|split; [by exists [o]|done]]]].
  - intros k Hk. rewrite T1 in Hk.
    destruct (decide (k = highestStar s + (totalDSO s + 1))) as [->|Hne].
    + exists o. split; [|by apply HP].
      unfold starAt. fields. rewrite lookup_insert_eq. cbn.
      apply heap_alloc_lookup.
    + rewrite (starAt_alloc s k (highestStar s + (totalDSO s + 1)) o);
        [|done..].
      apply N. unfold top in *. lia.
  - apply insert_subseteq, fresh_key; [done|]. unfold top. lia.
Qed.

Lemma ngcDataLoop_records (P : StarInfo → Prop) (t : Z)
      (lines : list NgcDataLine) :
  ∀ st st' : Z * State,
    ngcDataLoop st lines = Some st' →
    Layout (snd st) → recordsAbove P t (snd st) →
    (∀ l p c, l ∈ lines → nd_dash l = false → nd_empty l = false →
              retained (ngcs (snd st)) l →
              nd_position l = Some p → nd_constellation l = Some c →
              P (ngcStar l (ngcs (snd st) !! nd_ngcIcNum l) p c)) →
    recordsAbove P t (snd st') ∧
    fk5Index (snd st) ⊆ fk5Index (snd st') ∧
    (∃ added, heap (snd st') = heap (snd st) ++ added) ∧
    (hd2fk5 (snd st'), bscIndex (snd st'), hd2bsc (snd st'),
     bsc2fk5 (snd st'), ngcs (snd st'), pleiades (snd st'))
    = (hd2fk5 (snd st), bscIndex (snd st), hd2bsc (snd st),
       bsc2fk5 (snd st), ngcs (snd st), pleiades (snd st)).
Proof.
  induction lines as [|l lines IH]; intros st st' H L N HP; cbn in H.
  - injection H as <-. split; [done|]. split; [done|].
    split; [|done]. exists []. by rewrite app_nil_r.
  - destruct (ngcDataLine st l) as [st1|] eqn:E; [|done]. cbn in H.
    destruct (ngcDataLine_records P t st st1 l E L N)
      as (L1 & N1 & _ & S1 & [a1 A1] & F1).
    { intros p c. apply HP. by left. }
    assert (ngcs (snd st1) = ngcs (snd st)) as En by congruence.
    destruct (IH st1 st' H L1 N1) as (N2 & S2 & [a2 A2] & F2).
    { intros l' p c Hl'. rewrite En. apply HP. by right. }
    split; [done|]. split; [by etrans|]. split; [|congruence].
    exists (a1 ++ a2). by rewrite A2, A1, app_assoc.
Qed.

(** X10.  The deep-sky stage only appends: every key that had a record
    before [processNgcData] designates the same, unchanged record
    afterwards, and each record above the former last key was built from
    a line of the data file that is neither a divider nor empty and whose
    object has an entry in the table of names or a magnitude up to 6.0.
    The cross-reference tables are left as they were. *)
Theorem deep_sky_stage_appends (src : Sources) (s5 s : State) :
  afterNgcNames src = Some s5 →
  processNgcData s5 (ngcData src) = Some s →
  (∀ k o, starAt s5 k = Some o → starAt s k = Some o) ∧
  recordsAbove (fromDataLine (ngcs s5) (ngcData src)) (top s5) s ∧
  (hd2fk5 s, bscIndex s, hd2bsc s, bsc2fk5 s, ngcs s)
  = (hd2fk5 s5, bscIndex s5, hd2bsc s5, bsc2fk5 s5, ngcs s5).
Proof.
  intros H5 H6.
  assert (pipeline src = Some s) as HP
    by (unfold pipeline; by rewrite H5).
  destruct (pipeline_layout src s HP)
    as (s3 & s4 & _ & _ & E5 & _ & _ & _ & _ & _ & _ & _ & _ & _ & _ & _
        & _ & L5 & _).
  rewrite H5 in E5. injection E5 as E5. rewrite <- E5 in L5. clear E5.
  unfold processNgcData in H6.
  destruct (ngcDataLoop (0, s5) (ngcData src)) as [st'|] eqn:E; [|done].
  injection H6 as <-.
  destruct (ngcDataLoop_records (fromDataLine (ngcs s5) (ngcData src))
              (top s5) (ngcData src) (0, s5) st' E L5)
    as (N & S & [added A] & F).
  { intros k Hk. cbn [snd] in Hk. lia. }
  { intros l p c Hl Hd He Hr Hp Hc. exists l, p, c. done. }
  cbn [snd] in *. split; [|split; [done|congruence]].
  intros k o. unfold starAt.
  destruct (fk5Index s5 !! k) as [r|] eqn:Er; [|done].
  cbn [mbind option_bind]. intros Ho.
  rewrite (lookup_weaken _ _ _ _ Er S). cbn [mbind option_bind].
  rewrite A. by apply lookup_app_l_Some.
Qed.

Lemma ngcDataLine_some (d d' : Z) (s s' : State) (l : NgcDataLine) :
  ngcDataLine (d, s) l = Some (d', s') →
  d' = d + (if nd_dash l then 1 else 0) ∧ ngcs s' = ngcs s.
Proof.
  unfold ngcDataLine.
  destruct (nd_dash l); [by intros [= <- <-]|]. rewrite Z.add_0_r.
  destruct (_ || _); [by intros [= <- <-]|].
  cbn zeta. destruct (_ && _); [by intros [= <- <-]|].
  destruct (nd_position l) as [p|]; [|done].
  destruct (nd_constellation l) as [c|]; [|done].
  cbn. by intros [= <- <-].
Qed.

Lemma ngcDataLoop_none (lines : list NgcDataLine) :
  ∀ (d : Z) (s : State),
    ngcDataLoop (d, s) lines = None ↔
    ∃ pre l post,
      lines = pre ++ l :: post ∧
      badDataLine (ngcs s)
                  (d + Z.of_nat (length (List.filter nd_dash pre))) l.
Proof.
  induction lines as [|l0 lines IH]; intros d s.
  - cbn. split; [done|]. intros (pre & l & post & E & _).
    by destruct pre.
  - cbn [ngcDataLoop].
    destruct (ngcDataLine (d, s) l0) as [[d1 s1]|] eqn:E0;
      cbn [mbind option_bind].
    + destruct (ngcDataLine_some _ _ _ _ _ E0) as [Ed En].
      rewrite IH, En. split.
      * intros (pre & l & post & -> & B). exists (l0 :: pre), l, post.
        split; [done|]. cbn [List.filter].
        replace (d + Z.of_nat (length (if nd_dash l0
                                       then l0 :: List.filter nd_dash pre
                                       else List.filter nd_dash pre)))
          with (d1 + Z.of_nat (length (List.filter nd_dash pre)));
          [done|].
        rewrite Ed. destruct (nd_dash l0); cbn [length]; lia.
      * intros (pre & l & post & E & B). destruct pre as [|x pre].
        -- cbn in E. injection E as <- <-. cbn in B. rewrite Z.add_0_r in B.
           apply ngcDataLine_none in B. congruence.
        -- cbn in E. injection E as <- ->. exists pre, l, post.
           split; [done|]. cbn [List.filter] in B.
           replace (d1 + Z.of_nat (length (List.filter nd_dash pre)))
             with (d + Z.of_nat (length (if nd_dash l0
                                         then l0 :: List.filter nd_dash pre
                                         else List.filter nd_dash pre)));
             [done|].
           rewrite Ed. destruct (nd_dash l0); cbn [length]; lia.
    + split; [|done]. intros _. exists [], l0, lines. split; [done|].
      cbn. rewrite Z.add_0_r. by apply ngcDataLine_none.
Qed.

(** X11.  [processNgcData] stops with an error exactly when the data file
    holds, after at least two divider lines, a line that is neither a
    divider nor empty, whose object has an entry in the table of names or
    a magnitude up to 6.0, and that lacks the position field or the
    constellation field. *)
Theorem ngc_data_aborts_iff (s : State) (lines : list NgcDataLine) :
  processNgcData s lines = None ↔
  ∃ pre l post,
    lines = pre ++ l :: post ∧
    badDataLine (ngcs s) (Z.of_nat (length (List.filter nd_dash pre))) l.
Proof.
  unfold processNgcData. rewrite <- (ngcDataLoop_none lines 0 s).
  destruct (ngcDataLoop (0, s) lines); cbn; split; done.
Qed.

(** ** Failure of the notes stage *)

Lemma notesLine_none (s : State) (l : NoteLine) :
  notesLine s l = None ↔ badNote s l.
Proof.
  unfold notesLine, badNote.
  destruct (note_blank l); [split; [done|by intros (? & _)]|].
  destruct (bool_decide_reflect (bsc2fk5 s !! note_bscNum l = Some 0))
    as [E0|N0].
  { split; [done|]. intros (_ & _ & _ & [E|(k & E & Hk & _)]); congruence. }
  destruct (String.eqb_spec (JsString.trim (note_code l)) "1N:") as [Ec|Nc];
    cbn [negb]; [|split; [done|by intros (_ & ? & _)]].
  destruct (notesName (note_text l)) as [nm|];
    [|split; [done|by intros (_ & _ & [? ?] & _)]].
  destruct (bsc2fk5 s !! note_bscNum l) as [k|] eqn:Ek;
    cbn [mbind option_bind].
  - destruct (fk5Index s !! k) as [r|] eqn:Er; cbn [mbind option_bind].
    + split; [done|].
      intros (_ & _ & _ & [E|(k' & E & Hk & Hn)]); congruence.
    + split; [|done]. intros _. split; [done|]. split; [done|].
      split; [eauto|]. right. exists k. split; [done|].
      split; [congruence|done].
  - split; [|done]. intros _. split; [done|]. split; [done|].
    split; [eauto|]. by left.
Qed.

(** X12.  The notes stage stops with an error exactly when the notes hold
    a non-blank line with the code 1N: whose text matches the name
    pattern and whose bright-star number is unknown to [bsc2fk5] or
    mapped there to a key other than 0 that has no record, as the
    numbers of lines dropped as duplicates are. *)
Theorem notes_stage_aborts_iff (s : State) (lines : list NoteLine) :
  processYaleBrightStarCatalogNotes s lines = None ↔
  ∃ l, l ∈ lines ∧ badNote s l.
Proof.
  revert s. induction lines as [|l0 lines IH]; intros s.
  - cbn. split; [done|]. intros (l & Hl & _). by apply elem_of_nil in Hl.
  - cbn [processYaleBrightStarCatalogNotes].
    destruct (notesLine s l0) as [s1|] eqn:E0; cbn [mbind option_bind].
    + destruct (notesLine_objects s s1 l0 E0) as [F _].
      assert (∀ l, badNote s1 l ↔ badNote s l) as HB.
      { intros l. unfold badNote. by rewrite F. }
      rewrite IH. split.
      * intros (l & Hl & B). exists l. split; [by right|by apply HB].
      * intros (l & Hl & B). apply elem_of_cons in Hl as [->|Hl].
        -- apply notesLine_none in B. congruence.
        -- exists l. split; [done|by apply HB].
    + split; [|done]. intros _. exists l0. split; [by left|].
      by apply notesLine_none.
Qed.


(** ** The designation stored by the primary loader *)

Lemma fk5Star_designation (l : FK5Line) :
  (flamsteed (fk5Star l), bayerRank (fk5Star l), subIndex (fk5Star l),
   constellation (fk5Star l)) = fk5Designation l.
Proof. unfold fk5Star. by destruct (fk5Designation l) as [[[fl br] si] c]. Qed.

(** The case analysis of lines 184-204, on the results [i] and [j] of the
    two table look-ups. *)
Lemma designation_cases (e : bool) (fnum sub i j : Z)
      (fl br si c : option Z) :
  0 ≤ i + 1 ≤ 24 → 0 ≤ j + 1 ≤ 88 →
  (let '(fl, br, si) :=
     if e then (0, None, None)
     else
       let fl := fnum in
       if fl =? 0 then
         let br := i + 1 in
         (fl, Some br, if 0 <? br then Some sub else None)
       else (fl, None, None) in
   if negb (fl =? 0) || negb (bool_decide (br = Some 0)) then
     let c := j + 1 in
     if c =? 0 then (Some 0, Some 0, Some 0, Some c)
     else (Some fl, br, si, Some c)
   else (Some fl, br, si, None)) = (fl, br, si, c) →
  is_Some fl ∧
  (∀ b, br = Some b → 0 ≤ b ≤ 24) ∧
  (∀ x, c = Some x → 0 ≤ x ≤ 88) ∧
  (∀ f b, fl = Some f → br = Some b → f = 0 ∨ b = 0) ∧
  (∀ x, si = Some x → x ≠ 0 → ∃ b, br = Some b ∧ 0 < b) ∧
  (∀ f, fl = Some f → f ≠ 0 → ∃ x, c = Some x ∧ 0 < x) ∧
  (∀ b, br = Some b → b ≠ 0 → ∃ x, c = Some x ∧ 0 < x) ∧
  (c = Some 0 → fl = Some 0 ∧ br = Some 0 ∧ si = Some 0).
Proof.
  intros Hb Hc D.
  assert (∀ x, 0 ≤ x ≤ 88 → x ≠ 0 → ∃ c, Some x = Some c ∧ 0 < c) as Hx
    by (intros x ? ?; exists x; split; [done|lia]).
  destruct e; [|cbv zeta in D; destruct (Z.eqb_spec fnum 0) as [Ef|Nf]];
    cbv beta iota zeta in D.
  - cbn in D. destruct (Z.eqb_spec (j + 1) 0); injection D as <- <- <- <-;
      repeat split; eauto; intros; simplify_eq; try lia; eauto.
  - rewrite Ef in D. cbn [Z.eqb negb orb] in D.
    destruct (decide (i + 1 = 0)) as [Ei|Ni].
    + rewrite Ei in D. cbn in D. injection D as <- <- <- <-.
      repeat split; eauto; intros; simplify_eq; try lia; eauto.
    + rewrite bool_decide_eq_false_2 in D by congruence.
      cbn [negb] in D.
      destruct (Z.eqb_spec (j + 1) 0); injection D as <- <- <- <-;
        repeat split; eauto; intros; simplify_eq; try lia; eauto;
        destruct (Z.ltb_spec 0 (i + 1)); simplify_eq; eauto.
  - apply Z.eqb_neq in Nf. rewrite Nf in D. cbn [negb orb] in D.
    destruct (Z.eqb_spec (j + 1) 0); injection D as <- <- <- <-;
      repeat split; eauto; intros; simplify_eq; try lia; eauto.
Qed.

(** The shape of the designation of a record of the primary catalog. *)
Lemma fk5Star_shape (l : FK5Line) :
  let o := fk5Star l in
  is_Some (flamsteed o) ∧
  (∀ b, bayerRank o = Some b → 0 ≤ b ≤ 24) ∧
  (∀ c, constellation o = Some c → 0 ≤ c ≤ 88) ∧
  (∀ f b, flamsteed o = Some f → bayerRank o = Some b → f = 0 ∨ b = 0) ∧
  (∀ i, subIndex o = Some i → i ≠ 0 → ∃ b, bayerRank o = Some b ∧ 0 < b) ∧
  (∀ f, flamsteed o = Some f → f ≠ 0 →
        ∃ c, constellation o = Some c ∧ 0 < c) ∧
  (∀ b, bayerRank o = Some b → b ≠ 0 →
        ∃ c, constellation o = Some c ∧ 0 < c) ∧
  (constellation o = Some 0 →
   flamsteed o = Some 0 ∧ bayerRank o = Some 0 ∧ subIndex o = Some 0).
Proof.
  intros o. subst o.
  pose proof (fk5Star_designation l) as E.
  apply (designation_cases
           (JsString.isEmpty
              (JsString.toLowerCase (JsString.trim (fk5_bayerFlamsteed l))))
           (fk5_flamsteedNum l) (fk5_subIndex l)
           (JsString.indexOf
              (JsString.toLowerCase (JsString.trim (fk5_bayerFlamsteed l)))
              bayerRanks)
           (JsString.indexOf
              (JsString.replaceFirst "pet" "peg"
                 (JsString.toLowerCase (JsString.trim (fk5_constellation l))))
              constellationCodes)).
  - apply bayerRank_range.
  - apply constellation_range.
  - symmetry. exact E.
Qed.


(** ** Properties kept by every object through the run *)

Lemma all_app (P : StarInfo → Prop) (s s' : State) (added : list StarInfo) :
  heap s' = heap s ++ added → Forall P added →
  allObjects P s → allObjects P s'.
Proof.
  intros E F A r o. rewrite E. intros [Ho|[_ Ho]]%lookup_app_Some.
  - by eapply A.
  - by eapply Forall_lookup_1.
Qed.

Lemma all_update (P : StarInfo → Prop) (s : State) (r : nat)
      (f : StarInfo → StarInfo) :
  (∀ o, P o → P (f o)) → allObjects P s → allObjects P (update r f s).
Proof.
  intros Hf A r0 o. fields. rewrite list_lookup_alter. case_decide.
  - destruct (heap s !! r) as [o0|] eqn:E; [|done].
    intros [= <-]. apply Hf. by eapply A.
  - apply A.
Qed.

Lemma all_evolves (P : StarInfo → Prop) (s s' : State) :
  evolves (λ o o', P o → P o') s s' →
  length (heap s') = length (heap s) →
  allObjects P s → allObjects P s'.
Proof.
  intros E EL A r o' Ho'.
  destruct (lookup_lt_is_Some_2 (heap s) r) as [o Ho].
  { rewrite <- EL. by eapply lookup_lt_Some. }
  destruct (E r o Ho) as (o2 & Ho2 & HP).
  rewrite Ho' in Ho2. injection Ho2 as <-. apply HP. by eapply A.
Qed.

Lemma stable_closed (P : StarInfo → Prop) :
  stable P → bscClosed (λ o o', P o → P o').
Proof.
  intros S. constructor; [auto|auto|..].
  - intros o v. apply S.
  - intros o f b i c Hb Hc. by apply S.
Qed.

Lemma crossIndexLine_all (P : StarInfo → Prop) (s : State) (l : FK5Line) :
  stable P → allObjects P s → allObjects P (crossIndexLine s l).
Proof.
  intros S A. unfold crossIndexLine. destruct (fk5_blank l); [done|].
  assert (Forall P [fk5Star l]) as F1 by (repeat constructor; apply S).
  assert (Forall P [fk5Star l; pleiadesOf (fk5Star l)]) as F2
    by (repeat constructor; apply S).
  destruct (fk5_hd l) as [hd|]; [destruct (0 <? hd)|];
    destruct (fk5_fk5Num l =? 139);
    (eapply all_app; [|exact F2|exact A]; fields; by rewrite <- app_assoc)
    || (eapply all_app; [|exact F1|exact A]; by fields).
Qed.

Lemma crossIndex_all (P : StarInfo → Prop) (lines : list FK5Line) :
  stable P → ∀ s, allObjects P s → allObjects P (processCrossIndex s lines).
Proof.
  intros S. unfold processCrossIndex.
  induction lines as [|l lines IH]; intros s A; [done|].
  cbn [fold_left]. by apply IH, crossIndexLine_all.
Qed.

Lemma annotateBsc_all (P : StarInfo → Prop) (s : State) (l : BSCLine)
      (k : Z) :
  stable P → allObjects P s → allObjects P (annotateBsc s l k).
Proof.
  intros S A. apply (all_evolves P s); [|by apply annotateBsc_frame|done].
  by apply annotateBsc_evolves, stable_closed.
Qed.

Lemma mergeLine_all (P : StarInfo → Prop) (s : State) (l : BSCLine) :
  stable P → allObjects P s → allObjects P (mergeLine s l).
Proof.
  intros S A. unfold mergeLine.
  destruct (bsc_blank l); [done|].
  destruct (bsc2fk5 s !! bsc_bscNum l) as [carried|]; [|done].
  destruct (bsc_vmag l) as [v|]; [|done].
  destruct (_ && _); [|by apply annotateBsc_all].
  pose proof (addBscStar_frame s l v) as F. cbv zeta in F.
  destruct (addBscStar s l v) as [k s1]. cbn [fst snd] in F.
  destruct F as (_ & _ & EH & _).
  apply annotateBsc_all; [done|].
  eapply all_app; [exact EH| |exact A]. repeat constructor. apply S.
Qed.

Lemma bsc_stage_all (P : StarInfo → Prop) (s : State)
      (lines : list BSCLine) :
  stable P → allObjects P s →
  allObjects P (processYaleBrightStarCatalog s lines).
Proof.
  intros S A. unfold processYaleBrightStarCatalog.
  pose proof (scanLines_frame lines s) as F.
  assert (allObjects P (snd (scanLines s lines))) as A0
    by (intros r o; rewrite F; apply A).
  revert A0. generalize (snd (scanLines s lines)). clear F.
  induction lines as [|l lines IH]; intros s0 A0; [done|].
  cbn [fold_left]. by apply IH, mergeLine_all.
Qed.

Lemma notesLine_all (P : StarInfo → Prop) (s s' : State) (l : NoteLine) :
  stable P → notesLine s l = Some s' → allObjects P s → allObjects P s'.
Proof.
  intros S H A. unfold notesLine in H.
  destruct (note_blank l); [by injection H as <-|].
  destruct (bool_decide _); [by injection H as <-|].
  destruct (negb _); [by injection H as <-|].
  destruct (notesName _) as [nm|]; [|by injection H as <-].
  destruct (bsc2fk5 s !! note_bscNum l) as [k|]; [|done]. cbn in H.
  destruct (fk5Index s !! k) as [r|]; [|done]. cbn in H.
  injection H as <-. apply all_update; [|done]. intros o. apply S.
Qed.

Lemma notes_all (P : StarInfo → Prop) (lines : list NoteLine) :
  stable P →
  ∀ s s', processYaleBrightStarCatalogNotes s lines = Some s' →
          allObjects P s → allObjects P s'.
Proof.
  intros S. induction lines as [|l lines IH]; intros s s' H A; cbn in H.
  - by injection H as <-.
  - destruct (notesLine s l) as [s1|] eqn:E; [|done]. cbn in H.
    eapply IH; [done|]. by eapply notesLine_all.
Qed.

Lemma hipparcosLine_all (P : StarInfo → Prop) (s : State) (l : HIPLine)
      (f : Flow) :
  stable P → hipparcosLine s l = Some f →
  allObjects P s → allObjects P (flowState f).
Proof.
  intros S H A. unfold hipparcosLine in H.
  destruct (negb _); [by injection H as <-|].
  destruct (_ =? _); [by injection H as <-|].
  destruct (hip_ra l) as [ra|]; [|by injection H as <-].
  destruct (hip_de l) as [de|]; [|by injection H as <-].
  destruct (hip_vmag l) as [v|]; [|by injection H as <-].
  destruct (hip_pmRA l) as [pra|]; [|by injection H as <-].
  destruct (hip_pmDE l) as [pde|]; [|by injection H as <-].
  cbn zeta in H.
  destruct (0 <? _).
  { destruct (fk5Index s !! _) as [r|]; [|done]. cbn in H.
    destruct (heap s !! r); [|done]. cbn in H.
    injection H as <-. apply all_update; [|done]. intros o. apply S. }
  destruct (0 <? _).
  { destruct (bscIndex s !! _) as [r|]; [|done]. cbn in H.
    destruct (heap s !! r); [|done]. cbn in H.
    injection H as <-. apply all_update; [|done]. intros o. apply S. }
  destruct (Qgtb _ _); [by injection H as <-|].
  injection H as <-. cbn [flowState]. unfold addHipStar.
  eapply all_app; [| |exact A].
  - by fields.
  - repeat constructor. apply (st_hip P S).
Qed.

Lemma hipparcosLoop_all (P : StarInfo → Prop) (lines : list HIPLine) :
  stable P →
  ∀ s s', hipparcosLoop s lines = Some s' →
          allObjects P s → allObjects P s'.
Proof.
  intros S. induction lines as [|l lines IH]; intros s s' H A; cbn in H.
  - by injection H as <-.
  - destruct (hipparcosLine s l) as [f|] eqn:E; [|done].
    pose proof (hipparcosLine_all P s l f S E A) as A1.
    destruct f as [s1|s1]; cbn [flowState] in *.
    + by eapply IH.
    + by injection H as <-.
Qed.

Lemma ngcDataLine_all (P : StarInfo → Prop) (st st' : Z * State)
      (l : NgcDataLine) :
  stable P → ngcDataLine st l = Some st' →
  allObjects P (snd st) → allObjects P (snd st').
Proof.
  destruct st as [d s]. cbn [snd]. intros S H A.
  unfold ngcDataLine in H.
  destruct (nd_dash l); [by injection H as <-|].
  destruct (_ || _); [by injection H as <-|].
  cbn zeta in H.
  destruct (_ && _); [by injection H as <-|].
  destruct (nd_position l) as [p|]; [|done]. cbn in H.
  destruct (nd_constellation l) as [c|]; [|done]. cbn in H.
  injection H as <-. cbn [snd].
  eapply all_app; [| |exact A].
  - by fields.
  - repeat constructor. apply S.
Qed.

Lemma ngcDataLoop_all (P : StarInfo → Prop) (lines : list NgcDataLine) :
  stable P →
  ∀ st st', ngcDataLoop st lines = Some st' →
            allObjects P (snd st) → allObjects P (snd st').
Proof.
  intros S. induction lines as [|l lines IH]; intros st st' H A; cbn in H.
  - by injection H as <-.
  - destruct (ngcDataLine st l) as [st1|] eqn:E; [|done]. cbn in H.
    eapply IH; [done|]. by eapply ngcDataLine_all.
Qed.

(** Every object in the heap of a completed run has a property that the
    stages establish and keep. *)
Lemma pipeline_all (P : StarInfo → Prop) (src : Sources) (s : State) :
  stable P → pipeline src = Some s → allObjects P s.
Proof.
  intros S H.
  destruct (pipeline_stages src s H) as (s3 & s4 & H3 & H4 & _ & _ & H6).
  assert (allObjects P (afterBsc src)) as A2.
  { apply bsc_stage_all; [done|]. apply crossIndex_all; [done|].
    intros r o Ho. by destruct r. }
  assert (allObjects P s3) as A3 by (eapply notes_all; eauto).
  assert (allObjects P s4) as A4.
  { unfold afterHipparcosLoop in H4. rewrite H3 in H4.
    eapply hipparcosLoop_all; eauto. }
  assert (allObjects P (addPleiades s4)) as A5.
  { intros r o. unfold addPleiades.
    destruct (pleiades s4); [|apply A4]. fields. apply A4. }
  unfold processNgcData in H6.
  destruct (ngcDataLoop _ _) as [st'|] eqn:E; [|done]. injection H6 as <-.
  eapply ngcDataLoop_all; [done|exact E|]. cbn [snd].
  intros r o. rewrite ngcNames_frame. fields. apply A5.
Qed.

Lemma wellCoded_stable : stable wellCoded.
Proof.
  constructor.
  - intros l. destruct (fk5Star_shape l) as (_ & H1 & H2 & _). by split.
  - intros l. split; cbn; intros ? ?; done.
  - intros l v. split; cbn; intros ? ?; done.
  - intros o v H. exact H.
  - intros o f b i c Hb Hc _. split; cbn; intros ? [= <-]; done.
  - intros o nm H. exact H.
  - intros o v ra de pra pde H. exact H.
  - intros n v ra de pra pde. split; cbn; intros ? ?; done.
  - intros l info p c. split; [intros ? ?; done|].
    intros x Hx.
    pose proof (constellation_range (JsString.toLowerCase c)) as Hr.
    assert (Some (JsString.indexOf (JsString.toLowerCase c)
                    constellationCodes + 1) = Some x) as E by exact Hx.
    set (j := JsString.indexOf _ _) in *. clearbody j.
    injection E as <-. exact Hr.
Qed.

Lemma located_stable : stable located.
Proof.
  constructor.
  - intros l. unfold fk5Star. destruct (fk5Designation l) as [[[fl br] si] c].
    repeat split; cbn; eauto.
  - intros l. unfold fk5Star. destruct (fk5Designation l) as [[[fl br] si] c].
    repeat split; cbn; eauto.
  - intros l v. repeat split; cbn; eauto.
  - intros o v H. exact H.
  - intros o f b i c _ _ H. exact H.
  - intros o nm H. exact H.
  - intros o v ra de pra pde _. repeat split; cbn; eauto.
  - intros n v ra de pra pde. repeat split; cbn; eauto.
  - intros l info p c. repeat split; cbn; eauto.
Qed.

(** X13.  The designation the primary loader stores for a line: the
    Flamsteed number is always defined; a Bayer rank is 0 to 24 and a
    constellation code 0 to 88; Flamsteed number and Bayer rank are never
    both different from 0; a sub-index other than 0 comes with a Bayer
    rank above 0; a Flamsteed number or Bayer rank other than 0 comes
    with a constellation code above 0; and the code 0 comes with
    Flamsteed number, Bayer rank and sub-index all 0. *)
Theorem primary_designation_shape (l : FK5Line) :
  let o := fk5Star l in
  is_Some (flamsteed o) ∧
  (∀ b, bayerRank o = Some b → 0 ≤ b ≤ 24) ∧
  (∀ c, constellation o = Some c → 0 ≤ c ≤ 88) ∧
  (∀ f b, flamsteed o = Some f → bayerRank o = Some b → f = 0 ∨ b = 0) ∧
  (∀ i, subIndex o = Some i → i ≠ 0 → ∃ b, bayerRank o = Some b ∧ 0 < b) ∧
  (∀ f, flamsteed o = Some f → f ≠ 0 →
        ∃ c, constellation o = Some c ∧ 0 < c) ∧
  (∀ b, bayerRank o = Some b → b ≠ 0 →
        ∃ c, constellation o = Some c ∧ 0 < c) ∧
  (constellation o = Some 0 →
   flamsteed o = Some 0 ∧ bayerRank o = Some 0 ∧ subIndex o = Some 0).
Proof. exact (fk5Star_shape l). Qed.

(** X14.  In the registry of a completed run every record has a position
    and a magnitude, its Bayer rank, when defined, is 0 to 24 and its
    constellation code, when defined, is 0 to 88: the designation bytes
    the writer emits are 0 or positions in the two tables, and the
    position and magnitude it emits are never undefined. *)
Theorem records_located_and_coded (src : Sources) (s : State) :
  pipeline src = Some s →
  ∀ k o, starAt s k = Some o → located o ∧ wellCoded o.
Proof.
  intros H k o. unfold starAt.
  destruct (fk5Index s !! k) as [r|]; [|done]. cbn [mbind option_bind].
  intros Ho. split.
  - by eapply (pipeline_all located src s located_stable H).
  - by eapply (pipeline_all wellCoded src s wellCoded_stable H).
Qed.


(** ** The records added by the bright-star stage *)

Lemma starAt_evolves (R : StarInfo → StarInfo → Prop) (s s' : State)
      (k : Z) (o : StarInfo) :
  fk5Index s ⊆ fk5Index s' → evolves R s s' →
  starAt s k = Some o → ∃ o', starAt s' k = Some o' ∧ R o o'.
Proof.
  intros S E. unfold starAt.
  destruct (fk5Index s !! k) as [r|] eqn:Er; [|done].
  cbn [mbind option_bind]. intros Ho.
  rewrite (lookup_weaken _ _ _ _ Er S). cbn [mbind option_bind].
  by apply E.
Qed.

Lemma mergeLine_new (s : State) (l : BSCLine) :
  Layout s → totalHIP s = 0 → totalDSO s = 0 →
  top (mergeLine s l) = top s ∨
  (top (mergeLine s l) = top s + 1 ∧
   ∃ v o,
     bsc_blank l = false ∧ bsc_vmag l = Some v ∧
     brightEnough v (bsc_bscNum l) (bscBayerRank (bsc_name l)) = true ∧
     starAt (mergeLine s l) (top s + 1) = Some o ∧
     sameButDesignation (bscStar l v) o ∧
     bscNum o = Some (bsc_bscNum l)).
Proof.
  intros L HH HD. unfold mergeLine.
  destruct (bsc_blank l) eqn:Hb; [by left|].
  destruct (bsc2fk5 s !! bsc_bscNum l) as [carried|]; [|by left].
  destruct (bsc_vmag l) as [v|] eqn:Hv; [|by left].
  destruct (brightEnough _ _ _) eqn:Hbr; cbn [andb];
    [destruct (unmatched _ _)|].
  - right.
    pose proof (addBscStar_frame s l v) as F. cbv zeta in F.
    destruct (addBscStar s l v) as [k s1]. cbn [fst snd] in F.
    destruct F as (-> & EI & EH & _ & _ & ED & _ & _ & _ & ES & _).
    set (k := highestFK5 s + (addedStars s + 1)) in *.
    assert (top s + 1 = k) as Ek.
    { destruct L. unfold top, k. lia. }
    assert (0 < k) as Hk.
    { pose proof (top_ge_first s L). destruct L. lia. }
    assert (fk5Index s1 !! k = Some (length (heap s))) as Hr
      by (rewrite EI; apply lookup_insert_eq).
    assert (heap s1 !! length (heap s) = Some (bscStar l v)) as Ho
      by (rewrite EH; apply heap_alloc_lookup).
    destruct (annotateBsc_frame s1 l k)
      as (EI2 & _ & _ & _ & ED2 & _ & _ & _ & ES2 & _).
    destruct (annotateBsc_evolves sameButDesignation s1 l k
                sameButDesignation_closed _ _ Ho) as (o & Ho1 & R1).
    destruct (annotateBsc_target s1 l k _ _ Hk Hr Ho) as (o' & Ho2 & N2).
    rewrite Ho1 in Ho2. injection Ho2 as <-.
    split; [unfold top in *; lia|].
    exists v, o. rewrite Ek.
    split; [done|]. split; [done|]. split; [done|].
    split; [|done]. unfold starAt. rewrite EI2, Hr. exact Ho1.
  - left. destruct (annotateBsc_frame s l (resolvedFK5 s l carried))
      as (_ & _ & _ & _ & ED2 & _ & _ & _ & ES2 & _).
    unfold top. lia.
  - left. destruct (annotateBsc_frame s l (resolvedFK5 s l carried))
      as (_ & _ & _ & _ & ED2 & _ & _ & _ & ES2 & _).
    unfold top. lia.
Qed.

Lemma fromCatalogLine_closed (lines : list BSCLine) :
  bscClosed (λ o o', fromCatalogLine lines o → fromCatalogLine lines o').
Proof.
  pose proof sameButDesignation_closed as [HR HT Hn Hd].
  constructor; [auto|auto|..].
  - intros o v (l & m & Hl & Hb & Hv & Hbr & R & N).
    exists l, m. split; [done|]. split; [done|]. split; [done|]. split; [done|].
    split; [|cbn; eauto].
    eapply HT; [exact R|apply Hn].
  - intros o f b i c Hb' Hc' (l & m & Hl & Hb & Hv & Hbr & R & N).
    exists l, m. split; [done|]. split; [done|]. split; [done|]. split; [done|].
    split; [|exact N].
    eapply HT; [exact R|by apply Hd].
Qed.

Lemma mergeLines_records (lines ls : list BSCLine) (t : Z) :
  ∀ s : State,
    Layout s → totalHIP s = 0 → totalDSO s = 0 →
    (∀ l, l ∈ ls → l ∈ lines) →
    recordsAbove (fromCatalogLine lines) t s →
    recordsAbove (fromCatalogLine lines) t (fold_left mergeLine ls s).
Proof.
  induction ls as [|l ls IH]; intros s L HH HD Hin N; cbn [fold_left];
    [done|].
  destruct (mergeLine_layout s l L HH HD) as (L1 & H1 & D1 & _).
  apply IH; [done..|intros l' Hl'; apply Hin; by right|].
  destruct (mergeLine_objects _ s l (fromCatalogLine_closed lines) L HH HD)
    as [S1 E1].
  intros k Hk.
  destruct (decide (k ≤ top s)) as [Hle|Hgt].
  - destruct (N k ltac:(lia)) as (o & Ho & Q).
    destruct (starAt_evolves _ s (mergeLine s l) k o S1 E1 Ho)
      as (o' & Ho' & HQ).
    exists o'. split; [done|by apply HQ].
  - destruct (mergeLine_new s l L HH HD)
      as [Et|(Et & v & o & Hb & Hv & Hbr & Ho & R & Nb)]; [lia|].
    assert (k = top s + 1) as -> by lia.
    exists o. split; [done|]. exists l, v.
    split; [apply Hin; by left|].
    split; [done|]. split; [done|]. split; [done|].
    split; [done|]. rewrite Nb. eauto.
Qed.

Lemma brightStarBlock_interval (src : Sources) (k : Z) :
  k ∈ brightStarBlock src ↔
  highestFK5 (afterCrossIndex src) < k ≤ top (afterBsc src).
Proof.
  pose proof (processCrossIndex_primary (crossIndex src) initialState
                initial_primary) as P.
  fold (afterCrossIndex src) in P.
  destruct (bsc_stage (afterCrossIndex src) (bscCatalog src))
    as (L2 & _ & _ & X2); [by apply primary_layout|apply P..|].
  fold (afterBsc src) in *.
  unfold brightStarBlock. rewrite elem_of_difference.
  rewrite (keys_char (afterCrossIndex src) (afterBsc src) k P L2 X2).
  split.
  - intros [[Hk|Hk] Hn]; [done|lia].
  - intros Hk. split; [by right|].
    unfold keys. rewrite elem_of_dom. intros Hs.
    apply (pri_keys _ P) in Hs. lia.
Qed.

Lemma brightStarBlock_records (src : Sources) (k : Z) :
  k ∈ brightStarBlock src →
  ∃ o, starAt (afterBsc src) k = Some o ∧
       fromCatalogLine (bscCatalog src) o.
Proof.
  intros Hk. apply brightStarBlock_interval in Hk.
  pose proof (processCrossIndex_primary (crossIndex src) initialState
                initial_primary) as P.
  fold (afterCrossIndex src) in P.
  unfold afterBsc, processYaleBrightStarCatalog in *.
  pose proof (scanLines_same (bscCatalog src) (afterCrossIndex src)) as S.
  set (s0 := snd (scanLines (afterCrossIndex src) (bscCatalog src))) in *.
  assert (Layout s0) as L0
    by (eapply Layout_same; [done|by apply primary_layout]).
  destruct S as (_ & _ & _ & E4 & E5 & E6 & _ & _ & E9 & _).
  apply (mergeLines_records (bscCatalog src) (bscCatalog src)
           (highestFK5 (afterCrossIndex src)) s0 L0).
  - rewrite E4. apply P.
  - rewrite E5. apply P.
  - done.
  - intros k' Hk'. unfold top in Hk'. rewrite E9, E5 in Hk'.
    destruct P as [_ P2 _ _ _ P6 _ _ _ _]. lia.
  - exact Hk.
Qed.

(** X15.  Every record of the bright-star block was added for a line of
    the bright-star catalog that is not blank, has a magnitude and passes
    the inclusion test on magnitude, legacy list and Bayer rank; the
    record carries a bright-star number, and its position, proper motion
    and magnitude are those computed from that line. *)
Theorem bright_star_block_rule (src : Sources) (k : Z) :
  k ∈ brightStarBlock src →
  ∃ o, starAt (afterBsc src) k = Some o ∧
       fromCatalogLine (bscCatalog src) o.
Proof. exact (brightStarBlock_records src k). Qed.


(** ** The records added by the astrometry stage *)

Lemma hipparcosLine_new (s : State) (l : HIPLine) (f : Flow) :
  hipparcosLine s l = Some f →
  Layout s → totalDSO s = 0 →
  top (flowState f) = top s ∨
  (top (flowState f) = top s + 1 ∧
   ∃ v ra de pra pde,
     hip_isData l = true ∧ hip_hipNum l ≠ 0 ∧
     hip_vmag l = Some v ∧ hip_ra l = Some ra ∧ hip_de l = Some de ∧
     hip_pmRA l = Some pra ∧ hip_pmDE l = Some pde ∧
     (v <= magLimitHipparcos)%Q ∧
     starAt (flowState f) (top s + 1)
     = Some (hipStar (hip_hipNum l) v ra de pra pde)).
Proof.
  intros H L HD. unfold hipparcosLine in H.
  destruct (hip_isData l) eqn:Hdata; cbn [negb] in H;
    [|injection H as <-; by left].
  destruct (Z.eqb_spec (hip_hipNum l) 0) as [|Hn];
    [injection H as <-; by left|].
  destruct (hip_ra l) as [ra|]; [|injection H as <-; by left].
  destruct (hip_de l) as [de|]; [|injection H as <-; by left].
  destruct (hip_vmag l) as [v|]; [|injection H as <-; by left].
  destruct (hip_pmRA l) as [pra|]; [|injection H as <-; by left].
  destruct (hip_pmDE l) as [pde|]; [|injection H as <-; by left].
  cbn zeta in H.
  destruct (0 <? _).
  { destruct (fk5Index s !! _) as [r|]; [|done]. cbn in H.
    destruct (heap s !! r); [|done]. cbn in H.
    injection H as <-. by left. }
  destruct (0 <? _).
  { destruct (bscIndex s !! _) as [r|]; [|done]. cbn in H.
    destruct (heap s !! r); [|done]. cbn in H.
    injection H as <-. by left. }
  destruct (Qgtb v magLimitHipparcos) eqn:Hg; [injection H as <-; by left|].
  injection H as <-. right. cbn [flowState]. unfold addHipStar.
  assert (top s + 1 = highestFK5 s + (addedStars s + 1)) as Ek
    by (destruct L; unfold top; lia).
  split; [unfold top in *; fields; lia|].
  exists v, ra, de, pra, pde.
  repeat (split; [done|]). split.
  - unfold Qgtb in Hg. apply negb_false_iff in Hg. by apply Qle_bool_iff.
  - unfold starAt. fields. rewrite Ek, lookup_insert_eq. cbn.
    apply heap_alloc_lookup.
Qed.

Lemma hipparcosLoop_records (lines ls : list HIPLine) (t : Z) :
  ∀ s s' : State,
    hipparcosLoop s ls = Some s' →
    Layout s → totalDSO s = 0 →
    (∀ l, l ∈ ls → l ∈ lines) →
    recordsAbove (fromHipRow lines) t s →
    recordsAbove (fromHipRow lines) t s'.
Proof.
  induction ls as [|l ls IH]; intros s s' H L HD Hin N; cbn in H.
  - by injection H as <-.
  - destruct (hipparcosLine s l) as [f|] eqn:E; [|done].
    destruct (hipparcosLine_layout s l f E L HD) as (L1 & D1 & _).
    destruct (hipparcosLine_objects s l f E L HD) as (S1 & E1 & _).
    assert (recordsAbove (fromHipRow lines) t (flowState f)) as N1.
    { intros k Hk. destruct (decide (k ≤ top s)) as [Hle|Hgt].
      - destruct (N k ltac:(lia)) as (o & Ho & Q).
        destruct (starAt_evolves _ s (flowState f) k o S1 E1 Ho)
          as (o' & Ho' & R).
        exists o'. split; [done|].
        destruct Q as (l0 & v & ra & de & pra & pde & Q).
        exists l0, v, ra, de, pra, pde.
        destruct Q as (?&?&?&?&?&?&?&?&?&R0).
        repeat (split; [done|]). by eapply refinedBy_trans.
      - destruct (hipparcosLine_new s l f E L HD)
          as [Et|(Et & v & ra & de & pra & pde & Q)]; [lia|].
        assert (k = top s + 1) as -> by lia.
        destruct Q as (?&?&?&?&?&?&?&?&Ho).
        eexists. split; [exact Ho|].
        exists l, v, ra, de, pra, pde.
        split; [apply Hin; by left|]. repeat (split; [done|]).
        apply refinedBy_refl. }
    destruct f as [s1|s1]; cbn [flowState] in *.
    + apply (IH s1 s' H L1 D1); [|done]. intros l' Hl'. apply Hin. by right.
    + by injection H as <-.
Qed.

Lemma astrometryBlock_records (src : Sources) (k : Z) :
  k ∈ astrometryBlock src →
  ∃ s4 o,
    afterHipparcosLoop src = Some s4 ∧ starAt s4 k = Some o ∧
    fromHipRow (hipparcosData src) o ∧
    (∃ n, hipNum o = Some n ∧ n ≠ 0) ∧
    (fk5Num o, bscNum o, name o) = (None, None, None) ∧
    ∃ m, vmag o = Some m ∧ (m <= magLimitHipparcos)%Q.
Proof.
  unfold astrometryBlock, afterHipparcosLoop.
  destruct (afterNotes src) as [s3|] eqn:H3; cbn [mbind option_bind].
  2: { cbn [keysOf from_option]. intros [Hk _]%elem_of_difference.
       by apply not_elem_of_empty in Hk. }
  destruct (hipparcosLoop s3 (hipparcosData src)) as [s4|] eqn:H4.
  2: { cbn [keysOf from_option]. intros [Hk _]%elem_of_difference.
       by apply not_elem_of_empty in Hk. }
  cbn [keysOf from_option]. intros [Hk4 Hk3]%elem_of_difference.
  destruct (afterNotes_layout src s3 H3) as (P & L2 & X2 & S3 & L3 & _ & D3).
  destruct (hip_loop_stage _ _ _ H4 L3 D3) as (L4 & _ & _ & X4).
  assert (extends (afterCrossIndex src) s3) as X3
    by (eapply extends_trans; [done|by apply extends_same]).
  assert (extends (afterCrossIndex src) s4) as X14
    by by eapply extends_trans.
  rewrite (keys_char _ s4 k P L4 X14) in Hk4.
  rewrite (keys_char _ s3 k P L3 X3) in Hk3.
  assert (top s3 < k ≤ top s4) as Hk.
  { destruct Hk4 as [Hk4|Hk4]; [exfalso; apply Hk3; by left|].
    split; [|lia].
    destruct (decide (k ≤ top s3)); [|lia]. exfalso. apply Hk3. right. lia. }
  assert (recordsAbove (fromHipRow (hipparcosData src)) (top s3) s4) as N4.
  { apply (hipparcosLoop_records (hipparcosData src) (hipparcosData src)
             (top s3) s3 s4 H4 L3 D3); [done|].
    intros k' Hk'. lia. }
  destruct (N4 k Hk) as (o & Ho & Q).
  exists s4, o. split; [done|]. split; [done|]. split; [done|].
  destruct Q as (l & v & ra & de & pra & pde & _ & _ & Hn & _ & _ & _ & _ & _
                 & Hv & Eo & Hm).
  destruct (Hm (Qmin v v)) as (m & Em & Hle); [done|].
  destruct o. cbn in *. injection Eo as -> -> -> -> -> -> -> -> -> ->.
  split; [eauto|]. split; [done|].
  exists m. split; [done|].
  eapply Qle_trans; [exact Hle|]. eapply Qle_trans; [|exact Hv].
  apply Qmin_cases.
Qed.

(** X16.  Every record of the astrometry block was created for a data row
    of the Hipparcos table that has a Hipparcos number, all five
    measurements and a magnitude up to 6.25; the record carries that
    Hipparcos number, has no FK5 number, bright-star number or name, and
    its magnitude is at most 6.25. *)
Theorem astrometry_block_rule (src : Sources) (k : Z) :
  k ∈ astrometryBlock src →
  ∃ s4 o,
    afterHipparcosLoop src = Some s4 ∧ starAt s4 k = Some o ∧
    fromHipRow (hipparcosData src) o ∧
    (∃ n, hipNum o = Some n ∧ n ≠ 0) ∧
    (fk5Num o, bscNum o, name o) = (None, None, None) ∧
    ∃ m, vmag o = Some m ∧ (m <= magLimitHipparcos)%Q.
Proof. exact (astrometryBlock_records src k). Qed.


(** ** Records followed to the end of the run *)

Lemma sameButName_ids (o o' : StarInfo) :
  sameButName o o' →
  (fk5Num o', bscNum o', hipNum o') = (fk5Num o, bscNum o, hipNum o).
Proof. unfold sameButName. destruct o, o'. cbn. by intros [= -> -> -> _]. Qed.

Lemma refinedBy_ids (o o' : StarInfo) :
  refinedBy o o' →
  (fk5Num o', bscNum o', hipNum o') = (fk5Num o, bscNum o, hipNum o).
Proof. intros [E _]. destruct o, o'. cbn in *. by injection E as -> -> -> _. Qed.

(** A record present after the astrometry loop is the record of the same
    key at the end of the run. *)
Lemma after_hip_tracks (src : Sources) (s s4 : State) (k : Z)
      (o : StarInfo) :
  pipeline src = Some s → afterHipparcosLoop src = Some s4 →
  starAt s4 k = Some o → starAt s k = Some o.
Proof.
  intros H H4 Ho.
  destruct (pipeline_layout src s H)
    as (s3 & s4' & _ & E4 & _ & _ & _ & L4 & _ & _ & _ & _ & _ & _ & _ & _
        & _ & L5 & _).
  rewrite H4 in E4. injection E4 as <-.
  destruct (pipeline_stages src s H) as (? & s4' & _ & E4 & _ & _ & H6).
  rewrite H4 in E4. injection E4 as <-.
  destruct (addPleiades_objects s4 L4) as (S5 & EH & _).
  unfold processNgcData in H6.
  destruct (ngcDataLoop _ _) as [st'|] eqn:E; [|done]. injection H6 as <-.
  destruct (ngcDataLoop_records (λ _, True) (top (processNgcNames
              (addPleiades s4) (ngcNames src)))
              (ngcData src) _ st' E L5) as (_ & S6 & [added A] & _).
  { intros k' Hk'. cbn [snd] in Hk'. lia. }
  { done. }
  cbn [snd] in *. rewrite ngcNames_frame in S6, A. fields.
  unfold starAt in *.
  destruct (fk5Index s4 !! k) as [r|] eqn:Er; [|done].
  cbn [mbind option_bind] in Ho.
  rewrite (lookup_weaken _ _ _ _ (lookup_weaken _ _ _ _ Er S5) S6).
  cbn [mbind option_bind]. rewrite A. apply lookup_app_l_Some.
  by rewrite EH.
Qed.

(** A record present after the bright-star stage is found under the same
    key at the end of the run, with the same identifiers. *)
Lemma after_bsc_tracks (src : Sources) (s : State) (k : Z) (o2 : StarInfo) :
  pipeline src = Some s → starAt (afterBsc src) k = Some o2 →
  ∃ o, starAt s k = Some o ∧
       (fk5Num o, bscNum o, hipNum o) = (fk5Num o2, bscNum o2, hipNum o2).
Proof.
  intros H Ho2.
  destruct (pipeline_stages src s H) as (s3 & s4 & H3 & H4 & _).
  destruct (notes_objects _ _ _ H3) as [F3 E3].
  destruct (afterNotes_layout src s3 H3) as (_ & _ & _ & _ & L3 & _ & D3).
  assert (hipparcosLoop s3 (hipparcosData src) = Some s4) as H4'.
  { unfold afterHipparcosLoop in H4. by rewrite H3 in H4. }
  destruct (hipparcosLoop_objects _ _ _ H4' L3 D3) as (S4 & E4 & _).
  destruct (starAt_evolves sameButName (afterBsc src) s3 k o2) as (o3 & Ho3 & R3);
    [by rewrite F3|done..|].
  destruct (starAt_evolves refinedBy s3 s4 k o3 S4 E4 Ho3) as (o & Ho & R4).
  exists o. split; [by eapply after_hip_tracks|].
  rewrite (refinedBy_ids _ _ R4). by apply sameButName_ids.
Qed.

Lemma fk5Star_fk5Num (l : FK5Line) : fk5Num (fk5Star l) = Some (fk5_fk5Num l).
Proof. unfold fk5Star. by destruct (fk5Designation l) as [[[fl br] si] c]. Qed.

Lemma primary_record_number (src : Sources) (k : Z) :
  k ∈ primaryBlock src →
  ∃ o1, starAt (afterCrossIndex src) k = Some o1 ∧ fk5Num o1 = Some k.
Proof.
  unfold primaryBlock, keys. intros [r Hr]%elem_of_dom.
  pose proof (processCrossIndex_primary (crossIndex src) initialState
                initial_primary) as P.
  fold (afterCrossIndex src) in P.
  destruct (lookup_lt_is_Some_2 _ _ (pri_heap _ P k r Hr)) as [o1 Ho1].
  exists o1.
  assert (starAt (afterCrossIndex src) k = Some o1) as E
    by (unfold starAt; by rewrite Hr).
  split; [done|].
  destruct (processCrossIndex_lookup (crossIndex src) initialState k 0
              initial_primary) as [E1 _].
  fold (afterCrossIndex src) in E1. rewrite E in E1.
  destruct (last (List.filter (assignsKey k) (crossIndex src)))
    as [l|] eqn:El; [|done].
  injection E1 as ->.
  apply last_Some in El as [pre El].
  assert (In l (List.filter (assignsKey k) (crossIndex src))) as Hin
    by (rewrite El; apply in_or_app; right; by left).
  apply List.filter_In in Hin as [_ Ha].
  unfold assignsKey in Ha. apply andb_true_iff in Ha as [_ Ha].
  apply Z.eqb_eq in Ha. by rewrite fk5Star_fk5Num, Ha.
Qed.

Lemma trailers (src : Sources) (s : State) (k : Z) (o : StarInfo) :
  pipeline src = Some s → starAt s k = Some o →
  (k ∈ primaryBlock src → fk5Num o = Some k ∧ trailerOps s k o = []) ∧
  (k ∈ brightStarBlock src →
   ∃ b, bscNum o = Some b ∧ trailerOps s k o = [writeUInt16 (Some b)]) ∧
  (k ∈ astrometryBlock src →
   ∃ n, hipNum o = Some n ∧ n ≠ 0 ∧
        trailerOps s k o
        = if 0 <? totalBSC s
          then [writeUInt8 (Some (n / 65536));
                writeUInt16 (Some (Z.land n 65535))]
          else [writeUInt16 None]) ∧
  (k ∈ deepSkyBlock src →
   trailerOps s k o = [writeInt16 (ngcIcNum o); writeUInt8 (messierNum o)]).
Proof.
  intros H Ho.
  destruct (block_intervals src s H)
    as (B0 & H0 & D0 & I1 & I2 & I3 & I4 & _).
  destruct (pipeline_layout src s H)
    as (s3 & s4 & _ & E4 & _ & _ & _ & _ & L & _).
  pose proof (lay_added s L) as LA. pose proof (lay_star s L) as LS.
  pose proof (lay_bsc s L) as LB. pose proof (lay_first s L) as LF.
  unfold trailerOps.
  split; [|split; [|split]].
  - intros Hk. pose proof (I1 k Hk) as Hle. split.
    + destruct (primary_record_number src k Hk) as (o1 & Ho1 & N1).
      destruct (bsc_stage_objects sameButDesignation (afterCrossIndex src)
                  (bscCatalog src) sameButDesignation_closed)
        as [S2 E2].
      { apply primary_layout.
        apply processCrossIndex_primary, initial_primary. }
      { apply processCrossIndex_primary, initial_primary. }
      { apply processCrossIndex_primary, initial_primary. }
      fold (afterBsc src) in S2, E2.
      destruct (starAt_evolves _ _ _ k o1 S2 E2 Ho1) as (o2 & Ho2 & R2).
      destruct (after_bsc_tracks src s k o2 H Ho2) as (o' & Ho' & Ids).
      rewrite Ho in Ho'. injection Ho' as <-.
      injection Ids as -> _ _. destruct R2 as ([= -> _ _ _ _] & _). done.
    + destruct (Z.ltb_spec (highestStar s) k); [lia|].
      destruct (Z.ltb_spec 0 (highestBSC s)); cbn [andb].
      * destruct (Z.ltb_spec (highestBSC s) k).
        { destruct (Z.ltb_spec 0 (totalBSC s)); lia. }
        destruct (Z.ltb_spec (highestFK5 s) k); [lia|done].
      * destruct (Z.ltb_spec (highestFK5 s) k); [lia|done].
  - intros Hk. pose proof (proj1 (I2 k) Hk) as Hi.
    destruct (brightStarBlock_records src k Hk)
      as (o2 & Ho2 & l & v & _ & _ & _ & _ & _ & [b Hb]).
    destruct (after_bsc_tracks src s k o2 H Ho2) as (o' & Ho' & Ids).
    rewrite Ho in Ho'. injection Ho' as <-.
    injection Ids as _ -> _. exists b. split; [done|]. rewrite Hb.
    destruct (Z.ltb_spec 0 (totalBSC s)); [|lia].
    destruct (Z.ltb_spec (highestStar s) k); [lia|].
    destruct (Z.ltb_spec 0 (highestBSC s)); [|lia]. cbn [andb].
    destruct (Z.ltb_spec (highestBSC s) k); [lia|].
    destruct (Z.ltb_spec (highestFK5 s) k); [done|lia].
  - intros Hk. pose proof (proj1 (I3 k) Hk) as Hi.
    destruct (astrometryBlock_records src k Hk)
      as (s4' & o4 & E4' & Ho4 & _ & (n & Hn & Hn0) & [= _ Hb _] & _).
    pose proof (after_hip_tracks src s s4' k o4 H E4' Ho4) as Ho'.
    rewrite Ho in Ho'. injection Ho' as <-.
    exists n. split; [done|]. split; [done|]. rewrite Hn, Hb.
    cbn [fmap option_fmap option_map from_option].
    destruct (Z.ltb_spec (highestStar s) k); [lia|].
    destruct (Z.ltb_spec 0 (totalBSC s)).
    + destruct (Z.ltb_spec 0 (highestBSC s)); [|lia]. cbn [andb].
      destruct (Z.ltb_spec (highestBSC s) k); [done|lia].
    + rewrite LB. cbn [Z.ltb andb].
      destruct (Z.ltb_spec (highestFK5 s) k); [done|lia].
  - intros Hk. pose proof (proj1 (I4 k) Hk) as Hi.
    destruct (Z.ltb_spec (highestStar s) k); [done|lia].
Qed.

(** X17.  What the writer appends to a record depends on the block of its
    key.  A record of the primary block carries its key as FK5 number and
    gets no trailer.  A record of the bright-star block gets its
    bright-star number, which is defined, as a 16-bit field.  A record of
    the astrometry block has a Hipparcos number other than 0, written as
    its high byte and its low 16 bits; when no bright star was added,
    however, it gets the 16-bit bright-star field instead, which is
    undefined for such a record.  A record of the deep-sky block gets its
    NGC/IC number as a signed 16-bit field and its Messier number as a
    byte. *)
Theorem trailer_by_block (src : Sources) (s : State) (k : Z) (o : StarInfo) :
  pipeline src = Some s → starAt s k = Some o →
  (k ∈ primaryBlock src → fk5Num o = Some k ∧ trailerOps s k o = []) ∧
  (k ∈ brightStarBlock src →
   ∃ b, bscNum o = Some b ∧ trailerOps s k o = [writeUInt16 (Some b)]) ∧
  (k ∈ astrometryBlock src →
   ∃ n, hipNum o = Some n ∧ n ≠ 0 ∧
        trailerOps s k o
        = if 0 <? totalBSC s
          then [writeUInt8 (Some (n / 65536));
                writeUInt16 (Some (Z.land n 65535))]
          else [writeUInt16 None]) ∧
  (k ∈ deepSkyBlock src →
   trailerOps s k o = [writeInt16 (ngcIcNum o); writeUInt8 (messierNum o)]).
Proof. exact (trailers src s k o). Qed.


(** ** The first scan on a run of lines with one name *)

Lemma rated_fields (l : BSCLine) :
  rated l = true → bsc_blank l = false ∧ ∃ m, bsc_vmag l = Some m.
Proof.
  unfold rated. intros [Hb Hv]%andb_true_iff. apply negb_true_iff in Hb.
  split; [done|]. destruct (bsc_vmag l); [eauto|done].
Qed.

Lemma isEmpty_false (x : string) :
  x ≠ EmptyString → JsString.isEmpty x = false.
Proof. by destruct x. Qed.

Lemma scan_run (nm : string) (p0 : Scan) (s0 : State) :
  JsString.trim nm ≠ EmptyString → lastName p0 ≠ nm →
  ∀ run : list BSCLine,
    run ≠ [] →
    (∀ l, l ∈ run → rated l = true ∧ bsc_name l = nm) →
    NoDup (bsc_bscNum <$> run) →
    let st := fold_left scanLine run (p0, s0) in
    lastName (fst st) = nm ∧
    ∃ w m,
      w ∈ run ∧ bsc_vmag w = Some m ∧
      lastBSC (fst st) = bsc_bscNum w ∧ lastMag (fst st) = m ∧
      (∀ l m', l ∈ run → bsc_vmag l = Some m' → (m <= m')%Q) ∧
      (∀ l, l ∈ run → bsc_bscNum l ≠ bsc_bscNum w →
            bsc2fk5 (snd st) !! bsc_bscNum l = None) ∧
      is_Some (bsc2fk5 (snd st) !! bsc_bscNum w).
Proof.
  intros Hnm Hp0 run. induction run as [|l run IH] using rev_ind; [done|].
  intros _ Hall Hnd. cbv zeta. rewrite fold_left_app. cbn [fold_left].
  destruct (Hall l) as [Hr Hn]; [apply elem_of_app; right; by left|].
  destruct (rated_fields l Hr) as [Hb [m Hm]].
  rewrite fmap_app in Hnd. apply NoDup_app in Hnd as (Hnd1 & Hnd2 & _).
  assert (∀ l', l' ∈ run → bsc_bscNum l' ≠ bsc_bscNum l) as Hfresh.
  { intros l' Hl' E. apply (Hnd2 (bsc_bscNum l')).
    - apply list_elem_of_fmap. by exists l'.
    - cbn. rewrite E. by left. }
  destruct (decide (run = [])) as [->|Hne].
  - cbn [fold_left]. rewrite (scanLine_rated p0 s0 l m Hb Hm). cbn zeta.
    assert (String.eqb (bsc_name l) (lastName p0) = false) as ->
      by (apply String.eqb_neq; congruence).
    cbn [andb fst snd lastName lastBSC lastMag]. split; [done|].
    exists l, m. split; [by left|]. split; [done|]. split; [done|].
    split; [done|]. split; [|split].
    + intros l' m' Hl'. apply list_elem_of_singleton in Hl' as ->.
      rewrite Hm. intros [= ->]. apply Qle_refl.
    + intros l' Hl'. apply list_elem_of_singleton in Hl' as ->. done.
    + fields. rewrite lookup_insert_eq. eauto.
  - destruct IH as (Hln & w & mw & Hw & Hmw & Hlb & Hlm & Hmin & Hnone & Hsome);
      [done|intros l' Hl'; apply Hall, elem_of_app; by left|done|].
    destruct (fold_left scanLine run (p0, s0)) as [p s]. cbn [fst snd] in *.
    rewrite (scanLine_rated p s l m Hb Hm). cbn zeta.
    rewrite Hn, Hln, String.eqb_refl, (isEmpty_false _ Hnm).
    cbn [negb andb].
    pose proof (Hfresh w Hw) as Hwl.
    destruct (Qgeb m (lastMag p)) eqn:Hg; cbn [fst snd];
      fields; cbn [lastName lastBSC lastMag].
    + split; [done|]. exists w, mw.
      split; [apply elem_of_app; by left|]. split; [done|].
      split; [done|]. split; [done|]. split; [|split].
      * intros l' m' [Hl'|Hl']%elem_of_app; [by apply Hmin|].
        apply list_elem_of_singleton in Hl' as ->.
        rewrite Hm. intros [= <-]. rewrite <- Hlm.
        unfold Qgeb in Hg. by apply Qle_bool_iff.
      * intros l' [Hl'|Hl']%elem_of_app Hne'.
        -- rewrite lookup_delete_ne by (intros E; by apply (Hfresh l')).
           rewrite lookup_insert_ne by (intros E; by apply (Hfresh l')).
           rewrite Hlb, lookup_insert_ne by done.
           rewrite lookup_insert_ne by (intros E; by apply (Hfresh l')).
           by apply Hnone.
        -- apply list_elem_of_singleton in Hl' as ->.
           apply lookup_delete_eq.
      * rewrite lookup_delete_ne by done.
        rewrite lookup_insert_ne by done.
        rewrite Hlb, lookup_insert_eq. eauto.
    + assert (m < lastMag p)%Q as Hlt.
      { apply Qnot_le_lt. intros Hle. unfold Qgeb in Hg.
        apply Qle_bool_iff in Hle. congruence. }
      split; [done|]. exists l, m.
      split; [apply elem_of_app; right; by left|]. split; [done|].
      split; [done|]. split; [done|]. split; [|split].
      * intros l' m' [Hl'|Hl']%elem_of_app.
        -- intros Hm'. apply Qlt_le_weak.
           eapply Qlt_le_trans; [exact Hlt|]. rewrite Hlm. by eapply Hmin.
        -- apply list_elem_of_singleton in Hl' as ->.
           rewrite Hm. intros [= <-]. apply Qle_refl.
      * intros l' [Hl'|Hl']%elem_of_app Hne'.
        -- destruct (decide (bsc_bscNum l' = bsc_bscNum w)) as [E|N].
           ++ rewrite Hlb, <- E. apply lookup_delete_eq.
           ++ rewrite Hlb, lookup_delete_ne by done.
              rewrite lookup_insert_ne by done.
              rewrite lookup_insert_ne by done.
              rewrite lookup_insert_ne by done.
              by apply Hnone.
        -- apply list_elem_of_singleton in Hl' as ->. done.
      * rewrite Hlb, lookup_delete_ne by done.
        rewrite lookup_insert_eq. eauto.
Qed.

(** X18.  When the first scan meets a run of consecutive non-blank lines
    with magnitudes that share one name, a name other than the one seen
    just before and not blank, and whose bright-star numbers are distinct,
    then after the run exactly one line of the run still has an entry in
    [bsc2fk5]: a line whose magnitude is the smallest of the run.  All
    other lines of the run have lost their entry. *)
Theorem scan_keeps_one_of_a_run
  (nm : string) (p0 : Scan) (s0 : State) (run : list BSCLine) :
  JsString.trim nm ≠ EmptyString → lastName p0 ≠ nm →
  run ≠ [] →
  (∀ l, l ∈ run → rated l = true ∧ bsc_name l = nm) →
  NoDup (bsc_bscNum <$> run) →
  let st := fold_left scanLine run (p0, s0) in
  ∃ w m,
    w ∈ run ∧ bsc_vmag w = Some m ∧
    (∀ l m', l ∈ run → bsc_vmag l = Some m' → (m <= m')%Q) ∧
    (∀ l, l ∈ run → bsc_bscNum l ≠ bsc_bscNum w →
          bsc2fk5 (snd st) !! bsc_bscNum l = None) ∧
    is_Some (bsc2fk5 (snd st) !! bsc_bscNum w).
Proof.
  intros Hnm Hp0 Hne Hall Hnd.
  destruct (scan_run nm p0 s0 Hnm Hp0 run Hne Hall Hnd)
    as (_ & w & m & Hw & Hm & _ & _ & Hmin & Hnone & Hsome).
  exists w, m. done.
Qed.


(** ** The synthetic M45 entry *)

Lemma crossIndexLine_heap (s : State) (l : FK5Line) :
  fk5_blank l = false →
  heap (crossIndexLine s l)
  = heap s ++ fk5Star l ::
      (if fk5_fk5Num l =? 139 then [pleiadesOf (fk5Star l)] else []) ∧
  pleiades (crossIndexLine s l)
  = if fk5_fk5Num l =? 139 then Some (S (length (heap s))) else pleiades s.
Proof.
  intros Hb. unfold crossIndexLine. rewrite Hb.
  destruct (fk5_hd l) as [hd|]; [destruct (0 <? hd)|];
    destruct (fk5_fk5Num l =? 139); fields;
    rewrite <- ?app_assoc, ?length_app; cbn [app length];
    (split; [done|]); try done; f_equal; lia.
Qed.

Lemma crossIndexLine_mirrors (s : State) (l : FK5Line) :
  Primary s → bscIndex s = ∅ →
  mirrorsAlcyone s → mirrorsAlcyone (crossIndexLine s l).
Proof.
  intros P EB M.
  destruct (fk5_blank l) eqn:Hb.
  { unfold crossIndexLine. by rewrite Hb. }
  destruct (crossIndexLine_fields s l Hb) as (_ & _ & EI & _).
  destruct (crossIndexLine_heap s l Hb) as [EH EP].
  pose proof (crossIndexLine_tables s l) as [= ET _ _ _].
  pose proof (crossIndexLine_lookup s l 139 P) as EL.
  unfold assignsKey in EL. rewrite Hb in EL. cbn [negb andb] in EL.
  unfold mirrorsAlcyone. rewrite EP.
  destruct (Z.eqb_spec (fk5_fk5Num l) 139) as [E|N].
  - split; [|exists (fk5Star l); split; [done|]].
    + split; [|split].
      * rewrite EH, length_app. cbn. lia.
      * intros k. rewrite EI. destruct (decide (fk5_fk5Num l = k)) as [<-|Nk].
        -- rewrite lookup_insert_eq. intros [= ?]. lia.
        -- rewrite lookup_insert_ne by done. intros Hk.
           pose proof (pri_heap s P k _ Hk). lia.
      * intros b. by rewrite ET, EB, lookup_empty.
    + rewrite EH. rewrite (lookup_app_r (heap s)) by lia.
      by replace (S (length (heap s)) - length (heap s))%nat with 1%nat by lia.
  - unfold mirrorsAlcyone in M. destruct (pleiades s) as [p|].
    + destruct M as ((Hp & HF & HB) & o & Ho & Hh).
      split; [|exists o; split; [congruence|]].
      * split; [|split].
        -- rewrite EH, length_app. lia.
        -- intros k. rewrite EI.
           destruct (decide (fk5_fk5Num l = k)) as [<-|Nk].
           ++ rewrite lookup_insert_eq. intros [= ?]. lia.
           ++ rewrite lookup_insert_ne by done. apply HF.
        -- intros b. by rewrite ET, EB, lookup_empty.
      * rewrite EH. by apply lookup_app_l_Some.
    + rewrite EI, lookup_insert_ne by done. exact M.
Qed.

Lemma crossIndex_mirrors (lines : list FK5Line) :
  ∀ s : State,
    Primary s → Linked s ∧ bscIndex s = ∅ ∧ hd2bsc s = ∅ →
    mirrorsAlcyone s → mirrorsAlcyone (processCrossIndex s lines).
Proof.
  unfold processCrossIndex.
  induction lines as [|l lines IH]; intros s P K M; [done|].
  cbn [fold_left]. apply IH.
  - by apply crossIndexLine_primary.
  - by apply crossIndexLine_linked.
  - apply crossIndexLine_mirrors; [done|apply K|done].
Qed.

Lemma update_apart (p r : nat) (f : StarInfo → StarInfo) (s : State) :
  Apart p s → (∃ k, fk5Index s !! k = Some r) ∨ (∃ b, bscIndex s !! b = Some r) →
  Apart p (update r f s) ∧ heap (update r f s) !! p = heap s !! p.
Proof.
  intros (Hp & HF & HB) Hr.
  assert (r ≠ p) as Hne.
  { intros ->. destruct Hr as [[k Hk]|[b Hb]]; [by apply (HF k)|by apply (HB b)]. }
  split.
  - split; [|done]. fields. by rewrite length_alter.
  - fields. by apply list_lookup_alter_ne.
Qed.

Lemma annotateBsc_apart (p : nat) (s : State) (l : BSCLine) (k : Z) :
  Apart p s →
  Apart p (annotateBsc s l k) ∧ heap (annotateBsc s l k) !! p = heap s !! p.
Proof.
  intros A. pose proof A as (Hp & HF & HB).
  destruct (annotateBsc_frame s l k) as (EI & EL & _).
  destruct (annotateBsc_tables s l k)
    as [->|(r & _ & Hr & _ & _ & EB & _)]; [done|].
  assert (r ≠ p) as Hne by (intros ->; by apply (HF k)).
  split.
  - split; [by rewrite EL|]. split; [by rewrite EI|].
    intros b. rewrite EB. destruct (decide (bsc_bscNum l = b)) as [<-|Nb].
    + rewrite lookup_insert_eq. congruence.
    + rewrite lookup_insert_ne by done. apply HB.
  - unfold annotateBsc.
    destruct (0 <? k); [|done]. rewrite Hr. cbn zeta.
    destruct (0 <? bsc_hd l); destruct (negb _); fields;
      by rewrite ?list_lookup_alter_ne by done.
Qed.

Lemma mergeLine_apart (p : nat) (s : State) (l : BSCLine) :
  Apart p s →
  Apart p (mergeLine s l) ∧ heap (mergeLine s l) !! p = heap s !! p ∧
  pleiades (mergeLine s l) = pleiades s.
Proof.
  intros A. pose proof A as (Hp & HF & HB). unfold mergeLine.
  destruct (bsc_blank l); [done|].
  destruct (bsc2fk5 s !! bsc_bscNum l) as [carried|]; [|done].
  destruct (bsc_vmag l) as [v|]; [|done].
  destruct (_ && _).
  - pose proof (addBscStar_frame s l v) as F. cbv zeta in F.
    assert (bscIndex (snd (addBscStar s l v)) = bscIndex s) as EB by done.
    destruct (addBscStar s l v) as [k s1]. cbn [fst snd] in F, EB.
    destruct F as (_ & EI & EH & _ & _ & _ & _ & _ & _ & _ & _ & EP).
    assert (Apart p s1) as A1.
    { split; [rewrite EH, length_app; lia|]. split; [|by rewrite EB].
      intros k'. rewrite EI.
      destruct (decide (highestFK5 s + (addedStars s + 1) = k')) as [<-|N].
      - rewrite lookup_insert_eq. intros [= ?]. lia.
      - rewrite lookup_insert_ne by done. apply HF. }
    destruct (annotateBsc_apart p s1 l k A1) as [A2 E2].
    destruct (annotateBsc_frame s1 l k)
      as (_ & _ & _ & _ & _ & _ & _ & _ & _ & _ & EP2).
    split; [done|]. split; [|congruence].
    rewrite E2, EH. by apply lookup_app_l.
  - destruct (annotateBsc_apart p s l (resolvedFK5 s l carried) A) as [A2 E2].
    destruct (annotateBsc_frame s l (resolvedFK5 s l carried))
      as (_ & _ & _ & _ & _ & _ & _ & _ & _ & _ & EP2).
    done.
Qed.

Lemma bsc_stage_apart (p : nat) (s : State) (lines : list BSCLine) :
  Apart p s →
  Apart p (processYaleBrightStarCatalog s lines) ∧
  heap (processYaleBrightStarCatalog s lines) !! p = heap s !! p ∧
  pleiades (processYaleBrightStarCatalog s lines) = pleiades s.
Proof.
  intros A. unfold processYaleBrightStarCatalog.
  pose proof (scanLines_frame lines s) as F.
  assert (Apart p (snd (scanLines s lines)) ∧
          heap (snd (scanLines s lines)) !! p = heap s !! p ∧
          pleiades (snd (scanLines s lines)) = pleiades s) as A0
    by (rewrite F; done).
  revert A0. generalize (snd (scanLines s lines)). clear F.
  induction lines as [|l lines IH]; intros s0 (A0 & E0 & P0); [done|].
  cbn [fold_left].
  destruct (mergeLine_apart p s0 l A0) as (A1 & E1 & P1).
  apply IH. split; [done|]. split; congruence.
Qed.

Lemma notes_apart (p : nat) (lines : list NoteLine) :
  ∀ s s' : State,
    processYaleBrightStarCatalogNotes s lines = Some s' →
    Apart p s →
    Apart p s' ∧ heap s' !! p = heap s !! p ∧ pleiades s' = pleiades s.
Proof.
  induction lines as [|l lines IH]; intros s s' H A; cbn in H.
  - by injection H as <-.
  - destruct (notesLine s l) as [s1|] eqn:E; [|done]. cbn in H.
    assert (Apart p s1 ∧ heap s1 !! p = heap s !! p ∧
            pleiades s1 = pleiades s) as (A1 & E1 & P1).
    { unfold notesLine in E.
      destruct (note_blank l); [by injection E as <-|].
      destruct (bool_decide _); [by injection E as <-|].
      destruct (negb _); [by injection E as <-|].
      destruct (notesName _) as [nm|]; [|by injection E as <-].
      destruct (bsc2fk5 s !! note_bscNum l) as [k|]; [|done]. cbn in E.
      destruct (fk5Index s !! k) as [r|] eqn:Er; [|done]. cbn in E.
      injection E as <-.
      destruct (update_apart p r (setName (Some (toMixedCase nm))) s A)
        as [? ?]; [left; eauto|done]. }
    destruct (IH s1 s' H A1) as (A2 & E2 & P2).
    split; [done|]. split; congruence.
Qed.

Lemma hipparcosLoop_apart (p : nat) (lines : list HIPLine) :
  ∀ s s' : State,
    hipparcosLoop s lines = Some s' →
    Apart p s →
    Apart p s' ∧ heap s' !! p = heap s !! p.
Proof.
  induction lines as [|l lines IH]; intros s s' H A; cbn in H.
  - by injection H as <-.
  - destruct (hipparcosLine s l) as [f|] eqn:E; [|done].
    assert (Apart p (flowState f) ∧ heap (flowState f) !! p = heap s !! p)
      as (A1 & E1).
    { pose proof A as (Hp & HF & HB).
      unfold hipparcosLine in E.
      destruct (negb _); [by injection E as <-|].
      destruct (_ =? _); [by injection E as <-|].
      destruct (hip_ra l) as [ra|]; [|by injection E as <-].
      destruct (hip_de l) as [de|]; [|by injection E as <-].
      destruct (hip_vmag l) as [v|]; [|by injection E as <-].
      destruct (hip_pmRA l) as [pra|]; [|by injection E as <-].
      destruct (hip_pmDE l) as [pde|]; [|by injection E as <-].
      cbn zeta in E.
      destruct (0 <? _).
      { destruct (fk5Index s !! _) as [r|] eqn:Er; [|done]. cbn in E.
        destruct (heap s !! r); [|done]. cbn in E.
        injection E as <-. apply update_apart; [done|left; eauto]. }
      destruct (0 <? _).
      { destruct (bscIndex s !! _) as [r|] eqn:Er; [|done]. cbn in E.
        destruct (heap s !! r); [|done]. cbn in E.
        injection E as <-. apply update_apart; [done|right; eauto]. }
      destruct (Qgtb _ _); [by injection E as <-|].
      injection E as <-. cbn [flowState]. unfold addHipStar, Apart. fields.
      split; [|by apply lookup_app_l].
      split; [rewrite length_app; lia|]. split; [|done].
      intros k.
      destruct (decide (highestFK5 s + (addedStars s + 1) = k)) as [<-|N].
      - rewrite lookup_insert_eq. intros [= ?]. lia.
      - rewrite lookup_insert_ne by done. apply HF. }
    destruct f as [s1|s1]; cbn [flowState] in *.
    + destruct (IH s1 s' H A1) as (A2 & E2). split; [done|congruence].
    + by injection H as <-.
Qed.


Lemma after_hipparcos_tracks (src : Sources) (s s4 : State) :
  pipeline src = Some s → afterHipparcosLoop src = Some s4 →
  (∀ k o, starAt (addPleiades s4) k = Some o → starAt s k = Some o) ∧
  recordsAbove (fromDataLine (ngcs s) (ngcData src))
               (top (addPleiades s4)) s.
Proof.
  intros H H4.
  destruct (pipeline_layout src s H)
    as (s3 & s4' & _ & E4 & _ & _ & _ & L4 & _ & _ & _ & _ & _ & _ & _ & _
        & _ & L5 & _).
  rewrite H4 in E4. injection E4 as <-.
  destruct (pipeline_stages src s H) as (? & s4' & _ & E4 & _ & _ & H6).
  rewrite H4 in E4. injection E4 as <-.
  unfold processNgcData in H6.
  destruct (ngcDataLoop _ _) as [st'|] eqn:E; [|done]. injection H6 as <-.
  set (s5 := processNgcNames (addPleiades s4) (ngcNames src)) in *.
  destruct (ngcDataLoop_records (fromDataLine (ngcs s5) (ngcData src))
              (top s5) (ngcData src) _ st' E L5)
    as (N & S6 & [added A] & [= _ _ _ _ En _]).
  { intros k' Hk'. cbn [snd] in Hk'. lia. }
  { intros l p c Hl Hd He Hr Hp Hc. exists l, p, c. done. }
  cbn [snd] in *.
  assert (top s5 = top (addPleiades s4)) as Et.
  { pose proof (ngcNames_same (ngcNames src) (addPleiades s4))
      as (_ & _ & _ & _ & E5 & _ & _ & _ & E9 & _).
    fold s5 in E5, E9. unfold top. by rewrite E5, E9. }
  split; [|by rewrite En, <- Et].
  subst s5. rewrite ngcNames_frame in S6, A. fields.
  intros k o Ho. unfold starAt in *.
  destruct (fk5Index (addPleiades s4) !! k) as [r|] eqn:Er; [|done].
  cbn [mbind option_bind] in Ho.
  rewrite (lookup_weaken _ _ _ _ Er S6).
  cbn [mbind option_bind]. rewrite A. by apply lookup_app_l_Some.
Qed.

Lemma bsc_stage_pleiades (s : State) (lines : list BSCLine) :
  pleiades (processYaleBrightStarCatalog s lines) = pleiades s.
Proof.
  unfold processYaleBrightStarCatalog.
  pose proof (scanLines_same lines s) as (_&_&_&_&_&_&_&_&_&_& <-).
  generalize (snd (scanLines s lines)).
  induction lines as [|l lines IH]; intros s0; [done|].
  cbn [fold_left]. rewrite IH. unfold mergeLine.
  destruct (bsc_blank l); [done|].
  destruct (bsc2fk5 s0 !! bsc_bscNum l) as [carried|]; [|done].
  destruct (bsc_vmag l) as [v|]; [|done].
  destruct (_ && _).
  - pose proof (addBscStar_frame s0 l v) as F. cbv zeta in F.
    destruct (addBscStar s0 l v) as [k s1]. cbn [fst snd] in F.
    destruct F as (_ & _ & _ & _ & _ & _ & _ & _ & _ & _ & _ & <-).
    apply annotateBsc_frame.
  - apply annotateBsc_frame.
Qed.

Lemma afterCrossIndex_mirrors (src : Sources) :
  mirrorsAlcyone (afterCrossIndex src).
Proof.
  apply crossIndex_mirrors.
  - apply initial_primary.
  - split; [apply initial_linked|done].
  - done.
Qed.

Lemma pleiades_placement (src : Sources) (s : State) :
  pipeline src = Some s →
  let first := highestFK5 s + totalBSC s + totalHIP s + 1 in
  match starAt (afterCrossIndex src) 139 with
  | Some alcyone =>
      starAt s first = Some (pleiadesOf alcyone) ∧
      recordsAbove (fromDataLine (ngcs s) (ngcData src)) first s
  | None =>
      recordsAbove (fromDataLine (ngcs s) (ngcData src)) (first - 1) s
  end.
Proof.
  intros H first.
  destruct (pipeline_layout src s H)
    as (s3 & s4 & H3 & H4 & _ & P1 & _ & L4 & _ & _ & _ & _ & _ & _ & T4
        & _).
  assert (hipparcosLoop s3 (hipparcosData src) = Some s4) as H4'.
  { unfold afterHipparcosLoop in H4. by rewrite H3 in H4. }
  destruct (afterNotes_layout src s3 H3) as (_ & _ & _ & _ & L3 & _ & D3).
  destruct (hip_loop_stage _ _ _ H4' L3 D3) as (_ & D4 & _).
  destruct (hipparcosLoop_objects _ _ _ H4' L3 D3)
    as (_ & _ & [= _ _ _ _ _ EP4]).
  pose proof (afterCrossIndex_mirrors src) as M. unfold mirrorsAlcyone in M.
  destruct (pleiades (afterCrossIndex src)) as [p|] eqn:Ep.
  - destruct M as (A1 & o1 & Ho1 & Hh1). rewrite Ho1.
    destruct (bsc_stage_apart p _ (bscCatalog src) A1) as (A2 & E2 & P2).
    fold (afterBsc src) in A2, E2, P2.
    destruct (notes_apart p _ _ _ H3 A2) as (A3 & E3 & P3).
    destruct (hipparcosLoop_apart p _ _ _ H4' A3) as (A4 & E4).
    assert (pleiades s4 = Some p) as Ep4 by congruence.
    assert (starAt (addPleiades s4) (top s4 + 1) = Some (pleiadesOf o1))
      as Ho.
    { unfold starAt, addPleiades. rewrite Ep4. fields.
      replace (highestStar s4 + (totalDSO s4 + 1)) with (top s4 + 1)
        by (unfold top; lia).
      rewrite lookup_insert_eq. cbn. congruence. }
    destruct (after_hipparcos_tracks src s s4 H H4) as [Hs N].
    apply Hs in Ho.
    assert (top (addPleiades s4) = top s4 + 1) as Et.
    { unfold addPleiades. rewrite Ep4. unfold top. fields. lia. }
    rewrite Et, T4 in N. rewrite T4 in Ho. done.
  - assert (starAt (afterCrossIndex src) 139 = None) as ->
      by (unfold starAt; by rewrite M).
    assert (pleiades s4 = None) as Ep4.
    { rewrite EP4.
      pose proof (notes_stage _ _ _ H3) as (_&_&_&_&_&_&_&_&_&_& ->).
      unfold afterBsc. by rewrite bsc_stage_pleiades. }
    destruct (after_hipparcos_tracks src s s4 H H4) as [_ N].
    assert (addPleiades s4 = s4) as Ea
      by (unfold addPleiades; by rewrite Ep4).
    rewrite Ea, T4 in N. unfold first.
    by replace (highestFK5 s + totalBSC s + totalHIP s + 1 - 1)
      with (highestFK5 s + totalBSC s + totalHIP s) by lia.
Qed.

(** X19.  When the primary catalog holds a record under key 139, the first
    key of the deep-sky block, right after the last star, holds the
    synthetic M45 entry: Messier number 45, the name Pleiades, magnitude
    1.6, and the position and proper motion that the primary loader
    stored for key 139, whatever the later stages did to that star; all
    further deep-sky records come from retained lines of the NGC data
    file.  Without a record under key 139 there is no such entry and
    every deep-sky record comes from a retained line. *)
Theorem pleiades_entry (src : Sources) (s : State) :
  pipeline src = Some s →
  let first := highestFK5 s + totalBSC s + totalHIP s + 1 in
  match starAt (afterCrossIndex src) 139 with
  | Some alcyone =>
      starAt s first = Some (pleiadesOf alcyone) ∧
      recordsAbove (fromDataLine (ngcs s) (ngcData src)) first s
  | None =>
      recordsAbove (fromDataLine (ngcs s) (ngcData src)) (first - 1) s
  end.
Proof. exact (pleiades_placement src s). Qed.


(** ** Where the astrometry loop stops *)

Lemma hipparcosLine_frame (s : State) (l : HIPLine) (f : Flow) :
  hipparcosLine s l = Some f →
  hd2fk5 (flowState f) = hd2fk5 s ∧ hd2bsc (flowState f) = hd2bsc s.
Proof.
  intros H. unfold hipparcosLine in H.
  destruct (negb _); [by injection H as <-|].
  destruct (_ =? _); [by injection H as <-|].
  destruct (hip_ra l) as [ra|]; [|by injection H as <-].
  destruct (hip_de l) as [de|]; [|by injection H as <-].
  destruct (hip_vmag l) as [v|]; [|by injection H as <-].
  destruct (hip_pmRA l) as [pra|]; [|by injection H as <-].
  destruct (hip_pmDE l) as [pde|]; [|by injection H as <-].
  cbn zeta in H.
  destruct (0 <? _).
  { destruct (fk5Index s !! _) as [r|]; [|done]. cbn in H.
    destruct (heap s !! r); [|done]. cbn in H. by injection H as <-. }
  destruct (0 <? _).
  { destruct (bscIndex s !! _) as [r|]; [|done]. cbn in H.
    destruct (heap s !! r); [|done]. cbn in H. by injection H as <-. }
  destruct (Qgtb _ _); by injection H as <-.
Qed.

Lemma hipparcosLine_break (s : State) (l : HIPLine) (ra de v pra pde : Q) :
  hip_isData l = true → hip_hipNum l ≠ 0 →
  hip_ra l = Some ra → hip_de l = Some de → hip_vmag l = Some v →
  hip_pmRA l = Some pra → hip_pmDE l = Some pde →
  (if 0 <? hip_hdNum l then default 0 (hd2fk5 s !! hip_hdNum l) else 0) ≤ 0 →
  (if 0 <? hip_hdNum l then default 0 (hd2bsc s !! hip_hdNum l) else 0) ≤ 0 →
  (magLimitHipparcos < v)%Q →
  hipparcosLine s l = Some (Break s).
Proof.
  intros Hd Hn Hra Hde Hv Hpra Hpde H1 H2 Hlt. unfold hipparcosLine.
  rewrite Hd, Hra, Hde, Hv, Hpra, Hpde. cbn [negb].
  apply Z.eqb_neq in Hn. rewrite Hn. cbn zeta.
  destruct (Z.ltb_spec 0 (if 0 <? hip_hdNum l
                          then default 0 (hd2fk5 s !! hip_hdNum l) else 0));
    [lia|].
  destruct (Z.ltb_spec 0 (if 0 <? hip_hdNum l
                          then default 0 (hd2bsc s !! hip_hdNum l) else 0));
    [lia|].
  apply Qgtb_lt in Hlt. by rewrite Hlt.
Qed.

(** X20.  The astrometry loop stops at the first complete data row that
    has a Hipparcos number, matches no star through its HD number and is
    fainter than 6.25: whatever rows follow it, matching or bright, have
    no effect on the result. *)
Theorem hipparcos_stops_at_faint_unmatched_row
  (s : State) (pre post : list HIPLine) (l : HIPLine)
  (ra de v pra pde : Q) :
  hip_isData l = true → hip_hipNum l ≠ 0 →
  hip_ra l = Some ra → hip_de l = Some de → hip_vmag l = Some v →
  hip_pmRA l = Some pra → hip_pmDE l = Some pde →
  (if 0 <? hip_hdNum l then default 0 (hd2fk5 s !! hip_hdNum l) else 0) ≤ 0 →
  (if 0 <? hip_hdNum l then default 0 (hd2bsc s !! hip_hdNum l) else 0) ≤ 0 →
  (magLimitHipparcos < v)%Q →
  hipparcosLoop s (pre ++ l :: post) = hipparcosLoop s pre ∧
  processHipparcosStarCatalog s (pre ++ l :: post)
  = processHipparcosStarCatalog s pre.
Proof.
  intros Hd Hn Hra Hde Hv Hpra Hpde H1 H2 Hlt.
  assert (hipparcosLoop s (pre ++ l :: post) = hipparcosLoop s pre) as E.
  { revert s H1 H2. induction pre as [|x pre IH]; intros s H1 H2.
    - cbn [app hipparcosLoop].
      by rewrite (hipparcosLine_break s l ra de v pra pde).
    - cbn [app hipparcosLoop].
      destruct (hipparcosLine s x) as [[s1|s1]|] eqn:Ex; [|done..].
      destruct (hipparcosLine_frame s x _ Ex) as [F1 F2].
      cbn [flowState] in F1, F2. apply IH; by rewrite ?F1, ?F2. }
  split; [exact E|]. unfold processHipparcosStarCatalog. by rewrite E.
Qed.

(** ** The inclusion test of the bright-star stage *)

(** X21.  The inclusion test on magnitude, legacy list and Bayer rank is
    monotone: a line that passes it still passes with a smaller
    magnitude, and with a better Bayer rank (a smaller one above 0). *)
Theorem inclusion_test_monotone (v v' : Q) (n r r' : Z) :
  (v' <= v)%Q → r' = r ∨ 0 < r' ≤ r →
  brightEnough v n r = true → brightEnough v' n r' = true.
Proof.
  intros Hv Hr. unfold brightEnough.
  assert (∀ x, Qleb v x = true → Qleb v' x = true) as Hq.
  { intros x Hx. destruct (Qleb_spec v x) as [Hle|]; [|done].
    destruct (Qleb_spec v' x) as [|Hn]; [done|].
    exfalso. apply Hn. by eapply Qle_trans. }
  rewrite !orb_true_iff, !andb_true_iff, !orb_true_iff, !andb_true_iff.
  rewrite !Z.ltb_lt.
  intros [[H1|H2]|(H3 & [[H4 H5]|[H4 H5]])]; auto;
    right; (split; [lia|]);
    (solve [left; split; [lia|auto]] || solve [right; split; [lia|auto]]).
Qed.


(** ** A bright star identified with a star of the primary catalog *)

Lemma annotateBsc_result (s : State) (l : BSCLine) (k : Z) (r : nat)
      (o : StarInfo) :
  0 < k → fk5Index s !! k = Some r → heap s !! r = Some o →
  heap (annotateBsc s l k) !! r
  = Some (if negb (JsString.isEmpty (JsString.trim (bsc_name l)))
          then setDesignation
                 (Some (bsc_flamsteedNum l))
                 (Some (bscBayerRank (bsc_name l)))
                 (Some (bsc_subIndex l))
                 (Some (JsString.indexOf
                          (JsString.toLowerCase
                             (JsString.substring 7 10 (bsc_name l)))
                          constellationCodes + 1))
                 (setBscNum (Some (bsc_bscNum l)) o)
          else setBscNum (Some (bsc_bscNum l)) o).
Proof.
  intros Hk Hr Ho. unfold annotateBsc.
  apply Z.ltb_lt in Hk. rewrite Hk, Hr. cbn zeta.
  destruct (0 <? bsc_hd l); destruct (negb _); fields;
    rewrite ?list_lookup_alter; repeat case_decide; try done;
    by rewrite Ho.
Qed.

Lemma mergeLine_identified (s : State) (l : BSCLine) (carried n : Z) (v : Q)
      (r : nat) :
  bsc_blank l = false → bsc2fk5 s !! bsc_bscNum l = Some carried →
  bsc_vmag l = Some v → bsc_fk5 l = Some n →
  0 < n ≤ highestFK5 s → fk5Index s !! n = Some r →
  mergeLine s l = annotateBsc s l n.
Proof.
  intros Hb Hc Hv Hf Hn Hr.
  assert (resolvedFK5 s l carried = n) as E1.
  { unfold resolvedFK5. rewrite Hf.
    destruct (Z.ltb_spec (highestFK5 s) n); [lia|done]. }
  assert (unmatched s n = false) as E2.
  { unfold unmatched, hasStar.
    destruct (Z.ltb_spec (highestFK5 s) n); [lia|].
    destruct (Z.eqb_spec n 0); [lia|].
    by rewrite bool_decide_eq_true_2 by (rewrite Hr; eauto). }
  unfold mergeLine. rewrite Hb, Hc, Hv, E1, E2. by rewrite andb_false_r.
Qed.

(** X22.  A bright-star line whose FK5 column names a star of the primary
    catalog adds no record: it is merged into the record of that star,
    which gets the bright-star number of the line and, when the name
    field of the line is not blank, the designation read from it, while
    name, position, proper motion and magnitude stay those of the
    primary catalog.  The tables [bsc2fk5], [bscIndex] and, for a
    positive HD number, [hd2bsc] then lead from the line to that
    record. *)
Theorem bright_star_merged_into_primary
  (s : State) (l : BSCLine) (carried n : Z) (v : Q) (r : nat)
  (o : StarInfo) :
  bsc_blank l = false → bsc2fk5 s !! bsc_bscNum l = Some carried →
  bsc_vmag l = Some v → bsc_fk5 l = Some n →
  0 < n ≤ highestFK5 s → fk5Index s !! n = Some r → heap s !! r = Some o →
  let s' := mergeLine s l in
  fk5Index s' = fk5Index s ∧ totalBSC s' = totalBSC s ∧
  bsc2fk5 s' !! bsc_bscNum l = Some n ∧
  bscIndex s' !! bsc_bscNum l = Some r ∧
  (0 < bsc_hd l → hd2bsc s' !! bsc_hd l = Some (bsc_bscNum l)) ∧
  ∃ o', starAt s' n = Some o' ∧
        bscNum o' = Some (bsc_bscNum l) ∧
        sameButDesignation o o' ∧
        (JsString.trim (bsc_name l) = EmptyString →
         (flamsteed o', bayerRank o', subIndex o', constellation o')
         = (flamsteed o, bayerRank o, subIndex o, constellation o)) ∧
        (JsString.trim (bsc_name l) ≠ EmptyString →
         flamsteed o' = Some (bsc_flamsteedNum l) ∧
         bayerRank o' = Some (bscBayerRank (bsc_name l)) ∧
         subIndex o' = Some (bsc_subIndex l) ∧
         ∃ c, constellation o' = Some c ∧ 0 ≤ c ≤ 88).
Proof.
  intros Hb Hc Hv Hf Hn Hr Ho s'. subst s'.
  rewrite (mergeLine_identified s l carried n v r Hb Hc Hv Hf Hn Hr).
  destruct (annotateBsc_frame s l n) as (EI & _ & EB & _).
  split; [done|]. split; [done|].
  assert (0 < n) as Hn0 by lia.
  assert (bsc2fk5 (annotateBsc s l n) !! bsc_bscNum l = Some n ∧
          bscIndex (annotateBsc s l n) !! bsc_bscNum l = Some r ∧
          (0 < bsc_hd l →
           hd2bsc (annotateBsc s l n) !! bsc_hd l = Some (bsc_bscNum l)))
    as (T1 & T2 & T3).
  { unfold annotateBsc. apply Z.ltb_lt in Hn0. rewrite Hn0, Hr. cbn zeta.
    destruct (Z.ltb_spec 0 (bsc_hd l)); destruct (negb _); fields;
      rewrite ?lookup_insert_eq; (split; [done|split; [done|]]);
      intros; try done; lia. }
  split; [done|]. split; [done|]. split; [done|].
  pose proof (annotateBsc_result s l n r o Hn0 Hr Ho) as E.
  pose proof (constellation_range
                (JsString.toLowerCase
                   (JsString.substring 7 10 (bsc_name l)))) as Hrange.
  set (c := JsString.indexOf _ constellationCodes + 1) in *.
  clearbody c.
  unfold starAt. rewrite EI, Hr. cbn [mbind option_bind]. rewrite E.
  eexists. split; [done|].
  destruct (JsString.trim (bsc_name l)) as [|ch rest]; cbn [JsString.isEmpty negb].
  - split; [done|]. split; [by split; [|split; [|cbn; eauto]]|].
    split; [done|]. intros X. done.
  - split; [done|]. split; [by split; [|split; [|cbn; eauto]]|].
    split; [intros X; done|]. intros _. cbn.
    split; [done|]. split; [done|]. split; [done|]. eauto.
Qed.


(** ** The name pattern of the notes *)

Lemma append_cons (c : ascii) (x y : string) :
  String.append (String c x) y = String c (String.append x y).
Proof. done. Qed.

Lemma upperOrSpaces_cons (c : ascii) (x : string) :
  upperOrSpaces (String c x)
  = (JsString.isUpper c || Ascii.eqb c " ") && upperOrSpaces x.
Proof.
  unfold upperOrSpaces. cbn [JsString.any].
  by rewrite negb_orb, negb_involutive.
Qed.

Lemma upperRun_spec (s : string) :
  s = String.append (fst (upperRun s)) (snd (upperRun s)) ∧
  upperOrSpaces (fst (upperRun s)) = true ∧
  match snd (upperRun s) with
  | String t _ => JsString.isUpper t || Ascii.eqb t " " = false
  | EmptyString => True
  end.
Proof.
  induction s as [|c s (IH1 & IH2 & IH3)]; [done|].
  cbn [upperRun].
  destruct (JsString.isUpper c || Ascii.eqb c " ") eqn:Hc.
  - destruct (upperRun s) as [run rest]. cbn [fst snd] in *.
    rewrite append_cons, <- IH1, upperOrSpaces_cons, Hc, IH2. done.
  - cbn [fst snd]. by rewrite Hc.
Qed.

Lemma upperRun_unique (run rest : string) (t : ascii) :
  upperOrSpaces run = true →
  JsString.isUpper t || Ascii.eqb t " " = false →
  upperRun (String.append run (String t rest)) = (run, String t rest).
Proof.
  intros Hrun Ht. induction run as [|c run IH].
  - change (String.append EmptyString (String t rest)) with (String t rest).
    cbn [upperRun]. by rewrite Ht.
  - rewrite upperOrSpaces_cons in Hrun.
    apply andb_true_iff in Hrun as [Hc Hrun].
    rewrite append_cons. cbn [upperRun]. by rewrite Hc, IH.
Qed.

(** X23.  The name taken from the text of a note is defined exactly when
    the text starts with an upper-case letter followed by at least one
    more character among upper-case letters and spaces, and the first
    character after these is a full stop or a semicolon; the name is the
    text up to that character. *)
Theorem notes_name_pattern (text nm : string) :
  notesName text = Some nm ↔
  ∃ c run t rest,
    text = String c (String.append run (String t rest)) ∧
    nm = String c run ∧
    JsString.isUpper c = true ∧ run ≠ EmptyString ∧
    upperOrSpaces run = true ∧
    (t = "."%char ∨ t = ";"%char).
Proof.
  split.
  - unfold notesName. destruct text as [|c r]; [done|].
    destruct (JsString.isUpper c) eqn:Hc; [|done].
    destruct (upperRun_spec r) as (E & Hrun & Hrest).
    destruct (upperRun r) as [run rest]. cbn [fst snd] in *.
    destruct run as [|c1 run]; [done|].
    destruct rest as [|t rest]; [done|].
    destruct (Ascii.eqb_spec t ".") as [->|N1]; cbn [orb].
    + intros [= <-]. exists c, (String c1 run), "."%char, rest.
      rewrite E. auto 10.
    + destruct (Ascii.eqb_spec t ";") as [->|N2]; [|done].
      intros [= <-]. exists c, (String c1 run), ";"%char, rest.
      rewrite E. auto 10.
  - intros (c & run & t & rest & -> & -> & Hc & Hne & Hrun & Ht).
    unfold notesName. rewrite Hc.
    rewrite (upperRun_unique run rest t Hrun)
      by (destruct Ht as [->| ->]; reflexivity).
    destruct run as [|c1 run]; [done|].
    destruct Ht as [->| ->]; reflexivity.
Qed.


(** ** Deep-sky records in the order of the data file *)

Lemma ngcDataLoop_keeps (lines : list NgcDataLine) (st st' : Z * State)
      (k : Z) (o : StarInfo) :
  ngcDataLoop st lines = Some st' → Layout (snd st) →
  starAt (snd st) k = Some o → starAt (snd st') k = Some o.
Proof.
  intros E L Ho.
  destruct (ngcDataLoop_records (λ _, True) (top (snd st)) lines st st' E L)
    as (_ & S & [added A] & _).
  { intros k' Hk'. lia. }
  { done. }
  unfold starAt in *.
  destruct (fk5Index (snd st) !! k) as [r|] eqn:Er; [|done].
  cbn [mbind option_bind] in Ho.
  rewrite (lookup_weaken _ _ _ _ Er S). cbn [mbind option_bind].
  rewrite A. by apply lookup_app_l_Some.
Qed.

Lemma ngcDataLine_step (d d1 : Z) (s s1 : State) (l : NgcDataLine) :
  ngcDataLine (d, s) l = Some (d1, s1) → Layout s →
  Layout s1 ∧ ngcs s1 = ngcs s ∧
  ((keptLines (ngcs s) d [l] = [] ∧ s1 = s) ∨
   (keptLines (ngcs s) d [l] = [l] ∧ top s1 = top s + 1 ∧
    ∃ p c, nd_position l = Some p ∧ nd_constellation l = Some c ∧
           starAt s1 (top s + 1)
           = Some (ngcStar l (ngcs s !! nd_ngcIcNum l) p c))).
Proof.
  intros H L.
  destruct (ngcDataLine_records (λ _, True) (top s) (d, s) (d1, s1) l H L)
    as (L1 & _ & _ & _ & _ & [= _ _ _ _ En _]).
  { intros k' Hk'. cbn [snd] in Hk'. lia. }
  { done. }
  cbn [snd] in *. split; [done|]. split; [done|].
  unfold ngcDataLine in H. cbn [keptLines].
  destruct (nd_dash l); [left; by injection H as _ <-|].
  destruct (_ || _); [left; by injection H as _ <-|].
  cbn zeta in H.
  destruct (_ && _); [left; by injection H as _ <-|].
  destruct (nd_position l) as [p|]; [|done]. cbn in H.
  destruct (nd_constellation l) as [c|]; [|done]. cbn in H.
  injection H as _ <-. right. split; [done|].
  split; [unfold top; fields; lia|].
  exists p, c. split; [done|]. split; [done|].
  unfold starAt. fields.
  replace (top s + 1) with (highestStar s + (totalDSO s + 1))
    by (unfold top; lia).
  rewrite lookup_insert_eq. cbn. apply heap_alloc_lookup.
Qed.

Lemma keptLines_cons (tbl : gmap Z NGCMatchInfo) (d : Z) (l : NgcDataLine)
      (rest : list NgcDataLine) :
  keptLines tbl d (l :: rest)
  = keptLines tbl d [l]
    ++ keptLines tbl (d + (if nd_dash l then 1 else 0)) rest.
Proof.
  cbn [keptLines]. destruct (nd_dash l); [done|]. rewrite Z.add_0_r.
  destruct (_ || _); [done|]. by destruct (_ && _).
Qed.

Lemma ngcDataLoop_order (lines : list NgcDataLine) :
  ∀ (d : Z) (s : State) (st' : Z * State),
    ngcDataLoop (d, s) lines = Some st' → Layout s →
    top (snd st')
    = top s + Z.of_nat (length (keptLines (ngcs s) d lines)) ∧
    ∀ (i : nat) (l : NgcDataLine),
      keptLines (ngcs s) d lines !! i = Some l →
      ∃ p c, nd_position l = Some p ∧ nd_constellation l = Some c ∧
             starAt (snd st') (top s + 1 + Z.of_nat i)
             = Some (ngcStar l (ngcs s !! nd_ngcIcNum l) p c).
Proof.
  induction lines as [|l lines IH]; intros d s st' H L; cbn [ngcDataLoop] in H.
  - injection H as <-. cbn. split; [lia|]. intros i l Hl. done.
  - destruct (ngcDataLine (d, s) l) as [[d1 s1]|] eqn:E; [|done].
    cbn [mbind option_bind] in H.
    destruct (ngcDataLine_some _ _ _ _ _ E) as [Ed _].
    destruct (ngcDataLine_step _ _ _ _ _ E L) as (L1 & En & Hcase).
    destruct (IH d1 s1 st' H L1) as [Ht Hrec].
    rewrite En, Ed in Ht, Hrec. rewrite keptLines_cons.
    destruct Hcase as [[Ek ->]|(Ek & Et & p & c & Hp & Hc & Ho)]; rewrite Ek.
    + done.
    + cbn [app length]. split; [lia|].
      intros [|i] l' Hl'; cbn in Hl'.
      * injection Hl' as <-. exists p, c. split; [done|]. split; [done|].
        rewrite Z.add_0_r.
        by apply (ngcDataLoop_keeps lines (d1, s1) st' _ _ H L1).
      * destruct (Hrec i l' Hl') as (p' & c' & ? & ? & Ho').
        exists p', c'. split; [done|]. split; [done|].
        rewrite <- Ho'. f_equal. lia.
Qed.

(** X24.  The records of the deep-sky stage follow the order of the data
    file: the stage appends one record for each line it retains, the
    lines after the second divider that are not empty and whose object
    has a name entry or a magnitude up to 6.0, and the record of the
    retained line number i, counted from 0, is found i + 1 keys above the
    former last key. *)
Theorem deep_sky_records_in_file_order (src : Sources) (s5 s : State) :
  afterNgcNames src = Some s5 →
  processNgcData s5 (ngcData src) = Some s →
  let kept := keptLines (ngcs s5) 0 (ngcData src) in
  top s = top s5 + Z.of_nat (length kept) ∧
  ∀ (i : nat) (l : NgcDataLine),
    kept !! i = Some l →
    ∃ p c, nd_position l = Some p ∧ nd_constellation l = Some c ∧
           starAt s (top s5 + 1 + Z.of_nat i)
           = Some (ngcStar l (ngcs s5 !! nd_ngcIcNum l) p c).
Proof.
  intros H5 H6 kept. subst kept.
  assert (pipeline src = Some s) as HP
    by (unfold pipeline; by rewrite H5).
  destruct (pipeline_layout src s HP)
    as (s3 & s4 & _ & _ & E5 & _ & _ & _ & _ & _ & _ & _ & _ & _ & _ & _
        & _ & L5 & _).
  rewrite H5 in E5. injection E5 as E5. rewrite <- E5 in L5. clear E5.
  unfold processNgcData in H6.
  destruct (ngcDataLoop (0, s5) (ngcData src)) as [st'|] eqn:E; [|done].
  injection H6 as <-.
  exact (ngcDataLoop_order (ngcData src) 0 s5 st' E L5).
Qed.

End Generator.

(** * The properties on concrete inputs *)

(** ** Runs of the properties that have premises *)

Lemma registry_blocks_example :
  ∃ s, pipeline titleCase cosDegPoly sampleSources = Some s ∧
       (highestFK5 s, totalBSC s, totalHIP s, totalDSO s) = (139, 2, 1, 2) ∧
       keys s = primaryBlock titleCase sampleSources
                ∪ brightStarBlock titleCase cosDegPoly sampleSources
                ∪ astrometryBlock titleCase cosDegPoly sampleSources
                ∪ deepSkyBlock titleCase cosDegPoly sampleSources ∧
       (∀ k, k ∈ brightStarBlock titleCase cosDegPoly sampleSources ↔
             highestFK5 s < k ≤ highestFK5 s + totalBSC s).
Proof.
  assert ((s ← pipeline titleCase cosDegPoly sampleSources;
           Some (highestFK5 s, totalBSC s, totalHIP s, totalDSO s))
          = Some (139, 2, 1, 2)) as C by (vm_compute; reflexivity).
  destruct (pipeline titleCase cosDegPoly sampleSources) as [s|] eqn:E;
    [|discriminate C].
  exists s. split; [reflexivity|].
  cbn [mbind option_bind] in C. split; [congruence|].
  pose proof (registry_blocks titleCase cosDegPoly sampleSources s E) as H.
  cbv zeta in H. destruct H as (_ & _ & HU & _ & HB & _).
  split; [exact HU|exact HB].
Defined.

Lemma bayer_tier_rule_example :
  (magLimitBSC < 6.4)%Q ∧ includes 1 bscExtras = false ∧
  (brightEnough 6.4 1 5 = true ↔ 1 ≤ 5 ≤ 7 ∧ (6.4 <= 6.5)%Q).
Proof.
  assert ((magLimitBSC < 6.4)%Q) as H1 by (vm_compute; reflexivity).
  assert (includes 1 bscExtras = false) as H2 by reflexivity.
  split; [exact H1|]. split; [exact H2|].
  exact (proj1 (bayer_tier_rule cosDegPoly 6.4 1 5 H1 H2)).
Defined.

Lemma scan_keeps_brighter_of_pair_example :
  let l1 := sampleBSC 10 "   Alp Cen" 3.0%Q in
  let l2 := sampleBSC 11 "   Alp Cen" 4.5%Q in
  let post := [sampleBSC 20 "   Bet Cen" 0.6%Q] in
  let T := bsc2fk5 (snd (scanLines initialState ([] ++ l1 :: l2 :: post))) in
  bsc_name l1 = bsc_name l2 ∧
  JsString.trim (bsc_name l1) ≠ EmptyString ∧
  bsc_bscNum l1 ≠ bsc_bscNum l2 ∧
  T !! 10 = Some 0 ∧ T !! 11 = None.
Proof.
  intros l1 l2 post T.
  assert (bsc_name l1 = bsc_name l2) as H1 by reflexivity.
  assert (JsString.trim (bsc_name l1) ≠ EmptyString) as H2
    by (vm_compute; discriminate).
  assert (bsc_bscNum l1 ≠ bsc_bscNum l2) as H3 by (vm_compute; discriminate).
  split; [exact H1|]. split; [exact H2|]. split; [exact H3|].
  refine (proj1 (scan_keeps_brighter_of_pair cosDegPoly initialState [] post
                   l1 l2 3.0%Q 4.5%Q eq_refl eq_refl eq_refl eq_refl H1 H2 H3
                   _ _ _) _).
  - vm_compute. discriminate.
  - vm_compute. discriminate.
  - intros l Hl. apply list_elem_of_singleton in Hl as ->.
    intros _. vm_compute. split; discriminate.
  - vm_compute. discriminate.
Defined.


Lemma gap_bytes_example :
  ∃ s out,
    pipeline titleCase cosDegPoly sampleSources = Some s ∧
    writeStarCatalog false s = Some out ∧
    41 ∈ primaryBlock titleCase sampleSources ∧
    (42 ∉ primaryBlock titleCase sampleSources) ∧
    43 ∈ primaryBlock titleCase sampleSources ∧
    ∃ o41 o43,
      out = (header false ++ concat (segment false s <$> seqZ 1 40))
            ++ recordOps false s 41 o41 ++ [gapByte]
            ++ recordOps false s 43 o43
            ++ concat (segment false s <$> seqZ 44 (top s - 43)).
Proof.
  assert ((s ← pipeline titleCase cosDegPoly sampleSources;
           Some (writable s)) = Some true) as C by (vm_compute; reflexivity).
  destruct (pipeline titleCase cosDegPoly sampleSources) as [s|] eqn:E;
    [|discriminate C].
  cbn [mbind option_bind] in C. injection C as Hw.
  destruct (writer_completes false s Hw) as [out W].
  assert (41 ∈ primaryBlock titleCase sampleSources) as H41
    by (apply elem_of_dom; vm_compute; eauto).
  assert (42 ∉ primaryBlock titleCase sampleSources) as H42
    by (unfold primaryBlock, keys; intros [r Hr]%elem_of_dom;
        vm_compute in Hr; discriminate).
  assert (43 ∈ primaryBlock titleCase sampleSources) as H43
    by (apply elem_of_dom; vm_compute; eauto).
  exists s, out. split; [reflexivity|]. split; [exact W|].
  split; [exact H41|]. split; [exact H42|]. split; [exact H43|].
  destruct (gap_bytes titleCase cosDegPoly sampleSources s false out E W)
    as (_ & _ & G).
  destruct (G H41 H42 H43) as (o41 & o43 & _ & _ & Eout).
  exists o41, o43. exact Eout.
Defined.

Lemma category_markers_example :
  ∃ s out,
    pipeline titleCase cosDegPoly sampleSources = Some s ∧
    writeStarCatalog false s = Some out ∧
    (highestFK5 s, totalBSC s, totalHIP s) = (139, 2, 1) ∧
    out = header false ++ concat (segment false s <$> seqZ 1 (top s)) ∧
    boundaryMarkers 139 2 1 140 = [markerByte] ∧
    boundaryMarkers 139 2 1 143 = [markerByte].
Proof.
  assert ((s ← pipeline titleCase cosDegPoly sampleSources;
           Some (writable s, (highestFK5 s, totalBSC s, totalHIP s)))
          = Some (true, (139, 2, 1))) as C by (vm_compute; reflexivity).
  destruct (pipeline titleCase cosDegPoly sampleSources) as [s|] eqn:E;
    [|discriminate C].
  cbn [mbind option_bind] in C. injection C as Hw C1 C2 C3.
  destruct (writer_completes false s Hw) as [out W].
  exists s, out. split; [reflexivity|]. split; [exact W|].
  split; [congruence|].
  pose proof (category_markers titleCase cosDegPoly sampleSources s false
                out E W) as H.
  cbv zeta in H. destruct H as (_ & _ & _ & Eout & _).
  split; [exact Eout|]. split; reflexivity.
Defined.


Lemma name_filter_rule_example :
  "Polaris"%string ≠ EmptyString ∧
  titleCase "Polaris" = "Polaris"%string ∧
  acceptName titleCase "Polaris" = Some "Polaris"%string ∧
  acceptName titleCase "12 Persei" = None.
Proof.
  assert ("Polaris"%string ≠ EmptyString) as H1 by discriminate.
  assert (titleCase "Polaris" = "Polaris"%string) as H2 by reflexivity.
  split; [exact H1|]. split; [exact H2|].
  destruct (name_filter_rule titleCase "Polaris" H1 H2)
    as (_ & _ & _ & E12 & _ & EP).
  split; [exact EP|exact E12].
Defined.

Lemma ngc_records_zero_motion_example :
  ∃ s5 s out,
    afterNgcNames titleCase cosDegPoly sampleSources = Some s5 ∧
    processNgcData s5 (ngcData sampleSources) = Some s ∧
    writeStarCatalog false s = Some out ∧
    144 ∈ keys s ∖ keys s5 ∧
    ∃ o pre post,
      starAt s 144 = Some o ∧
      out = pre ++ recordOps false s 144 o ++ post.
Proof.
  assert ((s5 ← afterNgcNames titleCase cosDegPoly sampleSources;
           s ← processNgcData s5 (ngcData sampleSources);
           Some (writable s, (fk5Index s5 !! 144, fk5Index s !! 144)))
          = Some (true, (None, Some 7%nat))) as C
    by (vm_compute; reflexivity).
  destruct (afterNgcNames titleCase cosDegPoly sampleSources) as [s5|] eqn:E5;
    [|discriminate C].
  cbn [mbind option_bind] in C.
  destruct (processNgcData s5 (ngcData sampleSources)) as [s|] eqn:E6;
    [|discriminate C].
  cbn [mbind option_bind] in C. injection C as Hw C5 C7.
  destruct (writer_completes false s Hw) as [out W].
  assert (144 ∈ keys s ∖ keys s5) as K.
  { apply elem_of_difference. split.
    - apply elem_of_dom. rewrite C7. eauto.
    - unfold keys. intros [r Hr]%elem_of_dom. congruence. }
  exists s5, s, out. split; [reflexivity|]. split; [exact E6|].
  split; [exact W|]. split; [exact K|].
  destruct (ngc_records_zero_motion titleCase cosDegPoly sampleSources
              s5 s false out E5 E6 W 144 K)
    as (o & pre & post & Eo & _ & _ & _ & _ & E).
  exists o, pre, post. split; [exact Eo|exact E].
Defined.

(** ** Inputs on which the specification's wording and the code differ *)

(** The specification's name rule rejects "al Nair" (two lower-case
    letters and a space); the pattern lets it through because the second
    letter is [l], and the name is stored. *)
Lemma name_rule_counterexample :
  designationFragment "al Nair" ∧
  FK5_NAMES_TO_SKIP "al Nair" = false ∧
  acceptName titleCase "al Nair" = Some "Al Nair"%string.
Proof.
  split; [|split; reflexivity].
  right. exists "a"%char, "l"%char, "Nair"%string. repeat split.
Qed.

(** A line with Bayer rank 5 and magnitude 6.4, above the general ceiling
    and outside the legacy list: the specification's tiers exclude it, the
    test of the code includes it and the line becomes registry entry 1. *)
Lemma bayer_tiers_counterexample :
  bscBayerRank (bsc_name sampleRank5) = 5 ∧
  bsc_vmag sampleRank5 = Some 6.4%Q ∧
  (magLimitBSC < 6.4)%Q ∧
  includes (bsc_bscNum sampleRank5) bscExtras = false ∧
  specBayerTiers 5 6.4 = false ∧
  brightEnough 6.4 (bsc_bscNum sampleRank5) 5 = true ∧
  totalBSC (processYaleBrightStarCatalog cosDegPoly initialState [sampleRank5])
  = 1 ∧
  bscNum <$> starAt (processYaleBrightStarCatalog cosDegPoly initialState
                       [sampleRank5]) 1
  = Some (Some 1).
Proof. repeat split; vm_compute; reflexivity. Qed.

(** Three consecutive lines with the same name and magnitudes 3.0, 4.5 and
    2.0: the first two are a consecutive pair with the same name, and after
    the first scan neither of them has an entry; only the third has. *)
Lemma consecutive_pair_counterexample :
  let T := bsc2fk5 (snd (scanLines initialState sampleRun)) in
  bsc_name <$> sampleRun
  = ["   Alp Cen"; "   Alp Cen"; "   Alp Cen"]%string ∧
  bsc_vmag <$> sampleRun = [Some 3.0%Q; Some 4.5%Q; Some 2.0%Q] ∧
  bsc_bscNum <$> sampleRun = [10; 11; 12] ∧
  T !! 10 = None ∧ T !! 11 = None ∧ T !! 12 = Some 0.
Proof. repeat split; vm_compute; reflexivity. Qed.



(** C9.  The second bright-star line is dropped as a duplicate in the first
    scan, so [bsc2fk5] has no entry for number 3; the guard of the notes
    stage only skips entries equal to 0, the note for number 3 with code
    "1N:" reaches the assignment, and the run aborts. *)
Theorem notes_abort_on_dropped_duplicate :
  bsc2fk5 (afterBsc titleCase cosDegPoly sampleDroppedNote) !! 3 = None ∧
  JsString.trim (note_code (mkNoteLine false 3 "  1N: " "RIGIL KENTAURUS; a name"))
  = "1N:"%string ∧
  notesName "RIGIL KENTAURUS; a name" = Some "RIGIL KENTAURUS"%string ∧
  afterNotes titleCase cosDegPoly sampleDroppedNote = None ∧
  pipeline titleCase cosDegPoly sampleDroppedNote = None.
Proof. repeat split; vm_compute; reflexivity. Qed.

(** ** Runs of the further properties that have premises *)


Lemma bright_star_stage_keeps_primary_data_example :
  ∃ o o',
    starAt (afterCrossIndex titleCase sampleSources) 41 = Some o ∧
    starAt (afterBsc titleCase cosDegPoly sampleSources) 41 = Some o' ∧
    sameButDesignation o o'.
Proof.
  assert (is_Some (starAt (afterCrossIndex titleCase sampleSources) 41))
    as [o Ho] by (vm_compute; eauto).
  destruct (bright_star_stage_keeps_primary_data titleCase cosDegPoly
              sampleSources 41 o Ho) as (o' & Ho' & R).
  exists o, o'. split; [exact Ho|]. split; [exact Ho'|exact R].
Defined.

Lemma notes_stage_changes_names_only_example :
  ∃ s',
    processYaleBrightStarCatalogNotes titleCase
      (afterBsc titleCase cosDegPoly sampleSources) (bscNotes sampleSources)
    = Some s' ∧
    s' = withHeap (heap s') (afterBsc titleCase cosDegPoly sampleSources).
Proof.
  assert ((s' ← processYaleBrightStarCatalogNotes titleCase
                  (afterBsc titleCase cosDegPoly sampleSources)
                  (bscNotes sampleSources); Some tt) = Some tt) as C
    by (vm_compute; reflexivity).
  destruct (processYaleBrightStarCatalogNotes titleCase
              (afterBsc titleCase cosDegPoly sampleSources)
              (bscNotes sampleSources)) as [s'|] eqn:E; [|discriminate C].
  exists s'. split; [reflexivity|].
  exact (proj1 (notes_stage_changes_names_only titleCase _ s' _ E)).
Defined.

Lemma hipparcos_stage_refines_records_example :
  ∃ s3 s o o',
    afterNotes titleCase cosDegPoly sampleSources = Some s3 ∧
    afterHipparcos titleCase cosDegPoly sampleSources = Some s ∧
    starAt s3 41 = Some o ∧ starAt s 41 = Some o' ∧ refinedBy o o'.
Proof.
  assert ((s3 ← afterNotes titleCase cosDegPoly sampleSources;
           s ← afterHipparcos titleCase cosDegPoly sampleSources;
           _ ← starAt s3 41; Some tt) = Some tt) as C
    by (vm_compute; reflexivity).
  destruct (afterNotes titleCase cosDegPoly sampleSources) as [s3|] eqn:E3;
    [|discriminate C].
  cbn [mbind option_bind] in C.
  destruct (afterHipparcos titleCase cosDegPoly sampleSources) as [s|] eqn:E4;
    [|discriminate C].
  cbn [mbind option_bind] in C.
  destruct (starAt s3 41) as [o|] eqn:Eo; [|discriminate C].
  destruct (hipparcos_stage_refines_records titleCase cosDegPoly
              sampleSources s3 s 41 o E3 E4 Eo) as (o' & Ho' & R).
  exists s3, s, o, o'. split; [reflexivity|]. split; [reflexivity|].
  split; [exact Eo|]. split; [exact Ho'|exact R].
Defined.

Lemma hipparcos_stage_completes_example :
  ∃ s3,
    afterNotes titleCase cosDegPoly sampleSources = Some s3 ∧
    is_Some (afterHipparcos titleCase cosDegPoly sampleSources).
Proof.
  assert ((s3 ← afterNotes titleCase cosDegPoly sampleSources; Some tt)
          = Some tt) as C by (vm_compute; reflexivity).
  destruct (afterNotes titleCase cosDegPoly sampleSources) as [s3|] eqn:E3;
    [|discriminate C].
  exists s3. split; [reflexivity|].
  exact (proj1 (hipparcos_stage_completes titleCase cosDegPoly
                  sampleSources s3 E3)).
Defined.

Lemma ngc_names_accumulate_example :
  let before := [mkNgcNameLine true false "" 0 None;
                 mkNgcNameLine true false "" 0 None;
                 mkNgcNameLine false false "M 31" 31 (Some 224)] in
  let after := [mkNgcNameLine false false "Great Nebula in Andromeda" 0
                              (Some 224)] in
  ngcs (processNgcNames initialState before) !! 224
  = Some (mkNgc 224 31 EmptyString) ∧
  ∃ info',
    ngcs (processNgcNames initialState (before ++ after)) !! 224
    = Some info' ∧
    extendsInfo (mkNgc 224 31 EmptyString) info'.
Proof.
  intros before after.
  assert (ngcs (processNgcNames initialState before) !! 224
          = Some (mkNgc 224 31 EmptyString)) as H by reflexivity.
  split; [exact H|].
  exact (proj2 (ngc_names_accumulate initialState before after) 224 _ H).
Defined.

Lemma deep_sky_stage_appends_example :
  ∃ s5 s,
    afterNgcNames titleCase cosDegPoly sampleSources = Some s5 ∧
    processNgcData s5 (ngcData sampleSources) = Some s ∧
    recordsAbove (fromDataLine (ngcs s5) (ngcData sampleSources)) (top s5) s.
Proof.
  assert ((s5 ← afterNgcNames titleCase cosDegPoly sampleSources;
           s ← processNgcData s5 (ngcData sampleSources); Some tt)
          = Some tt) as C by (vm_compute; reflexivity).
  destruct (afterNgcNames titleCase cosDegPoly sampleSources) as [s5|] eqn:E5;
    [|discriminate C].
  cbn [mbind option_bind] in C.
  destruct (processNgcData s5 (ngcData sampleSources)) as [s|] eqn:E6;
    [|discriminate C].
  exists s5, s. split; [reflexivity|]. split; [exact E6|].
  exact (proj1 (proj2 (deep_sky_stage_appends titleCase cosDegPoly
                         sampleSources s5 s E5 E6))).
Defined.

Lemma records_located_and_coded_example :
  ∃ s o,
    pipeline titleCase cosDegPoly sampleSources = Some s ∧
    starAt s 144 = Some o ∧ located o ∧ wellCoded o.
Proof.
  assert ((s ← pipeline titleCase cosDegPoly sampleSources;
           _ ← starAt s 144; Some tt) = Some tt) as C
    by (vm_compute; reflexivity).
  destruct (pipeline titleCase cosDegPoly sampleSources) as [s|] eqn:E;
    [|discriminate C].
  cbn [mbind option_bind] in C.
  destruct (starAt s 144) as [o|] eqn:Eo; [|discriminate C].
  exists s, o. split; [reflexivity|]. split; [exact Eo|].
  exact (records_located_and_coded titleCase cosDegPoly sampleSources s E
           144 o Eo).
Defined.

Lemma bright_star_block_rule_example :
  140 ∈ brightStarBlock titleCase cosDegPoly sampleSources ∧
  ∃ o, starAt (afterBsc titleCase cosDegPoly sampleSources) 140 = Some o ∧
       fromCatalogLine cosDegPoly (bscCatalog sampleSources) o.
Proof.
  assert (140 ∈ brightStarBlock titleCase cosDegPoly sampleSources) as H.
  { apply elem_of_difference. split.
    - apply elem_of_dom. vm_compute. eauto.
    - unfold keys. intros [r Hr]%elem_of_dom. vm_compute in Hr.
      discriminate. }
  split; [exact H|].
  exact (bright_star_block_rule titleCase cosDegPoly sampleSources 140 H).
Defined.

Lemma astrometry_block_rule_example :
  142 ∈ astrometryBlock titleCase cosDegPoly sampleSources ∧
  ∃ s4 o,
    afterHipparcosLoop titleCase cosDegPoly sampleSources = Some s4 ∧
    starAt s4 142 = Some o ∧
    ∃ m, vmag o = Some m ∧ (m <= magLimitHipparcos)%Q.
Proof.
  assert ((s ← pipeline titleCase cosDegPoly sampleSources;
           Some (highestFK5 s, totalBSC s, totalHIP s))
          = Some (139, 2, 1)) as C by (vm_compute; reflexivity).
  destruct (pipeline titleCase cosDegPoly sampleSources) as [s|] eqn:E;
    [|discriminate C].
  cbn [mbind option_bind] in C. injection C as C1 C2 C3.
  destruct (block_intervals titleCase cosDegPoly sampleSources s E)
    as (_ & _ & _ & _ & _ & I3 & _).
  assert (142 ∈ astrometryBlock titleCase cosDegPoly sampleSources) as H
    by (apply I3; rewrite C1, C2, C3; lia).
  split; [exact H|].
  destruct (astrometry_block_rule titleCase cosDegPoly sampleSources 142 H)
    as (s4 & o & E4 & Ho & _ & _ & _ & Hm).
  exists s4, o. split; [exact E4|]. split; [exact Ho|exact Hm].
Defined.

Lemma trailer_by_block_example :
  ∃ s o,
    pipeline titleCase cosDegPoly sampleSources = Some s ∧
    starAt s 140 = Some o ∧
    140 ∈ brightStarBlock titleCase cosDegPoly sampleSources ∧
    ∃ b, bscNum o = Some b ∧ trailerOps s 140 o = [writeUInt16 (Some b)].
Proof.
  assert ((s ← pipeline titleCase cosDegPoly sampleSources;
           _ ← starAt s 140;
           Some (highestFK5 s, totalBSC s)) = Some (139, 2)) as C
    by (vm_compute; reflexivity).
  destruct (pipeline titleCase cosDegPoly sampleSources) as [s|] eqn:E;
    [|discriminate C].
  cbn [mbind option_bind] in C.
  destruct (starAt s 140) as [o|] eqn:Eo; [|discriminate C].
  cbn [mbind option_bind] in C. injection C as C1 C2.
  destruct (block_intervals titleCase cosDegPoly sampleSources s E)
    as (_ & _ & _ & _ & I2 & _).
  assert (140 ∈ brightStarBlock titleCase cosDegPoly sampleSources) as H
    by (apply I2; rewrite C1, C2; lia).
  exists s, o. split; [reflexivity|]. split; [exact Eo|]. split; [exact H|].
  exact (proj1 (proj2 (trailer_by_block titleCase cosDegPoly sampleSources
                         s 140 o E Eo)) H).
Defined.

Lemma scan_keeps_one_of_a_run_example :
  let nm := "   Alp Cen"%string in
  JsString.trim nm ≠ EmptyString ∧
  lastName initialScan ≠ nm ∧
  NoDup (bsc_bscNum <$> sampleRun) ∧
  ∃ w m,
    w ∈ sampleRun ∧ bsc_vmag w = Some m ∧
    (∀ l m', l ∈ sampleRun → bsc_vmag l = Some m' → (m <= m')%Q).
Proof.
  intros nm.
  assert (JsString.trim nm ≠ EmptyString) as H1 by (vm_compute; discriminate).
  assert (lastName initialScan ≠ nm) as H2 by (vm_compute; discriminate).
  assert (sampleRun ≠ []) as H3 by (vm_compute; discriminate).
  assert (∀ l, l ∈ sampleRun → rated l = true ∧ bsc_name l = nm) as H4.
  { intros l Hl. unfold sampleRun in Hl.
    apply elem_of_cons in Hl as [->|Hl]; [split; reflexivity|].
    apply elem_of_cons in Hl as [->|Hl]; [split; reflexivity|].
    apply list_elem_of_singleton in Hl as ->. split; reflexivity. }
  assert (NoDup (bsc_bscNum <$> sampleRun)) as H5.
  { apply (bool_decide_unpack _). vm_compute. exact I. }
  split; [exact H1|]. split; [exact H2|]. split; [exact H5|].
  destruct (scan_keeps_one_of_a_run nm initialScan initialState sampleRun
              H1 H2 H3 H4 H5) as (w & m & Hw & Hm & Hmin & _).
  exists w, m. split; [exact Hw|]. split; [exact Hm|exact Hmin].
Defined.

Lemma pleiades_entry_example :
  ∃ s alcyone,
    pipeline titleCase cosDegPoly sampleSources = Some s ∧
    starAt (afterCrossIndex titleCase sampleSources) 139 = Some alcyone ∧
    starAt s (highestFK5 s + totalBSC s + totalHIP s + 1)
    = Some (pleiadesOf alcyone).
Proof.
  assert ((s ← pipeline titleCase cosDegPoly sampleSources; Some tt)
          = Some tt) as C by (vm_compute; reflexivity).
  destruct (pipeline titleCase cosDegPoly sampleSources) as [s|] eqn:E;
    [|discriminate C].
  assert (is_Some (starAt (afterCrossIndex titleCase sampleSources) 139))
    as [alcyone Ha] by (vm_compute; eauto).
  pose proof (pleiades_entry titleCase cosDegPoly sampleSources s E) as H.
  cbv zeta in H. rewrite Ha in H.
  exists s, alcyone. split; [reflexivity|]. split; [exact Ha|].
  exact (proj1 H).
Defined.

Lemma hipparcos_stops_at_faint_unmatched_row_example :
  let l := mkHIPLine true (Some 1.5%Q) (Some 2.5%Q) 5 (Some 7.0%Q)
                     (Some 10%Q) (Some 20%Q) 0 in
  (magLimitHipparcos < 7.0)%Q ∧
  hipparcosLoop cosDegPoly initialState ([] ++ l :: [sampleRow])
  = hipparcosLoop cosDegPoly initialState [].
Proof.
  intros l.
  assert ((magLimitHipparcos < 7.0)%Q) as H by (vm_compute; reflexivity).
  split; [exact H|].
  refine (proj1 (hipparcos_stops_at_faint_unmatched_row cosDegPoly
                   initialState [] [sampleRow] l 10 20 7.0 1.5 2.5
                   eq_refl _ eq_refl eq_refl eq_refl eq_refl eq_refl _ _ H)).
  - vm_compute. discriminate.
  - vm_compute. discriminate.
  - vm_compute. discriminate.
Defined.

Lemma inclusion_test_monotone_example :
  (6.2 <= 6.4)%Q ∧ brightEnough 6.4 1 5 = true ∧ brightEnough 6.2 1 3 = true.
Proof.
  assert ((6.2 <= 6.4)%Q) as H1 by (vm_compute; discriminate).
  assert (3 = 5 ∨ 0 < 3 ≤ 5) as H2 by (right; lia).
  assert (brightEnough 6.4 1 5 = true) as H3 by reflexivity.
  split; [exact H1|]. split; [exact H3|].
  exact (inclusion_test_monotone 6.4 6.2 1 5 3 H1 H2 H3).
Defined.

Lemma bright_star_merged_into_primary_example :
  let s := withBsc2fk5 {[7 := 0]} (sampleMatched titleCase) in
  let l := mkBSCLine false 7 "  1Alp UMi" 8890 (Some 41) 2 31 48.7%Q false
                     89 15 51 (Some 2.0%Q) 0.01%Q 0.02%Q 1 0 in
  bsc2fk5 s !! bsc_bscNum l = Some 0 ∧
  0 < 41 ≤ highestFK5 s ∧
  fk5Index s !! 41 = Some O ∧
  fk5Index (mergeLine cosDegPoly s l) = fk5Index s ∧
  bscIndex (mergeLine cosDegPoly s l) !! 7 = Some O.
Proof.
  intros s l.
  assert (bsc2fk5 s !! bsc_bscNum l = Some 0) as H1 by reflexivity.
  assert (0 < 41 ≤ highestFK5 s) as H2 by (change (0 < 41 ≤ 41); lia).
  assert (fk5Index s !! 41 = Some O) as H3 by reflexivity.
  split; [exact H1|]. split; [exact H2|]. split; [exact H3|].
  destruct (bright_star_merged_into_primary cosDegPoly s l 0 41 2.0%Q O
              (fk5Star titleCase (sampleFK5 41 "Polaris"))
              eq_refl H1 eq_refl eq_refl H2 H3 eq_refl)
    as (E1 & _ & _ & E4 & _).
  split; [exact E1|exact E4].
Defined.

Lemma deep_sky_records_in_file_order_example :
  ∃ s5 s,
    afterNgcNames titleCase cosDegPoly sampleSources = Some s5 ∧
    processNgcData s5 (ngcData sampleSources) = Some s ∧
    top s = top s5 + Z.of_nat (length (keptLines (ngcs s5) 0
                                         (ngcData sampleSources))).
Proof.
  assert ((s5 ← afterNgcNames titleCase cosDegPoly sampleSources;
           s ← processNgcData s5 (ngcData sampleSources); Some tt)
          = Some tt) as C by (vm_compute; reflexivity).
  destruct (afterNgcNames titleCase cosDegPoly sampleSources) as [s5|] eqn:E5;
    [|discriminate C].
  cbn [mbind option_bind] in C.
  destruct (processNgcData s5 (ngcData sampleSources)) as [s|] eqn:E6;
    [|discriminate C].
  exists s5, s. split; [reflexivity|]. split; [exact E6|].
  exact (proj1 (deep_sky_records_in_file_order titleCase cosDegPoly
                  sampleSources s5 s E5 E6)).
Defined.
